(** * Equipment design for chemical processes: sizing calculators

  A shallow embedding of the three calculators of the repository

  - [Gas-Liquid-Separators/gasliquidsep.py]
  - [Heat-Exchanger/shellandtubeHE.py]
  - [Vessels-and-Towers/weightvessels.py]

  Python floats are read as real numbers ([R]): every result below is a
  statement about the formulas in exact real arithmetic; rounding, overflow
  and signed zeros are not modelled.  What Python does besides arithmetic
  is modelled: exceptions ([ZeroDivisionError], [ValueError], [TypeError],
  unbound local variables), printed warnings, [while] loops that have no
  iteration bound, and the two kinds of scalar the vessel calculation
  works on: Python's own [float] and [complex], whose division raises
  [ZeroDivisionError], and [numpy.float64], whose division yields [inf] or
  [nan] instead. *)

From Stdlib Require Import Reals Lra Lia ZArith String List Bool.
Import ListNotations.

Open Scope R_scope.

(** ** The Python run-time, as far as the calculators use it *)

Module Py.

(** Exceptions the calculators can raise. [ValueError] carries its message,
    [UnboundLocalError] the name of the local variable read before any
    assignment to it. *)
Inductive exn : Type :=
| ZeroDivisionError
| ValueError (msg : string)
| TypeError
| UnboundLocalError (var : string).

(** How a call ends.  [Complex] stands for a negative float raised to a
    fractional power by [float_pow]: Python then carries on with complex
    numbers, which the separator's model does not follow (the vessel's
    does, see [pynum]).  [OutOfFuel] is a [while] loop that is still
    running when the fuel given to the model is used up. *)
Inductive outcome (A : Type) : Type :=
| Returned (a : A)
| Raised (e : exn)
| Complex
| OutOfFuel.

Arguments Returned {A} a.
Arguments Raised {A} e.
Arguments Complex {A}.
Arguments OutOfFuel {A}.

(** A computation: the lines printed so far, and how it ended. *)
Definition M (A : Type) : Type := (list string * outcome A)%type.

Definition ret {A} (a : A) : M A := ([], Returned a).
Definition raise {A} (e : exn) : M A := ([], Raised e).
Definition complex {A} : M A := ([], Complex).
Definition timeout {A} : M A := ([], OutOfFuel).
Definition print (line : string) : M unit := ([line], Returned tt).

Definition bind {A B} (m : M A) (k : A -> M B) : M B :=
  match snd m with
  | Returned a => (fst m ++ fst (k a), snd (k a))
  | Raised e => (fst m, Raised e)
  | Complex => (fst m, Complex)
  | OutOfFuel => (fst m, OutOfFuel)
  end.

(** Reading a local variable that may not have been assigned. *)
Definition deref {A} (var : string) (v : option A) : M A :=
  match v with
  | Some a => ret a
  | None => raise (UnboundLocalError var)
  end.

(** [x / y] on floats. *)
Definition float_div (x y : R) : M R :=
  if Req_dec_T y 0 then raise ZeroDivisionError else ret (x / y).

(** [x ** y] on floats (an [int] exponent is converted to a float first). *)
Definition float_pow (x y : R) : M R :=
  if Req_dec_T x 0 then
    if Rlt_dec y 0 then raise ZeroDivisionError
    else if Req_dec_T y 0 then ret 1 else ret 0
  else if Req_dec_T (IZR (Zfloor y)) y then ret (powerRZ x (Zfloor y))
  else if Rlt_dec 0 x then ret (Rpower x y)
  else complex.

(** [math.sqrt]. *)
Definition math_sqrt (x : R) : M R :=
  if Rlt_dec x 0 then raise (ValueError "math domain error") else ret (sqrt x).

(** [math.ceil] and [math.floor] return an [int]. *)
Definition math_ceil (x : R) : Z := Zceil x.
Definition math_floor (x : R) : Z := Zfloor x.

(** [while cond: body], the fuel counting executions of the body. *)
Fixpoint while {S : Type} (fuel : nat) (cond : S -> bool) (body : S -> M S)
         (s : S) {struct fuel} : M S :=
  if cond s then
    match fuel with
    | O => timeout
    | Datatypes.S fuel' => bind (body s) (while fuel' cond body)
    end
  else ret s.

Definition Rgtb (x y : R) : bool := if Rgt_dec x y then true else false.

(** The built-in [round] with one argument: the nearest [int], a tie going
    to the even neighbour. *)
Definition builtin_round (x : R) : Z :=
  let f := Zfloor x in
  if Rlt_dec (x - IZR f) (1 / 2) then f
  else if Rgt_dec (x - IZR f) (1 / 2) then (f + 1)%Z
  else if Z.even f then f else (f + 1)%Z.

(** *** Python's [float] and [complex]

    A vessel under vacuum raises a quotient to the power 0.4; a negative
    Python float then becomes a [complex], and the calculation goes on with
    complex numbers. *)
Inductive pynum : Type :=
| pyfloat (x : R)
| pycomplex (re im : R).

Coercion pyfloat : R >-> pynum.

(** [x + y], [x - y], [x * y]: a float meeting a complex is converted to a
    complex with imaginary part 0. *)
Definition py_add (x y : pynum) : pynum :=
  match x, y with
  | pyfloat a, pyfloat c => pyfloat (a + c)
  | pyfloat a, pycomplex c d => pycomplex (a + c) d
  | pycomplex a b, pyfloat c => pycomplex (a + c) b
  | pycomplex a b, pycomplex c d => pycomplex (a + c) (b + d)
  end.

Definition py_sub (x y : pynum) : pynum :=
  match x, y with
  | pyfloat a, pyfloat c => pyfloat (a - c)
  | pyfloat a, pycomplex c d => pycomplex (a - c) (- d)
  | pycomplex a b, pyfloat c => pycomplex (a - c) b
  | pycomplex a b, pycomplex c d => pycomplex (a - c) (b - d)
  end.

Definition py_mul (x y : pynum) : pynum :=
  match x, y with
  | pyfloat a, pyfloat c => pyfloat (a * c)
  | pyfloat a, pycomplex c d => pycomplex (a * c) (a * d)
  | pycomplex a b, pyfloat c => pycomplex (a * c) (b * c)
  | pycomplex a b, pycomplex c d => pycomplex (a * c - b * d) (a * d + b * c)
  end.

(** [(a + b j) / (c + d j)]: "complex division by zero" is a
    [ZeroDivisionError]. *)
Definition complex_div (a b c d : R) : M pynum :=
  if Req_dec_T c 0 then
    if Req_dec_T d 0 then raise ZeroDivisionError
    else ret (pycomplex ((a * c + b * d) / (c * c + d * d))
                        ((b * c - a * d) / (c * c + d * d)))
  else ret (pycomplex ((a * c + b * d) / (c * c + d * d))
                      ((b * c - a * d) / (c * c + d * d))).

(** [x / y] *)
Definition py_div (x y : pynum) : M pynum :=
  match x, y with
  | pyfloat a, pyfloat c => bind (float_div a c) (fun q => ret (pyfloat q))
  | pyfloat a, pycomplex c d => complex_div a 0 c d
  | pycomplex a b, pyfloat c => complex_div a b c 0
  | pycomplex a b, pycomplex c d => complex_div a b c d
  end.

(** [math.atan2], the argument of [x + y j] in the interval from [- PI]
    (excluded) to [PI]. *)
Definition atan2 (y x : R) : R :=
  if Rlt_dec 0 x then atan (y / x)
  else if Rlt_dec x 0 then
    if Rle_dec 0 y then atan (y / x) + PI else atan (y / x) - PI
  else if Rlt_dec 0 y then PI / 2
  else if Rlt_dec y 0 then - PI / 2
  else 0.

(** [(a + b j) ** y] for a float [y]: 1 for [y = 0]; on the base 0 the
    result is 0 or, with a negative exponent, a [ZeroDivisionError]; else
    the modulus is raised to [y] and the argument multiplied by [y]. *)
Definition complex_pow (a b y : R) : M pynum :=
  if Req_dec_T y 0 then ret (pycomplex 1 0)
  else if Req_dec_T a 0 then
    if Req_dec_T b 0 then
      if Rlt_dec y 0 then raise ZeroDivisionError else ret (pycomplex 0 0)
    else ret (pycomplex (Rpower (sqrt (a * a + b * b)) y * cos (atan2 b a * y))
                        (Rpower (sqrt (a * a + b * b)) y * sin (atan2 b a * y)))
  else ret (pycomplex (Rpower (sqrt (a * a + b * b)) y * cos (atan2 b a * y))
                      (Rpower (sqrt (a * a + b * b)) y * sin (atan2 b a * y))).

(** [x ** y] for a float [y]: as [float_pow] on a float, except that a
    negative float with a fractional exponent is raised as a complex. *)
Definition py_pow (x : pynum) (y : R) : M pynum :=
  match x with
  | pyfloat a =>
      if Req_dec_T a 0 then
        if Rlt_dec y 0 then raise ZeroDivisionError
        else if Req_dec_T y 0 then ret (pyfloat 1) else ret (pyfloat 0)
      else if Req_dec_T (IZR (Zfloor y)) y then
        ret (pyfloat (powerRZ a (Zfloor y)))
      else if Rlt_dec 0 a then ret (pyfloat (Rpower a y))
      else complex_pow a 0 y
  | pycomplex a b => complex_pow a b y
  end.

(** [abs(x)] *)
Definition py_abs (x : pynum) : R :=
  match x with
  | pyfloat a => Rabs a
  | pycomplex a b => sqrt (a * a + b * b)
  end.

(** *** [numpy.float64]

    A value is a real number, an infinity or [nan].  No operation raises:
    what a Python float answers with [ZeroDivisionError] or with a complex
    number is here [inf] or [nan] (numpy warns on the standard error
    stream, which is not printed output).  A zero divisor is read as
    [+0.0]. *)
Inductive float64 : Type :=
| fin (x : R)
| pinf
| ninf
| nan.

Coercion fin : R >-> float64.

(** The infinity with the sign of [a], [nan] for 0. *)
Definition inf_of_sign (a : R) : float64 :=
  if Rlt_dec 0 a then pinf else if Rlt_dec a 0 then ninf else nan.

Definition fneg (x : float64) : float64 :=
  match x with
  | fin a => fin (- a)
  | pinf => ninf
  | ninf => pinf
  | nan => nan
  end.

Definition fadd (x y : float64) : float64 :=
  match x, y with
  | fin a, fin b => fin (a + b)
  | nan, _ => nan
  | _, nan => nan
  | pinf, ninf => nan
  | ninf, pinf => nan
  | pinf, _ => pinf
  | _, pinf => pinf
  | ninf, _ => ninf
  | _, ninf => ninf
  end.

Definition fsub (x y : float64) : float64 := fadd x (fneg y).

Definition fmul (x y : float64) : float64 :=
  match x, y with
  | fin a, fin b => fin (a * b)
  | nan, _ => nan
  | _, nan => nan
  | fin a, pinf => inf_of_sign a
  | pinf, fin a => inf_of_sign a
  | fin a, ninf => inf_of_sign (- a)
  | ninf, fin a => inf_of_sign (- a)
  | pinf, pinf => pinf
  | ninf, ninf => pinf
  | pinf, ninf => ninf
  | ninf, pinf => ninf
  end.

(** [x / y]: a finite number over 0 is an infinity, 0 over 0 and an
    infinity over an infinity are [nan]. *)
Definition fdiv (x y : float64) : float64 :=
  match x, y with
  | fin a, fin b => if Req_dec_T b 0 then inf_of_sign a else fin (a / b)
  | nan, _ => nan
  | _, nan => nan
  | fin _, _ => fin 0
  | pinf, fin b => if Rlt_dec b 0 then ninf else pinf
  | ninf, fin b => if Rlt_dec b 0 then pinf else ninf
  | _, _ => nan
  end.

(** [x ** y] for a float [y]: [pow] of the C library. *)
Definition fpow (x : float64) (y : R) : float64 :=
  if Req_dec_T y 0 then fin 1
  else
    match x with
    | nan => nan
    | fin a =>
        if Req_dec_T a 0 then (if Rlt_dec y 0 then pinf else fin 0)
        else if Req_dec_T (IZR (Zfloor y)) y then fin (powerRZ a (Zfloor y))
        else if Rlt_dec 0 a then fin (Rpower a y)
        else nan
    | pinf => if Rlt_dec y 0 then fin 0 else pinf
    | ninf =>
        if Rlt_dec y 0 then fin 0
        else if Req_dec_T (IZR (Zfloor y)) y then
          (if Z.odd (Zfloor y) then ninf else pinf)
        else pinf
    end.

Definition fabs (x : float64) : float64 :=
  match x with
  | fin a => fin (Rabs a)
  | pinf => pinf
  | ninf => pinf
  | nan => nan
  end.

(** [x < y] and [x <= y]: false as soon as one side is [nan]. *)
Definition flt (x y : float64) : bool :=
  match x, y with
  | fin a, fin b => if Rlt_dec a b then true else false
  | ninf, fin _ => true
  | ninf, pinf => true
  | fin _, pinf => true
  | _, _ => false
  end.

Definition fle (x y : float64) : bool :=
  match x, y with
  | fin a, fin b => if Rle_dec a b then true else false
  | ninf, fin _ => true
  | ninf, pinf => true
  | fin _, pinf => true
  | pinf, pinf => true
  | ninf, ninf => true
  | _, _ => false
  end.

(** [x / y] on two finite numbers: numpy's division if one of them is a
    [numpy.float64], Python's if both are Python floats. *)
Definition true_div (numpy : bool) (x y : R) : M float64 :=
  if numpy then ret (fdiv x y) else bind (float_div x y) (fun q => ret (fin q)).

(** *** What the [while] loops of the vessel ask of their numbers *)
Class Number (V : Type) : Type := {
  number : R -> V;              (* a Python float or int as a [V] *)
  subtract : V -> V -> V;       (* [x - y] *)
  divide : V -> V -> M V;       (* [x / y] *)
  abs_exceeds : V -> R -> bool  (* [abs(x) > c] *)
}.

#[export] Instance float_Number : Number R := {
  number x := x;
  subtract x y := x - y;
  divide := float_div;
  abs_exceeds x c := Rgtb (Rabs x) c
}.

#[export] Instance pynum_Number : Number pynum := {
  number := pyfloat;
  subtract := py_sub;
  divide := py_div;
  abs_exceeds x c := Rgtb (py_abs x) c
}.

#[export] Instance float64_Number : Number float64 := {
  number := fin;
  subtract := fsub;
  divide x y := ret (fdiv x y);
  abs_exceeds x c := flt c (fabs x)
}.

(** A call that no amount of fuel lets end: the Python call never returns. *)
Definition runs_forever {A : Type} (run : nat -> M A) : Prop :=
  forall fuel : nat, run fuel = timeout.

(** A computation whose exceptions, if it raises one, satisfy [P]. *)
Definition raises_only {A : Type} (P : exn -> Prop) (m : M A) : Prop :=
  forall e : exn, snd m = Raised e -> P e.

(** A computation that does not end in a [ValueError]. *)
Definition no_value_error {A : Type} (m : M A) : Prop :=
  forall msg : string, snd m <> Raised (ValueError msg).

(** A computation that is followed to its end or for as long as the fuel
    lasts: it does not stop at [Complex]. *)
Definition followed {A : Type} (m : M A) : Prop := snd m <> Complex.

End Py.

Import Py.

Declare Scope py_scope.
Delimit Scope py_scope with py.
Notation "x <- m ;; k" := (bind m (fun x => k))
(at level 61, m at next level, right associativity) : py_scope.
Notation "m ;;; k" := (bind m (fun _ => k))
(at level 61, right associativity) : py_scope.
Open Scope py_scope.

Declare Scope pynum_scope.
Delimit Scope pynum_scope with pynum.
Infix "+" := py_add : pynum_scope.
Infix "-" := py_sub : pynum_scope.
Infix "*" := py_mul : pynum_scope.

Declare Scope float64_scope.
Delimit Scope float64_scope with float64.
Infix "+" := fadd : float64_scope.
Infix "-" := fsub : float64_scope.
Infix "*" := fmul : float64_scope.
Infix "/" := fdiv : float64_scope.

(** ** Heat-Exchanger/shellandtubeHE.py *)

Module HeatExchanger.

(** [estimate_tube_number(heat_transfer_area, tube_outer_diameter, length,
    n, min_tubes=20)] *)
Definition estimate_tube_number
           (heat_transfer_area tube_outer_diameter length : R)
           (n min_tubes : Z) : M Z :=
  let tube_surface_area_per_meter := PI * tube_outer_diameter in
  let tube_surface_area := tube_surface_area_per_meter * length in
  q <- float_div heat_transfer_area tube_surface_area ;;
  let total := math_ceil q in
  let total :=
    if ((1 <? total) && (total <? min_tubes))%Z then min_tubes else total in
  if (n <? total)%Z then ret 0%Z else ret total.

Definition default_min_tubes : Z := 20.

(** The count before the two adjustments, [ceil(area / (pi*OD*length))]. *)
Definition raw_tube_count
           (heat_transfer_area tube_outer_diameter length : R) : Z :=
  math_ceil (heat_transfer_area / (PI * tube_outer_diameter * length)).

(** [calculate_baffle_spacing(shell_diameter, baffle_cut_percentage)]:
    returns [(num_baffles, baffle_spacing)]. *)
Definition calculate_baffle_spacing (shell_diameter baffle_cut_percentage : R)
  : M (Z * R) :=
  let num_baffles := Z.max 0 (builtin_round (shell_diameter / 0.9)) in
  if (0 <? num_baffles)%Z then
    baffle_spacing <-
      float_div shell_diameter
                (IZR num_baffles + baffle_cut_percentage / 100) ;;
    ret (num_baffles, baffle_spacing)
  else ret (num_baffles, 0).

Definition invalid_pitch_type : string :=
  "Invalid pitch type. Use 't' for triangular or 's' for square.".

(** [calculate_shell_diameter(num_tubes, tube_outer_diameter,
    pitch_type='t', min_shell_diameter=0.15)] *)
Definition calculate_shell_diameter
           (num_tubes : Z) (tube_outer_diameter : R)
           (pitch_type : string) (min_shell_diameter : R) : M R :=
  pitch_factor <-
    (if String.eqb pitch_type "t" then ret 1.1
     else if String.eqb pitch_type "s" then ret 1.25
     else raise (ValueError invalid_pitch_type)) ;;
  let pitch := tube_outer_diameter * pitch_factor in
  tube_bundle_diameter <- math_sqrt ((IZR num_tubes * pitch ^ 2) / PI) ;;
  let shell_diameter := tube_bundle_diameter * 1.3 in
  let shell_diameter := Rmax shell_diameter min_shell_diameter in
  ret shell_diameter.

Definition default_pitch_type : string := "t".
Definition default_min_shell_diameter : R := 0.15.

(** The inputs of [calculate_shelltubeexchanger_weight]; the last five have
    defaults in the source. *)
Record ExchangerWeightInput : Type := {
  shell_diameter : R;
  tube_length : R;
  tube_outer_diameter : R;
  num_tubes : Z;
  baffle_spacing : R;
  shell_thickness : R;
  tube_thickness : R;
  baffle_thickness : R;
  shell_steel_density : R;
  tube_steel_density : R
}.

Definition with_defaults (shell_diameter tube_length tube_outer_diameter : R)
           (num_tubes : Z) (baffle_spacing : R) : ExchangerWeightInput :=
  {| shell_diameter := shell_diameter;
     tube_length := tube_length;
     tube_outer_diameter := tube_outer_diameter;
     num_tubes := num_tubes;
     baffle_spacing := baffle_spacing;
     shell_thickness := 0.0127;
     tube_thickness := 0.00211;
     baffle_thickness := 0.00635;
     shell_steel_density := 7850;
     tube_steel_density := 7850 |}.

Definition shell_inner_diameter (i : ExchangerWeightInput) : R :=
  shell_diameter i - 2 * shell_thickness i.

Definition shell_volume (i : ExchangerWeightInput) : R :=
  PI * ((shell_diameter i) ^ 2 - (shell_inner_diameter i) ^ 2) / 4
  * tube_length i.

Definition tube_volume (i : ExchangerWeightInput) : R :=
  let tube_inner_diameter := tube_outer_diameter i - 2 * tube_thickness i in
  IZR (num_tubes i) * PI
  * ((tube_outer_diameter i) ^ 2 - tube_inner_diameter ^ 2) / 4
  * tube_length i.

(** One baffle: a full disk of the shell's inner diameter, of the baffle
    thickness, in the shell's steel. *)
Definition baffle_disk_weight (i : ExchangerWeightInput) : R :=
  shell_inner_diameter i ^ 2 * PI / 4 * baffle_thickness i
  * shell_steel_density i.

(** The test guarding the baffle computation. *)
Definition baffles_needed (i : ExchangerWeightInput) : bool :=
  (if Rgt_dec (baffle_spacing i) 0 then true else false)
  && (if Rlt_dec (baffle_spacing i) (tube_length i) then true else false).

(** [baffle_weight] as the source leaves it before the weights are summed.
    The division is only reached with a positive divisor. *)
Definition baffle_weight (i : ExchangerWeightInput) : R :=
  if baffles_needed i then
    let baffle_count := math_floor (tube_length i / baffle_spacing i) in
    let baffle_area :=
      shell_inner_diameter i * shell_inner_diameter i * PI / 4 in
    let baffle_volume := baffle_area * baffle_thickness i * IZR baffle_count in
    baffle_volume * shell_steel_density i
  else 0.

(** [calculate_shelltubeexchanger_weight]: returns
    [(total_weight, shell_weight, tube_weight)]. *)
Definition calculate_shelltubeexchanger_weight (i : ExchangerWeightInput)
  : R * R * R :=
  let baffle_weight := baffle_weight i in
  let shell_weight := shell_volume i * shell_steel_density i + baffle_weight in
  let tube_weight := tube_volume i * tube_steel_density i in
  let total_weight := shell_weight + tube_weight + baffle_weight in
  (total_weight, shell_weight, tube_weight).

(** Dimensions an exchanger can have: lengths, counts and densities that are
    not negative, walls no thicker than the radius they enclose. *)
Definition physical (i : ExchangerWeightInput) : Prop :=
  0 <= tube_length i /\
  0 <= 2 * shell_thickness i <= shell_diameter i /\
  0 <= 2 * tube_thickness i <= tube_outer_diameter i /\
  (0 <= num_tubes i)%Z /\
  0 <= baffle_thickness i /\
  0 <= shell_steel_density i /\ 0 <= tube_steel_density i.

End HeatExchanger.

(** ** Gas-Liquid-Separators/gasliquidsep.py *)

Module Separator.

(** The arguments of [gas_liquid_separator_sizing]; [h_d_ratio] defaults to 3
    and [D_sphere] to 0.0001 in the source. *)
Record SeparatorInput : Type := {
  rho_vapor : R;
  rho_liquid : R;
  gas_flowrate : R;
  liquid_flowrate : R;
  viscosity_gas : R;
  h_d_ratio : R;
  D_sphere : R
}.

Definition with_defaults
           (rho_vapor rho_liquid gas_flowrate liquid_flowrate viscosity_gas : R)
  : SeparatorInput :=
  {| rho_vapor := rho_vapor;
     rho_liquid := rho_liquid;
     gas_flowrate := gas_flowrate;
     liquid_flowrate := liquid_flowrate;
     viscosity_gas := viscosity_gas;
     h_d_ratio := 3;
     D_sphere := 0.0001 |}.

Definition g : R := 9.81.

(** The first three assignments of the source: [D_stern], [u_t_stern], [u_t].
    [x ** 2] is written [x ^ 2]: see [float_pow_2]. *)
Definition terminal_velocity (i : SeparatorInput) : M R :=
  a <- float_div (rho_vapor i * (rho_liquid i - rho_vapor i) * g)
                 (viscosity_gas i ^ 2) ;;
  a3 <- float_pow a (1 / 3) ;;
  let D_stern := D_sphere i * a3 in
  t1 <- float_div 18 (D_stern ^ 2) ;;
  d05 <- float_pow D_stern 0.5 ;;
  t2 <- float_div 0.591 d05 ;;
  u_t_stern <- float_pow (t1 + t2) (-1) ;;
  b <- float_div (rho_vapor i ^ 2)
                 (viscosity_gas i * (rho_liquid i - rho_vapor i) * g) ;;
  b3 <- float_pow b (-1 / 3) ;;
  ret (u_t_stern * b3).

(** [gas_liquid_separator_sizing]: returns
    [(D_vessel, D_volume, hold_up_time, gas_velocity)]. *)
Definition gas_liquid_separator_sizing (i : SeparatorInput) : M (R * R * R * R) :=
  u_t <- terminal_velocity i ;;
  q <- float_div (4 * gas_flowrate i) (PI * u_t) ;;
  D_vessel <- float_pow q (1 / 2) ;;
  gas_velocity <- float_div (4 * gas_flowrate i) (PI * D_vessel ^ 2) ;;
  let D_length := h_d_ratio i * D_vessel in
  let D_volume := PI / 4 * D_vessel ^ 2 * D_length in
  h <- float_div (PI * (0.1 * D_length) * D_vessel ^ 2)
                 (4 * liquid_flowrate i) ;;
  let hold_up_time := h / 3600 in
  ret (D_vessel, D_volume, hold_up_time, gas_velocity).

(** What the spec asks of a valid input: every quantity positive, the liquid
    denser than the vapour. *)
Definition valid (i : SeparatorInput) : Prop :=
  0 < rho_vapor i /\ rho_vapor i < rho_liquid i /\ 0 < gas_flowrate i /\
  0 < liquid_flowrate i /\ 0 < viscosity_gas i /\ 0 < h_d_ratio i /\
  0 < D_sphere i.

(** The part of validity that concerns the fluids and the droplet. *)
Definition fluid_valid (i : SeparatorInput) : Prop :=
  0 < rho_vapor i /\ rho_vapor i < rho_liquid i /\ 0 < viscosity_gas i /\
  0 < D_sphere i.

(** [D_stern] and [u_t] as the source computes them on valid fluids, where
    every base of a power is positive. *)
Definition D_stern (i : SeparatorInput) : R :=
  D_sphere i
  * Rpower (rho_vapor i * (rho_liquid i - rho_vapor i) * g
            / viscosity_gas i ^ 2) (1 / 3).

Definition u_t (i : SeparatorInput) : R :=
  Rpower (18 / D_stern i ^ 2 + 0.591 / Rpower (D_stern i) 0.5) (-1)
  * Rpower (rho_vapor i ^ 2
            / (viscosity_gas i * (rho_liquid i - rho_vapor i) * g)) (-1 / 3).

(** The same call with another critical droplet diameter. *)
Definition with_D_sphere (i : SeparatorInput) (d : R) : SeparatorInput :=
  {| rho_vapor := rho_vapor i;
     rho_liquid := rho_liquid i;
     gas_flowrate := gas_flowrate i;
     liquid_flowrate := liquid_flowrate i;
     viscosity_gas := viscosity_gas i;
     h_d_ratio := h_d_ratio i;
     D_sphere := d |}.

End Separator.

(** ** Vessels-and-Towers/weightvessels.py *)

Module Vessel.

(** The arguments of [vertical_vessels_weight]: pressure in kPa, temperature
    in K, lengths in m, density in kg/m3. *)
Record VesselInput : Type := {
  lowest_pressure : R;
  highest_temp : R;
  diameter : R;
  tangent_tangent_length : R;
  material_density : R
}.

Definition kg_m3_to_lb_in3 : R := 0.000036127298147753.
Definition m_to_inch : R := 39.3701.
Definition kPa_to_psig : R := 0.145038.
Definition kg_to_lb : R := 2.20462.

(** The [if]/[elif]/[elif] chain on [lowest_pressure]; with no [else], the
    variable stays unassigned when the three tests fail.  [np.log] is only
    reached with a positive argument, where it is [ln]. *)
Definition design_pressure (lowest_pressure : R) : option R :=
  if Rle_dec lowest_pressure 34.5 then Some 10.0
  else if Rle_dec lowest_pressure 6895 then
    Some (exp (0.60608 + 0.91615 * ln (lowest_pressure * kPa_to_psig)
               + 0.0015655 * (ln (lowest_pressure * kPa_to_psig)) ^ 2))
  else if Rge_dec lowest_pressure 6895 then
    Some (1.1 * lowest_pressure * kPa_to_psig)
  else None.

Definition design_temp (highest_temp : R) : R :=
  (highest_temp - 273.15) * 9 / 5 + 32.0 + 50.0.

Definition E_modulus (design_temp : R) : R :=
  if Rlt_dec design_temp 200.0 then 30.2 * 10 ^ 6
  else if Rlt_dec design_temp 400.0 then 29.5 * 10 ^ 6
  else if Rlt_dec design_temp 650.0 then 28.3 * 10 ^ 6
  else 26.0 * 10 ^ 6.

Definition temperature_warning : string :=
  "Warning: Distillation design temperature is too high for wall thickness calculation".

Definition thickness_warning : string :=
  "Warning: The wall thickness does not pass the methods.".

(** The last band prints and assigns nothing. *)
Definition allowable_stress (design_temp : R) : M (option R) :=
  if Rle_dec design_temp 750 then ret (Some 15000)
  else if Rle_dec design_temp 800 then ret (Some 14750)
  else if Rle_dec design_temp 850 then ret (Some 14200)
  else if Rle_dec design_temp 900 then ret (Some 13100)
  else print temperature_warning ;;; ret None.

(** Whether [design_pressure] is a [numpy.float64]: the second branch
    assigns the result of [np.exp], the other two assign Python floats.
    Every number computed from a [numpy.float64] is one as well. *)
Definition design_pressure_is_numpy (lowest_pressure : R) : bool :=
  if Rle_dec lowest_pressure 34.5 then false
  else if Rle_dec lowest_pressure 6895 then true
  else false.

(** The variables the two [while] loops assign. [tE] has no value before the
    first execution of the body.  [V] is the kind of number the loop works
    on: Python floats ([R]) in the branch [lowest_pressure >= 101], whose
    loop does not read [design_pressure]; in the branch
    [lowest_pressure <= 101] Python floats and complex numbers ([pynum])
    when [design_pressure] is the Python float 10.0, and [numpy.float64]
    when it comes from [np.exp]. *)
Record loop_state (V : Type) : Type := {
  tE : option V;
  error : V;
  tE1 : V
}.

Arguments Build_loop_state {V}.
Arguments tE {V}.
Arguments error {V}.
Arguments tE1 {V}.

(** [tE1 = 0.25] and [error = 1] *)
Definition initial_state {V : Type} `{Number V} : loop_state V :=
  {| tE := None; error := number 1; tE1 := number 0.25 |}.

(** [abs(error) > 0.001] *)
Definition loop_test {V : Type} `{Number V} (s : loop_state V) : bool :=
  abs_exceeds (error s) 0.001.

(** The three assignments of a loop body, [update] being the right-hand side
    of the first. *)
Definition loop_body {V : Type} `{Number V} (update : V -> M V)
           (s : loop_state V) : M (loop_state V) :=
  tE' <- update (tE1 s) ;;
  error' <- divide (subtract (tE1 s) tE') (tE1 s) ;;
  ret {| tE := Some tE'; error := error'; tE1 := tE' |}.

Definition iterate {V : Type} `{Number V} (fuel : nat) (update : V -> M V)
  : M (loop_state V) :=
  while fuel loop_test (loop_body update) initial_state.

(** Right-hand side of [tE] in the branch [lowest_pressure >= 101]: Python
    floats and an [int]. *)
Definition tE_wind (allowable_stress : option R) (i : VesselInput) (tE1 : R)
  : M R :=
  let num := 0.22 * (((diameter i * m_to_inch) + tE1) + 18)
             * (tangent_tangent_length i * m_to_inch) ^ 2 in
  allowable_stress <- deref "allowable_stress" allowable_stress ;;
  float_div num (allowable_stress * ((diameter i * m_to_inch) + tE1) ^ 2).

(** Right-hand side of [tE] in the branch [lowest_pressure <= 101], on
    Python numbers. *)
Definition tE_vacuum (design_pressure : option R) (E_modulus : R)
           (i : VesselInput) (tE1 : pynum) : M pynum :=
  design_pressure <- deref "design_pressure" design_pressure ;;
  q <- py_div (design_pressure * (tangent_tangent_length i * m_to_inch))%pynum
              (E_modulus * ((diameter i * m_to_inch) + tE1))%pynum ;;
  p <- py_pow q 0.4 ;;
  ret (1.3 * ((diameter i * m_to_inch) + tE1) * p)%pynum.

(** The same right-hand side when [design_pressure] is a [numpy.float64]. *)
Definition tE_vacuum_numpy (design_pressure : option R) (E_modulus : R)
           (i : VesselInput) (tE1 : float64) : M float64 :=
  design_pressure <- deref "design_pressure" design_pressure ;;
  ret (1.3 * ((diameter i * m_to_inch) + tE1)
       * fpow ((design_pressure * (tangent_tangent_length i * m_to_inch))
               / (E_modulus * ((diameter i * m_to_inch) + tE1))) 0.4)%float64.

(** The value [tE_wind] returns on positive data, as a function of
    [A = D_in + tE1]. *)
Definition wind_update (allowable_stress : R) (i : VesselInput) (A : R) : R :=
  0.22 * (A + 18) * (tangent_tangent_length i * m_to_inch) ^ 2
  / (allowable_stress * A ^ 2).

(** The value [tE_vacuum] and [tE_vacuum_numpy] return on positive data, as
    a function of [A = D_in + tE1]. *)
Definition vacuum_update (design_pressure E_modulus : R) (i : VesselInput)
           (A : R) : R :=
  1.3 * A
  * Rpower (design_pressure * (tangent_tangent_length i * m_to_inch)
            / (E_modulus * A)) 0.4.

(** The body of [if lowest_pressure >= 101:].  [tp] and [t_total] are
    computed from [design_pressure], with numpy's division if that is a
    [numpy.float64]. *)
Definition high_pressure_thickness (fuel : nat)
           (design_pressure allowable_stress : option R) (i : VesselInput)
  : M float64 :=
  s <- iterate fuel (tE_wind allowable_stress i) ;;
  design_pressure <- deref "design_pressure" design_pressure ;;
  allowable_stress <- deref "allowable_stress" allowable_stress ;;
  tp <- true_div (design_pressure_is_numpy (lowest_pressure i))
                 (design_pressure * (diameter i * m_to_inch))
                 (2 * allowable_stress - 1.2 * design_pressure) ;;
  tE <- deref "tE" (tE s) ;;
  ret ((tp + tE + tp) / 2)%float64.

(** [tEC] *)
Definition tEC (i : VesselInput) : R :=
  (tangent_tangent_length i * m_to_inch)
  * (0.18 * (diameter i * m_to_inch) - 2.2) * powerRZ 10 (-5)
  - 0.19.

(** The body of [elif lowest_pressure <= 101:] on Python numbers.  If the
    loop has left a complex [tE], [check] is complex and the comparison
    [check >= 0.05] is a [TypeError]. *)
Definition low_pressure_thickness_python (fuel : nat)
           (design_pressure : option R) (E_modulus : R) (i : VesselInput)
  : M float64 :=
  s <- iterate fuel (tE_vacuum design_pressure E_modulus i) ;;
  tE <- deref "tE" (tE s) ;;
  match tE with
  | pyfloat tE =>
      check <- float_div tE (diameter i * m_to_inch) ;;
      (if Rge_dec check 0.05 then print thickness_warning else ret tt) ;;;
      if Rgt_dec (tEC i) 0 then ret (fin (tEC i + tE + 0.125))
      else ret (fin (tE + 0.125))
  | pycomplex _ _ =>
      check <- py_div tE (diameter i * m_to_inch) ;;
      raise TypeError
  end.

(** The same body on [numpy.float64]: nothing raises, [check] may be [inf]
    or [nan]. *)
Definition low_pressure_thickness_numpy (fuel : nat)
           (design_pressure : option R) (E_modulus : R) (i : VesselInput)
  : M float64 :=
  s <- iterate fuel (tE_vacuum_numpy design_pressure E_modulus i) ;;
  tE <- deref "tE" (tE s) ;;
  let check := (tE / (diameter i * m_to_inch))%float64 in
  (if fle 0.05 check then print thickness_warning else ret tt) ;;;
  if Rgt_dec (tEC i) 0 then ret (tEC i + tE + 0.125)%float64
  else ret (tE + 0.125)%float64.

(** The body of [elif lowest_pressure <= 101:]. *)
Definition low_pressure_thickness (fuel : nat)
           (design_pressure : option R) (E_modulus : R) (i : VesselInput)
  : M float64 :=
  if design_pressure_is_numpy (lowest_pressure i)
  then low_pressure_thickness_numpy fuel design_pressure E_modulus i
  else low_pressure_thickness_python fuel design_pressure E_modulus i.

(** The wall thickness calculation: [t_total] as the [if]/[elif] leaves it. *)
Definition wall_thickness (fuel : nat)
           (design_pressure : option R) (E_modulus : R)
           (allowable_stress : option R) (i : VesselInput)
  : M (option float64) :=
  if Rge_dec (lowest_pressure i) 101 then
    t <- high_pressure_thickness fuel design_pressure allowable_stress i ;;
    ret (Some t)
  else if Rle_dec (lowest_pressure i) 101 then
    t <- low_pressure_thickness fuel design_pressure E_modulus i ;;
    ret (Some t)
  else ret None.

(** [if t_total < 0.25: t_total = 0.25] *)
Definition minimum_thickness (t_total : float64) : float64 :=
  if flt t_total 0.25 then 0.25 else t_total.

(** The last two assignments to [weight]. *)
Definition weight_of_thickness (i : VesselInput) (t_total : float64)
  : float64 :=
  let weight :=
    (PI * t_total * (material_density i * kg_m3_to_lb_in3)
     * ((diameter i * m_to_inch) + t_total)
     * ((tangent_tangent_length i * m_to_inch)
        + 0.8 * (diameter i * m_to_inch)))%float64 in
  (weight / kg_to_lb)%float64.

(** The same two assignments on a finite [t_total]. *)
Definition finite_weight (i : VesselInput) (t_total : R) : R :=
  PI * t_total * (material_density i * kg_m3_to_lb_in3)
  * ((diameter i * m_to_inch) + t_total)
  * ((tangent_tangent_length i * m_to_inch)
     + 0.8 * (diameter i * m_to_inch))
  / kg_to_lb.

(** [t_total] after the minimum has been enforced. *)
Definition total_thickness (fuel : nat) (i : VesselInput) : M float64 :=
  let design_pressure := design_pressure (lowest_pressure i) in
  let design_temp := design_temp (highest_temp i) in
  let E_modulus := E_modulus design_temp in
  allowable_stress <- allowable_stress design_temp ;;
  t_total <- wall_thickness fuel design_pressure E_modulus allowable_stress i ;;
  t_total <- deref "t_total" t_total ;;
  ret (minimum_thickness t_total).

(** [vertical_vessels_weight] *)
Definition vertical_vessels_weight (fuel : nat) (i : VesselInput)
  : M float64 :=
  t_total <- total_thickness fuel i ;;
  ret (weight_of_thickness i t_total).

(** Three vessels used as examples: a column of 1 cm by 100 m at 200 kPa, a
    vessel of 3 m by 1 m under vacuum at 1000 K, and a vessel of 1 m by 5 m
    at exactly 101 kPa. *)
Definition slender_column : VesselInput :=
  {| lowest_pressure := 200; highest_temp := 300; diameter := 0.01;
     tangent_tangent_length := 100; material_density := 7850 |}.

(** What the loop state of [slender_column] satisfies before and after each
    execution of the body: the iterates alternate between at most a quarter of
    an inch and at least 9000 inches, so the relative change never falls to
    the tolerance. *)
Definition oscillates (s : loop_state R) : Prop :=
  Rabs (error s) > 0.001 /\ (0 < tE1 s <= 0.25 \/ 9000 <= tE1 s).

Definition hot_vacuum_vessel : VesselInput :=
  {| lowest_pressure := 30; highest_temp := 1000; diameter := 3;
     tangent_tangent_length := 1; material_density := 7850 |}.

Definition reference_vessel : VesselInput :=
  {| lowest_pressure := 101; highest_temp := 300; diameter := 1;
     tangent_tangent_length := 5; material_density := 7850 |}.

(** A vessel of 1 m with no cylindrical part, at 50 kPa. *)
Definition flat_vessel : VesselInput :=
  {| lowest_pressure := 50; highest_temp := 300; diameter := 1;
     tangent_tangent_length := 0; material_density := 7850 |}.

(** The same vessel in another material. *)
Definition with_material_density (i : VesselInput) (rho : R) : VesselInput :=
  {| lowest_pressure := lowest_pressure i;
     highest_temp := highest_temp i;
     diameter := diameter i;
     tangent_tangent_length := tangent_tangent_length i;
     material_density := rho |}.

(** The exceptions [vertical_vessels_weight] can end in: a division by zero
    of Python numbers, which the vacuum branch on [numpy.float64] does not
    have; the comparison of a complex [check], which only the vacuum branch
    on Python numbers can reach; and the read of the allowable stress that
    the last temperature band left unassigned, which only the branch
    [lowest_pressure >= 101] does. *)
Definition vessel_exception (i : VesselInput) (e : exn) : Prop :=
  (e = ZeroDivisionError /\
   (lowest_pressure i <= 34.5 \/ lowest_pressure i >= 101)) \/
  (e = TypeError /\ lowest_pressure i <= 34.5) \/
  (e = UnboundLocalError "allowable_stress" /\
   design_temp (highest_temp i) > 900 /\ lowest_pressure i >= 101).

End Vessel.

(** * Properties *)

(** ** The run-time *)

Section Runtime.

Context {A B : Type}.

Lemma bind_ret (a : A) (k : A -> M B) : bind (ret a) k = k a.
Proof. unfold bind, ret; simpl. now destruct (k a). Qed.

Lemma bind_raise (e : exn) (k : A -> M B) : bind (raise e) k = raise e.
Proof. reflexivity. Qed.

Lemma bind_complex (k : A -> M B) : bind complex k = complex.
Proof. reflexivity. Qed.

Lemma bind_timeout (k : A -> M B) : bind timeout k = timeout.
Proof. reflexivity. Qed.

Lemma bind_returned (m : M A) (k : A -> M B) (out : list string) (b : B) :
  bind m k = (out, Returned b) ->
  exists out1 a out2,
    m = (out1, Returned a) /\ k a = (out2, Returned b) /\ out = out1 ++ out2.
Proof.
  destruct m as [out1 [a | e | |]]; unfold bind; simpl; try discriminate.
  destruct (k a) as [out2 r] eqn:K; simpl.
  intros [= <- ->]. now exists out1, a, out2.
Qed.

End Runtime.

Lemma float_div_ok (x y : R) : y <> 0 -> float_div x y = ret (x / y).
Proof. intros H. unfold float_div. now destruct (Req_dec_T y 0). Qed.

Lemma float_div_zero (x : R) : float_div x 0 = raise ZeroDivisionError.
Proof. unfold float_div. now destruct (Req_dec_T 0 0). Qed.

(** [x ** 2] never raises and is the square. *)
Lemma float_pow_2 (x : R) : float_pow x 2 = ret (x ^ 2).
Proof.
  unfold float_pow.
  destruct (Req_dec_T x 0) as [-> | Hx].
  - destruct (Rlt_dec 2 0); [lra |].
    destruct (Req_dec_T 2 0); [lra |]. f_equal. f_equal. lra.
  - rewrite (ZfloorZ 2). destruct (Req_dec_T 2 2); [| lra]. reflexivity.
Qed.

(** On a positive base, [**] is the real power. *)
Lemma float_pow_pos (x y : R) : 0 < x -> float_pow x y = ret (Rpower x y).
Proof.
  intros Hx. unfold float_pow.
  destruct (Req_dec_T x 0); [lra |].
  destruct (Req_dec_T (IZR (Zfloor y)) y) as [E | _].
  - rewrite powerRZ_Rpower, E by assumption. reflexivity.
  - destruct (Rlt_dec 0 x); [reflexivity | lra].
Qed.

(** On a positive base the three powers agree. *)
Lemma py_pow_pos (x y : R) :
  0 < x -> py_pow (pyfloat x) y = ret (pyfloat (Rpower x y)).
Proof.
  intros Hx. unfold py_pow.
  destruct (Req_dec_T x 0); [lra |].
  destruct (Req_dec_T (IZR (Zfloor y)) y) as [E | _].
  - rewrite powerRZ_Rpower, E by assumption. reflexivity.
  - destruct (Rlt_dec 0 x); [reflexivity | lra].
Qed.


Lemma float_pow_inv (x : R) : x <> 0 -> float_pow x (-1) = ret (/ x).
Proof.
  intros Hx. unfold float_pow.
  destruct (Req_dec_T x 0); [contradiction |].
  rewrite (ZfloorZ (-1)). destruct (Req_dec_T (-1) (-1)); [| lra].
  simpl. f_equal. f_equal. now rewrite Rmult_1_r.
Qed.

Lemma math_sqrt_ok (x : R) : 0 <= x -> math_sqrt x = ret (sqrt x).
Proof. intros H. unfold math_sqrt. destruct (Rlt_dec x 0); [lra | reflexivity]. Qed.

Lemma PI_bounds : 3 < PI <= 4.
Proof. split; [pose proof PI2_3_2; lra | apply PI_4]. Qed.

(** ** Heat exchanger *)

Section TubeCount.

Import HeatExchanger.

Variables (heat_transfer_area tube_outer_diameter length : R).
Variables (n min_tubes : Z).

Let raw := raw_tube_count heat_transfer_area tube_outer_diameter length.
Let result :=
  estimate_tube_number heat_transfer_area tube_outer_diameter length n min_tubes.

(** With a tube surface that is not zero the division goes through and the
    function is the two adjustments applied to the raw count. *)
Lemma estimate_tube_number_unfold :
  PI * tube_outer_diameter * length <> 0 ->
  result =
  ret (let total :=
         if ((1 <? raw) && (raw <? min_tubes))%Z then min_tubes else raw in
       if (n <? total)%Z then 0%Z else total).
Proof.
  intros H. unfold result, estimate_tube_number.
  rewrite float_div_ok, bind_ret by exact H.
  fold raw. cbv zeta.
  now destruct (n <? _)%Z.
Qed.

(** C6: the result of [estimate_tube_number] by cases on the raw count
    [ceil(area / (pi*OD*length))]: the raw count itself when it is 0, 1 or at
    least [min_tubes] and does not exceed [n]; [min_tubes] when the raw count
    lies strictly between 1 and [min_tubes] and [min_tubes] does not exceed
    [n]; 0 when the count, raised or not, exceeds [n]. A raw count of 1 is
    returned as 1 (or as 0 when [n < 1]), and a zero area gives 0. *)
Theorem estimate_tube_number_cases :
  PI * tube_outer_diameter * length <> 0 ->
  ((raw = 0 \/ raw = 1 \/ min_tubes <= raw)%Z -> (raw <= n)%Z ->
   result = ret raw) /\
  ((1 < raw < min_tubes)%Z -> (min_tubes <= n)%Z -> result = ret min_tubes) /\
  ((1 < raw < min_tubes)%Z -> (n < min_tubes)%Z -> result = ret 0%Z) /\
  (~ (1 < raw < min_tubes)%Z -> (n < raw)%Z -> result = ret 0%Z) /\
  (raw = 1%Z -> result = ret (if (n <? 1)%Z then 0%Z else 1%Z)) /\
  (heat_transfer_area = 0 -> raw = 0%Z /\ result = ret 0%Z).
Proof.
  intros H. rewrite (estimate_tube_number_unfold H). cbv zeta.
  split; [| split; [| split; [| split; [| split; [| intros Harea; split]]]]].
  - intros Hraw Hn.
    replace ((1 <? raw) && (raw <? min_tubes))%Z with false
      by (symmetry; apply andb_false_iff; lia).
    now replace (n <? raw)%Z with false by lia.
  - intros Hraw Hn.
    replace ((1 <? raw) && (raw <? min_tubes))%Z with true
      by (symmetry; apply andb_true_iff; lia).
    now replace (n <? min_tubes)%Z with false by lia.
  - intros Hraw Hn.
    replace ((1 <? raw) && (raw <? min_tubes))%Z with true
      by (symmetry; apply andb_true_iff; lia).
    now replace (n <? min_tubes)%Z with true by lia.
  - intros Hraw Hn.
    replace ((1 <? raw) && (raw <? min_tubes))%Z with false
      by (symmetry; apply andb_false_iff; lia).
    now replace (n <? raw)%Z with true by lia.
  - intros E. rewrite E. reflexivity.
  - unfold raw, raw_tube_count, math_ceil, Rdiv.
    rewrite Harea, Rmult_0_l. apply (Zceil_eq 0). lra.
  - assert (E : raw = 0%Z).
    { unfold raw, raw_tube_count, math_ceil, Rdiv. rewrite Harea, Rmult_0_l.
      apply (Zceil_eq 0). lra. }
    rewrite E. simpl. now destruct (n <? 0)%Z.
Qed.

(** C10: the raise to [min_tubes] comes before the test against [n]: a raw
    count strictly between 1 and [min_tubes] gives 0 as soon as [min_tubes]
    exceeds [n], whether or not the raw count itself exceeds [n]. *)
Theorem minimum_raise_precedes_maximum_check :
  PI * tube_outer_diameter * length <> 0 ->
  (1 < raw < min_tubes)%Z -> (n < min_tubes)%Z -> result = ret 0%Z.
Proof.
  intros H Hraw Hn. rewrite (estimate_tube_number_unfold H). cbv zeta.
  replace ((1 <? raw) && (raw <? min_tubes))%Z with true
    by (symmetry; apply andb_true_iff; lia).
  now replace (n <? min_tubes)%Z with true by lia.
Qed.

End TubeCount.

Lemma raw_tube_count_example : HeatExchanger.raw_tube_count 5 1 1 = 2%Z.
Proof.
  unfold HeatExchanger.raw_tube_count, math_ceil.
  apply Zceil_eq. pose proof PI_bounds as [Hlo Hhi].
  rewrite !Rmult_1_r. split.
  - apply Rmult_lt_reg_r with PI; [lra |]. unfold Rdiv.
    rewrite Rmult_assoc, Rinv_l by lra. lra.
  - apply Rmult_le_reg_r with PI; [lra |]. unfold Rdiv.
    rewrite Rmult_assoc, Rinv_l by lra. lra.
Qed.

Lemma tube_surface_example : PI * 1 * 1 <> 0.
Proof. pose proof PI_bounds. lra. Qed.

(** An area of 5 m2 on tubes of 1 m by 1 m needs 2 tubes, raised to the
    minimum of 20 when 25 are allowed. *)
Lemma estimate_tube_number_cases_witness :
  HeatExchanger.raw_tube_count 5 1 1 = 2%Z /\
  HeatExchanger.estimate_tube_number 5 1 1 25 20 = ret 20%Z.
Proof.
  split; [exact raw_tube_count_example |].
  destruct (estimate_tube_number_cases 5 1 1 25 20 tube_surface_example)
    as (_ & Hraise & _).
  apply Hraise; [rewrite raw_tube_count_example |]; lia.
Defined.

(** The same 2 tubes with only 10 allowed: the raised count 20 exceeds 10 and
    the result is 0, although 2 does not exceed 10. *)
Lemma minimum_raise_precedes_maximum_check_witness :
  HeatExchanger.raw_tube_count 5 1 1 = 2%Z /\ (2 <= 10)%Z /\
  HeatExchanger.estimate_tube_number 5 1 1 10 20 = ret 0%Z.
Proof.
  split; [exact raw_tube_count_example |]. split; [lia |].
  apply (minimum_raise_precedes_maximum_check 5 1 1 10 20 tube_surface_example);
    [rewrite raw_tube_count_example |]; lia.
Defined.

Section ShellDiameter.

Import HeatExchanger.

Variables (num_tubes : Z) (tube_outer_diameter : R).
Variables (pitch_type : string) (min_shell_diameter : R).

Let result :=
  calculate_shell_diameter num_tubes tube_outer_diameter pitch_type
                           min_shell_diameter.

Lemma bundle_radicand_nonneg (pitch : R) :
  (0 <= num_tubes)%Z -> 0 <= IZR num_tubes * pitch ^ 2 / PI.
Proof.
  intros Hn. pose proof PI_bounds as [Hlo _].
  apply IZR_le in Hn. pose proof (pow2_ge_0 pitch).
  apply Rmult_le_pos; [nra |]. left. apply Rinv_0_lt_compat. lra.
Qed.

(** C8: a pitch type other than ['t'] and ['s'] raises the [ValueError] of
    the source; with ['t'] (factor 1.1) or ['s'] (factor 1.25) and a tube
    count that is not negative the result is
    [max(1.3 * sqrt(num_tubes * (OD * factor)^2 / pi), min_shell_diameter)],
    hence at least [min_shell_diameter]. *)
Theorem calculate_shell_diameter_spec :
  (pitch_type <> "t"%string -> pitch_type <> "s"%string ->
   result = raise (ValueError invalid_pitch_type)) /\
  ((0 <= num_tubes)%Z ->
   forall pitch_factor : R,
     (pitch_type = "t"%string /\ pitch_factor = 1.1) \/
     (pitch_type = "s"%string /\ pitch_factor = 1.25) ->
     exists d : R,
       result = ret d /\
       d = Rmax (1.3 * sqrt (IZR num_tubes
                             * (tube_outer_diameter * pitch_factor) ^ 2 / PI))
                min_shell_diameter /\
       min_shell_diameter <= d).
Proof.
  unfold result, calculate_shell_diameter. split.
  - intros Ht Hs.
    apply String.eqb_neq in Ht, Hs. rewrite Ht, Hs. reflexivity.
  - intros Hn pitch_factor Hp.
    eexists. split; [| split; [reflexivity | apply Rmax_r]].
    destruct Hp as [[-> ->] | [-> ->]]; simpl String.eqb; cbv iota;
      rewrite bind_ret; cbv zeta;
      rewrite math_sqrt_ok, bind_ret by (apply bundle_radicand_nonneg; exact Hn);
      cbv zeta; now rewrite (Rmult_comm (sqrt _) 1.3).
Qed.

End ShellDiameter.

(** A hundred tubes of 20 mm on a square pitch, and the same call with a
    pitch type the function does not know. *)
Lemma calculate_shell_diameter_spec_witness :
  HeatExchanger.calculate_shell_diameter 100 0.02 "x" 0.15
  = raise (ValueError HeatExchanger.invalid_pitch_type) /\
  exists d : R,
    HeatExchanger.calculate_shell_diameter 100 0.02 "s" 0.15 = ret d /\
    d = Rmax (1.3 * sqrt (100 * (0.02 * 1.25) ^ 2 / PI)) 0.15 /\
    0.15 <= d.
Proof.
  split.
  - apply (calculate_shell_diameter_spec 100 0.02 "x" 0.15); discriminate.
  - apply (calculate_shell_diameter_spec 100 0.02 "s" 0.15);
      [lia | right; split; reflexivity].
Defined.

Section ExchangerWeight.

Import HeatExchanger.

Variable i : ExchangerWeightInput.

Lemma baffles_needed_iff :
  baffles_needed i = true <-> 0 < baffle_spacing i < tube_length i.
Proof.
  unfold baffles_needed.
  destruct (Rgt_dec (baffle_spacing i) 0), (Rlt_dec (baffle_spacing i) (tube_length i));
    simpl; split; intros; try discriminate; try reflexivity; lra.
Qed.

(** C4: with [0 < baffle_spacing < tube_length] the weight of
    [floor(tube_length / baffle_spacing)] baffle disks is part of the
    returned shell weight and is added once more in the returned total;
    otherwise the baffle weight is 0 and the total is shell plus tubes. *)
Theorem baffle_weight_counted_twice (total_weight shell_weight tube_weight : R) :
  calculate_shelltubeexchanger_weight i
  = (total_weight, shell_weight, tube_weight) ->
  tube_weight = tube_volume i * tube_steel_density i /\
  (0 < baffle_spacing i < tube_length i ->
   let baffle_weight :=
     IZR (Zfloor (tube_length i / baffle_spacing i)) * baffle_disk_weight i in
   shell_weight = shell_volume i * shell_steel_density i + baffle_weight /\
   total_weight = shell_weight + tube_weight + baffle_weight /\
   total_weight = shell_volume i * shell_steel_density i + tube_weight
                  + 2 * baffle_weight) /\
  (baffle_spacing i <= 0 \/ tube_length i <= baffle_spacing i ->
   shell_weight = shell_volume i * shell_steel_density i /\
   total_weight = shell_weight + tube_weight).
Proof.
  unfold calculate_shelltubeexchanger_weight. cbv zeta.
  intros [= <- <- <-]. split; [reflexivity |]. split.
  - intros Hb. apply baffles_needed_iff in Hb.
    unfold baffle_weight. rewrite Hb. cbv zeta.
    unfold baffle_disk_weight, math_floor.
    split; [| split]; field.
  - intros Hb.
    assert (E : baffles_needed i = false).
    { destruct (baffles_needed i) eqn:E; [| reflexivity].
      apply baffles_needed_iff in E. lra. }
    unfold baffle_weight. rewrite E. split; ring.
Qed.

End ExchangerWeight.

(** A 1 m shell, 6 m tubes and baffles every 2 m: three baffles, in the shell
    weight and again in the total. *)
Lemma baffle_weight_counted_twice_witness :
  let i := HeatExchanger.with_defaults 1 6 0.02 100 2 in
  let r := HeatExchanger.calculate_shelltubeexchanger_weight i in
  let baffle_weight := 3 * ((1 - 2 * 0.0127) ^ 2 * PI / 4 * 0.00635 * 7850) in
  snd (fst r) = HeatExchanger.shell_volume i * 7850 + baffle_weight /\
  fst (fst r) = snd (fst r) + snd r + baffle_weight.
Proof.
  cbv zeta.
  set (i := HeatExchanger.with_defaults 1 6 0.02 100 2).
  set (r := HeatExchanger.calculate_shelltubeexchanger_weight i).
  destruct (baffle_weight_counted_twice i (fst (fst r)) (snd (fst r)) (snd r))
    as (_ & H & _).
  { reflexivity. }
  assert (Hb : 0 < HeatExchanger.baffle_spacing i < HeatExchanger.tube_length i)
    by (simpl; lra).
  specialize (H Hb). cbv zeta in H.
  assert (E : Zfloor (HeatExchanger.tube_length i / HeatExchanger.baffle_spacing i)
              = 3%Z) by (apply Zfloor_eq; simpl; lra).
  rewrite E in H. destruct H as (H1 & H2 & _).
  split; [exact H1 | exact H2].
Defined.

(** ** Gas-liquid separator *)

Lemma Rpower_pos (x y : R) : 0 < Rpower x y.
Proof. unfold Rpower. apply exp_pos. Qed.

Section SeparatorSizing.

Import Separator.

Variable i : SeparatorInput.
Hypothesis Hvalid : valid i.

(** On a valid input no division or power fails, and the droplets fall. *)
Lemma terminal_velocity_returns :
  exists u_t : R, terminal_velocity i = ret u_t /\ 0 < u_t.
Proof.
  destruct Hvalid as (Hv & Hl & _ & _ & Hmu & _ & Hd).
  unfold terminal_velocity, g.
  assert (Hmu2 : 0 < viscosity_gas i ^ 2) by (apply pow_lt; exact Hmu).
  assert (Hdrho : 0 < rho_liquid i - rho_vapor i) by lra.
  rewrite float_div_ok, bind_ret by (apply Rgt_not_eq; assumption).
  set (a := _ / viscosity_gas i ^ 2).
  assert (Ha : 0 < a).
  { unfold a. apply Rdiv_lt_0_compat; [| exact Hmu2].
    apply Rmult_lt_0_compat; [apply Rmult_lt_0_compat |]; lra. }
  rewrite float_pow_pos, bind_ret by exact Ha. cbv zeta.
  set (D_stern := D_sphere i * Rpower a (1 / 3)).
  assert (HD : 0 < D_stern).
  { unfold D_stern. apply Rmult_lt_0_compat; [exact Hd | apply Rpower_pos]. }
  assert (HD2 : 0 < D_stern ^ 2) by (apply pow_lt; exact HD).
  rewrite float_div_ok, bind_ret by (apply Rgt_not_eq; assumption).
  rewrite float_pow_pos, bind_ret by exact HD.
  pose proof (Rpower_pos D_stern 0.5) as Hd05.
  rewrite float_div_ok, bind_ret by (apply Rgt_not_eq; assumption).
  assert (Hsum : 0 < 18 / D_stern ^ 2 + 0.591 / Rpower D_stern 0.5).
  { apply Rplus_lt_0_compat; apply Rdiv_lt_0_compat; lra || assumption. }
  rewrite float_pow_pos, bind_ret by exact Hsum.
  assert (Hden : 0 < viscosity_gas i * (rho_liquid i - rho_vapor i) * 9.81).
  { apply Rmult_lt_0_compat; [apply Rmult_lt_0_compat |]; lra. }
  rewrite float_div_ok, bind_ret by (apply Rgt_not_eq; assumption).
  assert (Hb : 0 < rho_vapor i ^ 2 /
                   (viscosity_gas i * (rho_liquid i - rho_vapor i) * 9.81)).
  { apply Rdiv_lt_0_compat; [apply pow_lt; exact Hv | exact Hden]. }
  rewrite float_pow_pos, bind_ret by exact Hb.
  eexists. split; [reflexivity |].
  apply Rmult_lt_0_compat; apply Rpower_pos.
Qed.

(** The four results in closed form, given the terminal velocity. *)
Lemma sizing_returns (u_t : R) :
  terminal_velocity i = ret u_t -> 0 < u_t ->
  let D_vessel := sqrt (4 * gas_flowrate i / (PI * u_t)) in
  0 < D_vessel /\
  4 * gas_flowrate i / (PI * D_vessel ^ 2) = u_t /\
  gas_liquid_separator_sizing i
  = ret (D_vessel,
         PI / 4 * D_vessel ^ 2 * (h_d_ratio i * D_vessel),
         PI * (0.1 * (h_d_ratio i * D_vessel)) * D_vessel ^ 2
         / (4 * liquid_flowrate i) / 3600,
         u_t).
Proof.
  intros Hut Hpos D_vessel.
  destruct Hvalid as (_ & _ & Hq & Hliq & _).
  pose proof PI_bounds as [Hpi _].
  assert (Hden : 0 < PI * u_t) by (apply Rmult_lt_0_compat; lra).
  assert (Hq4 : 0 < 4 * gas_flowrate i / (PI * u_t)).
  { apply Rdiv_lt_0_compat; lra. }
  assert (HD : 0 < D_vessel) by (apply sqrt_lt_R0; exact Hq4).
  assert (HD2 : D_vessel ^ 2 = 4 * gas_flowrate i / (PI * u_t)).
  { unfold D_vessel. apply pow2_sqrt. lra. }
  assert (Hgas : 4 * gas_flowrate i / (PI * D_vessel ^ 2) = u_t).
  { rewrite HD2. field. lra. }
  split; [exact HD |]. split; [exact Hgas |].
  unfold gas_liquid_separator_sizing.
  rewrite Hut, bind_ret.
  rewrite float_div_ok, bind_ret by lra.
  rewrite float_pow_pos, bind_ret by exact Hq4.
  replace (1 / 2) with (/ 2) by lra.
  rewrite Rpower_sqrt by exact Hq4. fold D_vessel.
  assert (HpiD : 0 < PI * D_vessel ^ 2).
  { apply Rmult_lt_0_compat; [lra | apply pow_lt; exact HD]. }
  rewrite float_div_ok, bind_ret by lra. cbv zeta.
  rewrite float_div_ok, bind_ret by lra.
  now rewrite Hgas.
Qed.

(** C3: on a valid input (liquid denser than vapour, positive flows and
    viscosity) the sizing returns, and the gas velocity it returns is the
    terminal velocity computed from the droplet correlation; it is also
    [4 * gas_flowrate / (pi * D_vessel^2)] for the returned diameter. *)
Theorem gas_velocity_is_terminal_velocity :
  exists u_t D_vessel D_volume hold_up_time : R,
    terminal_velocity i = ret u_t /\
    gas_liquid_separator_sizing i
    = ret (D_vessel, D_volume, hold_up_time, u_t) /\
    4 * gas_flowrate i / (PI * D_vessel ^ 2) = u_t /\
    D_vessel = sqrt (4 * gas_flowrate i / (PI * u_t)) /\
    0 < u_t.
Proof.
  destruct terminal_velocity_returns as (u_t & Hut & Hpos).
  destruct (sizing_returns u_t Hut Hpos) as (_ & Hgas & Hret).
  exists u_t. do 3 eexists.
  split; [exact Hut |]. split; [exact Hret |].
  split; [exact Hgas |]. split; [reflexivity | exact Hpos].
Qed.

(** C7: on a valid input the hold-up time returned is
    [pi * (0.1 * D_length) * D_vessel^2 / (4 * liquid_flowrate) / 3600] with
    [D_length = h_d_ratio * D_vessel]: in hours, the time the liquid flow
    takes to fill a tenth of the returned vessel volume. *)
Theorem hold_up_time_is_tenth_of_length :
  exists D_vessel D_volume hold_up_time gas_velocity : R,
    gas_liquid_separator_sizing i
    = ret (D_vessel, D_volume, hold_up_time, gas_velocity) /\
    hold_up_time
    = PI * (0.1 * (h_d_ratio i * D_vessel)) * D_vessel ^ 2
      / (4 * liquid_flowrate i) / 3600 /\
    hold_up_time * 3600 * liquid_flowrate i = 0.1 * D_volume.
Proof.
  destruct terminal_velocity_returns as (u_t & Hut & Hpos).
  destruct (sizing_returns u_t Hut Hpos) as (_ & _ & Hret).
  do 4 eexists. split; [exact Hret |]. split; [reflexivity |].
  destruct Hvalid as (_ & _ & _ & Hliq & _).
  field. lra.
Qed.

End SeparatorSizing.

Lemma separator_example_valid :
  Separator.valid (Separator.with_defaults 1.2 1000 0.5 0.01 0.000018).
Proof. unfold Separator.valid; simpl. lra. Qed.

(** Air and water at ambient conditions, default ratio and droplet size. *)
Lemma gas_velocity_is_terminal_velocity_witness :
  let i := Separator.with_defaults 1.2 1000 0.5 0.01 0.000018 in
  exists u_t D_vessel D_volume hold_up_time : R,
    Separator.terminal_velocity i = ret u_t /\
    Separator.gas_liquid_separator_sizing i
    = ret (D_vessel, D_volume, hold_up_time, u_t) /\
    4 * 0.5 / (PI * D_vessel ^ 2) = u_t /\
    D_vessel = sqrt (4 * 0.5 / (PI * u_t)) /\
    0 < u_t.
Proof.
  exact (gas_velocity_is_terminal_velocity _ separator_example_valid).
Defined.

Lemma hold_up_time_is_tenth_of_length_witness :
  let i := Separator.with_defaults 1.2 1000 0.5 0.01 0.000018 in
  exists D_vessel D_volume hold_up_time gas_velocity : R,
    Separator.gas_liquid_separator_sizing i
    = ret (D_vessel, D_volume, hold_up_time, gas_velocity) /\
    hold_up_time
    = PI * (0.1 * (3 * D_vessel)) * D_vessel ^ 2 / (4 * 0.01) / 3600 /\
    hold_up_time * 3600 * 0.01 = 0.1 * D_volume.
Proof.
  exact (hold_up_time_is_tenth_of_length _ separator_example_valid).
Defined.

(** ** Loops and exceptions *)

Section While.

Context {S : Type}.
Variables (cond : S -> bool) (body : S -> M S).

Lemma while_done (fuel : nat) (s : S) :
  cond s = false -> while fuel cond body s = ret s.
Proof. intros H. destruct fuel; simpl; now rewrite H. Qed.

Lemma while_no_fuel (s : S) : cond s = true -> while 0 cond body s = timeout.
Proof. intros H. simpl. now rewrite H. Qed.

Lemma while_step (fuel : nat) (s : S) :
  cond s = true ->
  while (Datatypes.S fuel) cond body s = bind (body s) (while fuel cond body).
Proof. intros H. simpl. now rewrite H. Qed.

(** A loop that returns has just seen its test fail, and its final state is
    either the initial one or the result of an execution of the body. *)
Lemma while_returned (fuel : nat) :
  forall (s s' : S) (out : list string),
    while fuel cond body s = (out, Returned s') ->
    cond s' = false /\
    (s' = s \/ exists s0 out0, body s0 = (out0, Returned s')).
Proof.
  induction fuel as [| fuel IH]; intros s s' out; simpl;
    destruct (cond s) eqn:C.
  - discriminate.
  - intros [= <- <-]. auto.
  - intros H. apply bind_returned in H as (out1 & s1 & out2 & Hb & Hw & _).
    destruct (IH _ _ _ Hw) as [Hc [-> | Hs]]; eauto.
  - intros [= <- <-]. auto.
Qed.

(** What holds before the loop and is kept by every execution of the body
    holds when the loop returns. *)
Lemma while_invariant (inv : S -> Prop) :
  (forall (s s' : S) (out : list string),
      inv s -> cond s = true -> body s = (out, Returned s') -> inv s') ->
  forall (fuel : nat) (s s' : S) (out : list string),
    inv s -> while fuel cond body s = (out, Returned s') -> inv s'.
Proof.
  intros Hb. induction fuel as [| fuel IH]; intros s s' out Hs; simpl;
    destruct (cond s) eqn:C.
  - discriminate.
  - now intros [= <- <-].
  - intros H. apply bind_returned in H as (out1 & s1 & out2 & Hs1 & Hw & _).
    apply (IH _ _ _ (Hb _ _ _ Hs C Hs1) Hw).
  - now intros [= <- <-].
Qed.

(** More fuel does not change a run that ended. *)
Lemma while_more_fuel (fuel : nat) :
  forall (s : S) (out : list string) (r : outcome S),
    while fuel cond body s = (out, r) -> r <> OutOfFuel ->
    while (Datatypes.S fuel) cond body s = (out, r).
Proof.
  induction fuel as [| fuel IH]; intros s out r.
  - simpl. destruct (cond s); [intros [= <- <-]; congruence | auto].
  - intros H Hr. change (while (Datatypes.S (Datatypes.S fuel)) cond body s)
      with (if cond s then bind (body s) (while (Datatypes.S fuel) cond body)
            else ret s).
    simpl in H. destruct (cond s); [| exact H].
    unfold bind in *. destruct (body s) as [out1 [s1 | e | |]]; simpl in *;
      try exact H.
    destruct (while fuel cond body s1) as [out2 r2] eqn:W. simpl in H.
    injection H as <- <-. now rewrite (IH _ _ _ W Hr).
Qed.

Lemma while_fuel_le (fuel fuel' : nat) (s : S) (out : list string)
      (r : outcome S) :
  while fuel cond body s = (out, r) -> r <> OutOfFuel -> (fuel <= fuel')%nat ->
  while fuel' cond body s = (out, r).
Proof.
  intros H Hr Hle. induction Hle as [| m _ IH]; [exact H |].
  now apply while_more_fuel.
Qed.

(** A loop whose test holds, and keeps holding after each execution of the
    body, never ends. *)
Lemma while_forever (inv : S -> Prop) :
  (forall s, inv s -> cond s = true) ->
  (forall s, inv s -> exists s', body s = ret s' /\ inv s') ->
  forall (fuel : nat) (s : S), inv s -> while fuel cond body s = timeout.
Proof.
  intros Hc Hb. induction fuel as [| fuel IH]; intros s Hs; simpl;
    rewrite (Hc s Hs); [reflexivity |].
  destruct (Hb s Hs) as (s' & -> & Hs').
  rewrite bind_ret. now apply IH.
Qed.

End While.

Section NoValueError.

Context {A B : Type}.

Lemma no_value_error_bind (m : M A) (k : A -> M B) :
  no_value_error m -> (forall a, no_value_error (k a)) ->
  no_value_error (bind m k).
Proof.
  intros Hm Hk msg. unfold bind.
  destruct m as [out [a | e | |]] eqn:E; simpl; try discriminate.
  - apply Hk.
  - intros [= ->]. now apply (Hm msg).
Qed.

End NoValueError.

Lemma no_value_error_while {A : Type} (cond : A -> bool) (body : A -> M A)
      (fuel : nat) :
  (forall s, no_value_error (body s)) ->
  forall s, no_value_error (while fuel cond body s).
Proof.
  intros Hb. induction fuel as [| fuel IH]; intros s;
    destruct (cond s) eqn:C.
  - simpl. rewrite C. discriminate.
  - rewrite while_done by exact C. discriminate.
  - rewrite while_step by exact C. now apply no_value_error_bind.
  - rewrite while_done by exact C. discriminate.
Qed.

Lemma no_value_error_float_div (x y : R) : no_value_error (float_div x y).
Proof. unfold float_div. now destruct (Req_dec_T y 0). Qed.

Lemma no_value_error_float_pow (x y : R) : no_value_error (float_pow x y).
Proof.
  unfold float_pow.
  repeat match goal with |- context [if ?c then _ else _] => destruct c end;
    discriminate.
Qed.

Lemma no_value_error_deref {A : Type} (var : string) (v : option A) :
  no_value_error (deref var v).
Proof. destruct v; discriminate. Qed.

Lemma no_value_error_ret {A : Type} (a : A) : no_value_error (ret a).
Proof. discriminate. Qed.

Lemma no_value_error_print (line : string) : no_value_error (print line).
Proof. discriminate. Qed.

Lemma bind_assoc {A B C : Type} (m : M A) (f : A -> M B) (g : B -> M C) :
  bind (bind m f) g = bind m (fun a => bind (f a) g).
Proof.
  destruct m as [out [a | e | |]]; unfold bind; simpl; try reflexivity.
  destruct (f a) as [out2 [b | e | |]]; simpl; try reflexivity.
  now rewrite app_assoc.
Qed.

Lemma bind_ext {A B : Type} (m : M A) (f g : A -> M B) :
  (forall a, f a = g a) -> bind m f = bind m g.
Proof. intros H. unfold bind. destruct (snd m); now rewrite ?H. Qed.

Lemma bind_print {B : Type} (line : string) (k : unit -> M B) :
  bind (print line) k = (line :: fst (k tt), snd (k tt)).
Proof. reflexivity. Qed.

(** ** Vessel weight *)

Section VesselWeight.

Import Vessel.

(** Over the reals one of the three pressure tests always holds. *)
Lemma design_pressure_assigned (p : R) :
  exists dp : R, design_pressure p = Some dp /\ 0 < dp.
Proof.
  unfold design_pressure, kPa_to_psig.
  destruct (Rle_dec p 34.5); [eexists; split; [reflexivity | lra] |].
  destruct (Rle_dec p 6895); [eexists; split; [reflexivity | apply exp_pos] |].
  destruct (Rge_dec p 6895); [eexists; split; [reflexivity | lra] | lra].
Qed.

Lemma allowable_stress_hot (dt : R) :
  dt > 900 -> allowable_stress dt = ([temperature_warning], Returned None).
Proof.
  intros H. unfold allowable_stress.
  repeat (destruct (Rle_dec dt _); [lra |]). reflexivity.
Qed.

Lemma allowable_stress_tabulated (dt : R) :
  dt <= 900 ->
  exists S : R, allowable_stress dt = ret (Some S) /\ 13100 <= S <= 15000.
Proof.
  intros H. unfold allowable_stress.
  repeat (destruct (Rle_dec dt _); [eexists; split; [reflexivity | lra] |]).
  lra.
Qed.

Lemma E_modulus_hot (dt : R) : dt >= 650 -> E_modulus dt = 26.0 * 10 ^ 6.
Proof.
  intros H. unfold E_modulus.
  repeat (destruct (Rlt_dec dt _); [lra |]). reflexivity.
Qed.

(** Finite results of [numpy.float64] arithmetic come from finite
    operands. *)
Lemma inf_of_sign_not_finite (a w : R) : inf_of_sign a <> fin w.
Proof.
  unfold inf_of_sign. destruct (Rlt_dec 0 a); [discriminate |].
  destruct (Rlt_dec a 0); discriminate.
Qed.

Lemma fmul_finite (x y : float64) (w : R) :
  fmul x y = fin w -> exists a b : R, x = fin a /\ y = fin b /\ w = a * b.
Proof.
  destruct x as [a | | |], y as [b | | |]; simpl; try discriminate;
    try (intros H; now apply inf_of_sign_not_finite in H).
  intros [= <-]. now exists a, b.
Qed.

Lemma fadd_finite (x y : float64) (w : R) :
  fadd x y = fin w -> exists a b : R, x = fin a /\ y = fin b /\ w = a + b.
Proof.
  destruct x as [a | | |], y as [b | | |]; simpl; try discriminate.
  intros [= <-]. now exists a, b.
Qed.

Lemma fdiv_finite (x : float64) (c w : R) :
  c <> 0 -> fdiv x c = fin w -> exists a : R, x = fin a /\ w = a / c.
Proof.
  intros Hc. destruct x as [a | | |]; simpl; try discriminate.
  - destruct (Req_dec_T c 0); [contradiction |]. intros [= <-]. now exists a.
  - destruct (Rlt_dec c 0); discriminate.
  - destruct (Rlt_dec c 0); discriminate.
Qed.

Lemma fdiv_fin (a c : R) : c <> 0 -> fdiv a c = fin (a / c).
Proof. intros Hc. simpl. now destruct (Req_dec_T c 0). Qed.

(** The minimum leaves a finite thickness finite and a [nan] a [nan]. *)
Lemma minimum_thickness_fin (t : R) :
  minimum_thickness t = fin (if Rlt_dec t 0.25 then 0.25 else t).
Proof.
  unfold minimum_thickness. simpl. now destruct (Rlt_dec t 0.25).
Qed.

Lemma minimum_thickness_ge (t : float64) (m : R) :
  minimum_thickness t = fin m -> 0.25 <= m.
Proof.
  unfold minimum_thickness. destruct t as [x | | |]; simpl;
    try discriminate; try (intros [= <-]; lra).
  destruct (Rlt_dec x 0.25); intros [= <-]; lra.
Qed.

Lemma weight_of_thickness_fin (i : VesselInput) (t : R) :
  weight_of_thickness i t = fin (finite_weight i t).
Proof.
  unfold weight_of_thickness, finite_weight. simpl.
  destruct (Req_dec_T kg_to_lb 0) as [E | _]; [| reflexivity].
  unfold kg_to_lb in E. lra.
Qed.

(** A finite weight comes from a finite thickness. *)
Lemma weight_of_thickness_finite (i : VesselInput) (t : float64) (w : R) :
  weight_of_thickness i t = fin w ->
  exists t' : R, t = fin t' /\ w = finite_weight i t'.
Proof.
  intros H0. pose proof H0 as H. unfold weight_of_thickness in H0.
  cbv zeta in H0.
  apply fdiv_finite in H0 as (a & Ha & _); [| unfold kg_to_lb; lra].
  apply fmul_finite in Ha as (b & c & Hb & _ & _).
  apply fmul_finite in Hb as (d & e & Hd & _ & _).
  apply fmul_finite in Hd as (f & g & Hf & _ & _).
  apply fmul_finite in Hf as (h & t' & _ & -> & _).
  exists t'. split; [reflexivity |].
  rewrite weight_of_thickness_fin in H. now injection H as <-.
Qed.

Lemma loop_test_true (s : loop_state R) :
  Rabs (error s) > 0.001 -> loop_test s = true.
Proof.
  intros H. unfold loop_test; simpl. unfold Rgtb.
  now destruct (Rgt_dec (Rabs (error s)) 0.001).
Qed.

Lemma loop_test_false (s : loop_state R) :
  loop_test s = false <-> Rabs (error s) <= 0.001.
Proof.
  unfold loop_test; simpl. unfold Rgtb.
  destruct (Rgt_dec (Rabs (error s)) 0.001); split; intros; try discriminate;
    try reflexivity; lra.
Qed.

Lemma Rgtb_1 : Rgtb (Rabs 1) 0.001 = true.
Proof.
  unfold Rgtb. rewrite Rabs_R1. destruct (Rgt_dec 1 0.001); [reflexivity | lra].
Qed.

Lemma loop_test_true_pynum (s : loop_state pynum) (e : R) :
  error s = pyfloat e -> Rabs e > 0.001 -> loop_test s = true.
Proof.
  intros E H. unfold loop_test; simpl. rewrite E. simpl. unfold Rgtb.
  now destruct (Rgt_dec (Rabs e) 0.001).
Qed.

Lemma loop_test_false_pynum (s : loop_state pynum) (e : R) :
  error s = pyfloat e -> Rabs e <= 0.001 -> loop_test s = false.
Proof.
  intros E H. unfold loop_test; simpl. rewrite E. simpl. unfold Rgtb.
  destruct (Rgt_dec (Rabs e) 0.001); [lra | reflexivity].
Qed.

Lemma loop_test_true_numpy (s : loop_state float64) (e : R) :
  error s = fin e -> Rabs e > 0.001 -> loop_test s = true.
Proof.
  intros E H. unfold loop_test; simpl. rewrite E. simpl.
  destruct (Rlt_dec 0.001 (Rabs e)); [reflexivity | lra].
Qed.

Lemma loop_test_false_numpy (s : loop_state float64) (e : R) :
  error s = fin e -> Rabs e <= 0.001 -> loop_test s = false.
Proof.
  intros E H. unfold loop_test; simpl. rewrite E. simpl.
  destruct (Rlt_dec 0.001 (Rabs e)); [lra | reflexivity].
Qed.

(** [abs(1) > 0.001] on each kind of number: every loop executes its body
    at least once. *)
Lemma loop_test_initial : loop_test (@initial_state R _) = true.
Proof. exact Rgtb_1. Qed.

Lemma loop_test_initial_pynum : loop_test (@initial_state pynum _) = true.
Proof. exact Rgtb_1. Qed.

Lemma loop_test_initial_numpy : loop_test (@initial_state float64 _) = true.
Proof.
  unfold loop_test; simpl. rewrite Rabs_R1.
  destruct (Rlt_dec 0.001 1); [reflexivity | lra].
Qed.

(** A loop that returns has executed its body, so [tE] is assigned and equal
    to [tE1], and has just found its test [abs(error) > 0.001] false. *)
Lemma iterate_ended {V : Type} `{Number V} (fuel : nat) (update : V -> M V)
      (out : list string) (s : loop_state V) :
  loop_test (@initial_state V _) = true ->
  iterate fuel update = (out, Returned s) ->
  loop_test s = false /\ tE s = Some (tE1 s).
Proof.
  intros Hi Hr. apply while_returned in Hr as [Hc [-> | (s0 & out0 & Hb)]].
  - rewrite Hi in Hc. discriminate.
  - split; [exact Hc |].
    unfold loop_body in Hb.
    apply bind_returned in Hb as (? & t & ? & _ & Hb & _).
    apply bind_returned in Hb as (? & e & ? & _ & Hb & _).
    now injection Hb as _ <-.
Qed.

(** On Python floats the test is false when the last relative change is
    within the tolerance. *)
Lemma iterate_returned (fuel : nat) (update : R -> M R) (out : list string)
      (s : loop_state R) :
  iterate fuel update = (out, Returned s) ->
  Rabs (error s) <= 0.001 /\ tE s = Some (tE1 s).
Proof.
  intros Hr. apply (iterate_ended _ _ _ _ loop_test_initial) in Hr as [Hc Ht].
  split; [now apply loop_test_false | exact Ht].
Qed.

(** With the allowable stress unassigned, the first execution of the loop
    body of the high-pressure branch stops at the read of the variable. *)
Lemma high_pressure_thickness_unbound (fuel : nat) (dp : option R)
      (i : VesselInput) :
  high_pressure_thickness fuel dp None i
  = match fuel with
    | O => timeout
    | _ => raise (UnboundLocalError "allowable_stress")
    end.
Proof.
  unfold high_pressure_thickness, iterate.
  destruct fuel as [| fuel].
  - rewrite while_no_fuel by exact loop_test_initial. reflexivity.
  - rewrite while_step by exact loop_test_initial. reflexivity.
Qed.

Lemma no_value_error_raise {A : Type} (e : exn) :
  (forall msg, e <> ValueError msg) -> no_value_error (@raise A e).
Proof. intros H msg [= E]. exact (H msg E). Qed.

Lemma no_value_error_complex_div (a b c d : R) :
  no_value_error (complex_div a b c d).
Proof.
  unfold complex_div. destruct (Req_dec_T c 0), (Req_dec_T d 0); discriminate.
Qed.

Lemma no_value_error_py_div (x y : pynum) : no_value_error (py_div x y).
Proof.
  destruct x, y; simpl; try apply no_value_error_complex_div.
  apply no_value_error_bind; [apply no_value_error_float_div | discriminate].
Qed.

Lemma no_value_error_complex_pow (a b y : R) :
  no_value_error (complex_pow a b y).
Proof.
  unfold complex_pow.
  repeat match goal with |- context [if ?c then _ else _] => destruct c end;
    discriminate.
Qed.

Lemma no_value_error_py_pow (x : pynum) (y : R) : no_value_error (py_pow x y).
Proof.
  destruct x; simpl; [| apply no_value_error_complex_pow].
  repeat match goal with |- context [if ?c then _ else _] => destruct c end;
    try discriminate.
  apply no_value_error_complex_pow.
Qed.

Lemma no_value_error_true_div (numpy : bool) (x y : R) :
  no_value_error (true_div numpy x y).
Proof.
  destruct numpy; simpl; [discriminate |].
  apply no_value_error_bind; [apply no_value_error_float_div | discriminate].
Qed.

Lemma no_value_error_divide_float (x y : R) : no_value_error (divide x y).
Proof. apply no_value_error_float_div. Qed.

Lemma no_value_error_divide_pynum (x y : pynum) : no_value_error (divide x y).
Proof. apply no_value_error_py_div. Qed.

Lemma no_value_error_divide_numpy (x y : float64) :
  no_value_error (divide x y).
Proof. discriminate. Qed.

Lemma no_value_error_iterate {V : Type} `{Number V} (fuel : nat)
      (update : V -> M V) :
  (forall x y : V, no_value_error (divide x y)) ->
  (forall t, no_value_error (update t)) ->
  no_value_error (iterate fuel update).
Proof.
  intros Hd Hu. apply no_value_error_while. intros s. unfold loop_body.
  apply no_value_error_bind; [apply Hu | intros t].
  apply no_value_error_bind; [apply Hd | intros e].
  apply no_value_error_ret.
Qed.

Ltac no_value_error :=
  repeat first
    [ apply no_value_error_ret | apply no_value_error_print
    | apply no_value_error_deref | apply no_value_error_float_div
    | apply no_value_error_float_pow | apply no_value_error_py_div
    | apply no_value_error_py_pow | apply no_value_error_true_div
    | apply no_value_error_raise; discriminate
    | apply no_value_error_iterate;
      [ first [ exact no_value_error_divide_float
              | exact no_value_error_divide_pynum
              | exact no_value_error_divide_numpy ]
      | intros ? ]
    | apply no_value_error_bind; [| intros ?]
    | match goal with
      | |- no_value_error (if ?c then _ else _) => destruct c
      | |- no_value_error (match ?x with pyfloat _ => _ | pycomplex _ _ => _ end)
        => destruct x
      end ].

(** [vertical_vessels_weight] has no [raise] statement and calls nothing that
    raises a [ValueError]. *)
Lemma vertical_vessels_weight_no_value_error (fuel : nat) (i : VesselInput) :
  no_value_error (vertical_vessels_weight fuel i).
Proof.
  unfold vertical_vessels_weight, total_thickness, allowable_stress,
    wall_thickness, high_pressure_thickness, low_pressure_thickness,
    low_pressure_thickness_python, low_pressure_thickness_numpy,
    tE_wind, tE_vacuum, tE_vacuum_numpy.
  cbv zeta. no_value_error.
Qed.

(** The vessel calculation is followed throughout: where a Python float
    becomes complex the model goes on with complex numbers. *)
Lemma followed_bind {A B : Type} (m : M A) (k : A -> M B) :
  followed m -> (forall a, followed (k a)) -> followed (bind m k).
Proof.
  intros Hm Hk. unfold followed, bind in *.
  destruct m as [out [a | e | |]]; simpl in *; try discriminate.
  - apply Hk.
  - contradiction.
Qed.

Lemma followed_while {A : Type} (cond : A -> bool) (body : A -> M A)
      (fuel : nat) :
  (forall s, followed (body s)) -> forall s, followed (while fuel cond body s).
Proof.
  intros Hb. induction fuel as [| fuel IH]; intros s;
    destruct (cond s) eqn:C.
  - simpl. rewrite C. discriminate.
  - rewrite while_done by exact C. discriminate.
  - rewrite while_step by exact C. now apply followed_bind.
  - rewrite while_done by exact C. discriminate.
Qed.

Lemma followed_float_div (x y : R) : followed (float_div x y).
Proof. unfold float_div. destruct (Req_dec_T y 0); discriminate. Qed.

Lemma followed_complex_div (a b c d : R) : followed (complex_div a b c d).
Proof.
  unfold complex_div. destruct (Req_dec_T c 0), (Req_dec_T d 0); discriminate.
Qed.

Lemma followed_py_div (x y : pynum) : followed (py_div x y).
Proof.
  destruct x, y; simpl; try apply followed_complex_div.
  apply followed_bind; [apply followed_float_div | discriminate].
Qed.

Lemma followed_complex_pow (a b y : R) : followed (complex_pow a b y).
Proof.
  unfold complex_pow.
  repeat match goal with |- context [if ?c then _ else _] => destruct c end;
    discriminate.
Qed.

Lemma followed_py_pow (x : pynum) (y : R) : followed (py_pow x y).
Proof.
  destruct x; simpl; [| apply followed_complex_pow].
  repeat match goal with |- context [if ?c then _ else _] => destruct c end;
    try discriminate.
  apply followed_complex_pow.
Qed.

Lemma followed_true_div (numpy : bool) (x y : R) :
  followed (true_div numpy x y).
Proof.
  destruct numpy; simpl; [discriminate |].
  apply followed_bind; [apply followed_float_div | discriminate].
Qed.

Lemma followed_deref {A : Type} (var : string) (v : option A) :
  followed (deref var v).
Proof. destruct v; discriminate. Qed.

Lemma followed_iterate {V : Type} `{Number V} (fuel : nat)
      (update : V -> M V) :
  (forall x y : V, followed (divide x y)) ->
  (forall t, followed (update t)) ->
  followed (iterate fuel update).
Proof.
  intros Hd Hu. apply followed_while. intros s. unfold loop_body.
  apply followed_bind; [apply Hu | intros t].
  apply followed_bind; [apply Hd | intros e]. discriminate.
Qed.

Lemma vertical_vessels_weight_followed (fuel : nat) (i : VesselInput) :
  followed (vertical_vessels_weight fuel i).
Proof.
  unfold vertical_vessels_weight, total_thickness, allowable_stress,
    wall_thickness, high_pressure_thickness, low_pressure_thickness,
    low_pressure_thickness_python, low_pressure_thickness_numpy,
    tE_wind, tE_vacuum, tE_vacuum_numpy.
  cbv zeta.
  repeat first
    [ apply followed_deref | apply followed_float_div
    | apply followed_py_div | apply followed_py_pow
    | apply followed_true_div
    | apply followed_iterate;
      [ first [ exact followed_float_div | exact followed_py_div
              | intros ? ?; discriminate ]
      | intros ? ]
    | apply followed_bind; [| intros ?]
    | match goal with
      | |- followed (if ?c then _ else _) => destruct c
      | |- followed (match ?x with pyfloat _ => _ | pycomplex _ _ => _ end)
        => destruct x
      end
    | discriminate ].
Qed.

(** C1, as the code has it: a design temperature above 900 F prints the
    warning of the source and leaves the allowable stress unassigned; no
    [ValueError] is raised. With [lowest_pressure >= 101] no weight is
    returned. With [lowest_pressure < 101] the allowable stress is not read and
    the call goes on as the low-pressure procedure with the modulus of the
    last band, returning a weight whenever that procedure returns a
    thickness. *)
Theorem hot_vessel_warns_and_proceeds (fuel : nat) (i : VesselInput) :
  design_temp (highest_temp i) > 900 ->
  (exists (out : list string) (r : outcome float64),
      vertical_vessels_weight fuel i = (temperature_warning :: out, r) /\
      forall msg : string, r <> Raised (ValueError msg)) /\
  (lowest_pressure i >= 101 ->
   forall w : float64, snd (vertical_vessels_weight fuel i) <> Returned w) /\
  (lowest_pressure i < 101 ->
   vertical_vessels_weight fuel i
   = (print temperature_warning ;;;
      t <- low_pressure_thickness fuel (design_pressure (lowest_pressure i))
                                  (26.0 * 10 ^ 6) i ;;
      ret (weight_of_thickness i (minimum_thickness t)))).
Proof.
  intros Hhot.
  pose proof (vertical_vessels_weight_no_value_error fuel i) as Hclean.
  unfold vertical_vessels_weight, total_thickness in *. cbv zeta in *.
  rewrite (allowable_stress_hot _ Hhot) in *.
  rewrite E_modulus_hot in * by lra.
  change ([temperature_warning], Returned (@None R))
    with (print temperature_warning ;;; ret (@None R)) in *.
  rewrite !bind_assoc, bind_print in *. rewrite !bind_ret in *.
  split; [| split].
  - do 2 eexists. split; [reflexivity |]. exact Hclean.
  - intros Hp w. unfold wall_thickness.
    destruct (Rge_dec (lowest_pressure i) 101); [| lra].
    rewrite high_pressure_thickness_unbound.
    destruct fuel; discriminate.
  - intros Hp. unfold wall_thickness.
    destruct (Rge_dec (lowest_pressure i) 101); [lra |].
    destruct (Rle_dec (lowest_pressure i) 101); [| lra].
    rewrite !bind_assoc, bind_print.
    match goal with
    | |- (_ :: fst ?x, snd ?x) = (_ :: fst ?y, snd ?y) =>
        assert (E : x = y); [| now rewrite E]
    end.
    apply bind_ext. intros t.
    unfold deref. now rewrite !bind_ret.
Qed.

(** With [lowest_pressure >= 101] the first execution of the loop body reads
    the unassigned allowable stress. *)
Lemma hot_high_pressure_vessel_stops (fuel : nat) (i : VesselInput) :
  design_temp (highest_temp i) > 900 -> lowest_pressure i >= 101 ->
  vertical_vessels_weight (S fuel) i
  = ([temperature_warning], Raised (UnboundLocalError "allowable_stress")).
Proof.
  intros Hhot Hp.
  unfold vertical_vessels_weight, total_thickness. cbv zeta.
  rewrite (allowable_stress_hot _ Hhot).
  change ([temperature_warning], Returned (@None R))
    with (print temperature_warning ;;; ret (@None R)).
  rewrite !bind_assoc, bind_print, !bind_ret. unfold wall_thickness.
  destruct (Rge_dec (lowest_pressure i) 101); [| lra].
  rewrite high_pressure_thickness_unbound. reflexivity.
Qed.

(** The thickness stage of the two branches, once the allowable stress is
    known. *)
Lemma total_thickness_unfold (fuel : nat) (i : VesselInput) (S : R) :
  allowable_stress (design_temp (highest_temp i)) = ret (Some S) ->
  total_thickness fuel i
  = (t <- wall_thickness fuel (design_pressure (lowest_pressure i))
                         (E_modulus (design_temp (highest_temp i)))
                         (Some S) i ;;
     t <- deref "t_total" t ;;
     ret (minimum_thickness t)).
Proof.
  intros H. unfold total_thickness. cbv zeta. now rewrite H, bind_ret.
Qed.

(** C5: the call returns exactly when the thickness stage does, and the
    weight returned is
    [pi * t_total * (density * 0.000036127298147753) * (D_in + t_total)
     * (L_in + 0.8 * D_in) / 2.20462]
    with lengths converted to inches by 39.3701: the pounds of the empirical
    formula divided by the pounds in a kilogram. [t_total] is the thickness
    after the minimum of 0.25 in.  The first two parts speak of finite
    numbers; the last two say the same of every [numpy.float64] the
    thickness stage can return, [inf] and [nan] included, the formula then
    being evaluated in its arithmetic. *)
Theorem weight_in_kilograms (fuel : nat) (i : VesselInput)
        (out : list string) :
  let pounds (t_total : R) : R :=
    PI * t_total * (material_density i * 0.000036127298147753)
    * (diameter i * 39.3701 + t_total)
    * (tangent_tangent_length i * 39.3701 + 0.8 * (diameter i * 39.3701)) in
  (forall t_total : R,
      total_thickness fuel i = (out, Returned (fin t_total)) ->
      vertical_vessels_weight fuel i
      = (out, Returned (fin (pounds t_total / 2.20462)))) /\
  (forall w : R,
      vertical_vessels_weight fuel i = (out, Returned (fin w)) ->
      exists t_total : R,
        total_thickness fuel i = (out, Returned (fin t_total)) /\
        0.25 <= t_total /\
        w = pounds t_total / 2.20462 /\ w * 2.20462 = pounds t_total) /\
  (forall t_total : float64,
      total_thickness fuel i = (out, Returned t_total) ->
      vertical_vessels_weight fuel i
      = (out, Returned
                (PI * t_total * (material_density i * 0.000036127298147753)
                 * (diameter i * 39.3701 + t_total)
                 * (tangent_tangent_length i * 39.3701
                    + 0.8 * (diameter i * 39.3701)) / 2.20462)%float64)) /\
  (forall w : float64,
      vertical_vessels_weight fuel i = (out, Returned w) ->
      exists t_total : float64,
        total_thickness fuel i = (out, Returned t_total)).
Proof.
  intros pounds. unfold vertical_vessels_weight. split; [| split; [| split]].
  - intros t Ht. rewrite Ht. unfold bind; simpl. rewrite app_nil_r.
    rewrite weight_of_thickness_fin. reflexivity.
  - intros w Hw.
    apply bind_returned in Hw as (out1 & t & out2 & Ht & Hr & ->).
    injection Hr as <- Hr. rewrite app_nil_r.
    apply weight_of_thickness_finite in Hr as (t' & -> & ->).
    exists t'. split; [exact Ht |].
    split; [| split]; cycle 1.
    { reflexivity. }
    { unfold finite_weight, kg_to_lb, kg_m3_to_lb_in3, m_to_inch.
      unfold pounds. lra. }
    unfold total_thickness in Ht. cbv zeta in Ht.
    apply bind_returned in Ht as (? & S & ? & _ & Ht & _).
    apply bind_returned in Ht as (? & t0 & ? & _ & Ht & _).
    apply bind_returned in Ht as (? & t1 & ? & _ & Ht & _).
    injection Ht as _ Ht. now apply minimum_thickness_ge in Ht.
  - intros t Ht. rewrite Ht. unfold bind; simpl. rewrite app_nil_r.
    reflexivity.
  - intros w Hw.
    apply bind_returned in Hw as (out1 & t & out2 & Ht & Hr & ->).
    injection Hr as <- _. rewrite app_nil_r. now exists t.
Qed.

End VesselWeight.

(** ** Arithmetic used by the example runs *)

Lemma div_le_hi (n d hi : R) : 0 < d -> n <= hi * d -> n / d <= hi.
Proof.
  intros Hd H. apply Rmult_le_reg_r with d; [exact Hd |].
  unfold Rdiv. rewrite Rmult_assoc, Rinv_l, Rmult_1_r by lra. exact H.
Qed.

Lemma div_ge_lo (n d lo : R) : 0 < d -> lo * d <= n -> lo <= n / d.
Proof.
  intros Hd H. apply Rmult_le_reg_r with d; [exact Hd |].
  unfold Rdiv. rewrite Rmult_assoc, Rinv_l, Rmult_1_r by lra. exact H.
Qed.

Lemma div_pos (n d : R) : 0 < n -> 0 < d -> 0 < n / d.
Proof. intros. now apply Rdiv_lt_0_compat. Qed.

Section VesselLoopBody.

Import Vessel.

Lemma loop_body_value (update : R -> M R) (s : loop_state R) (v : R) :
  update (tE1 s) = ret v -> tE1 s <> 0 ->
  loop_body update s
  = ret {| tE := Some v; error := (tE1 s - v) / tE1 s; tE1 := v |}.
Proof.
  intros Hu Hz. unfold loop_body. cbn [divide subtract float_Number].
  now rewrite Hu, bind_ret, float_div_ok, bind_ret by exact Hz.
Qed.

(** The same step on Python numbers that are floats, and on finite
    [numpy.float64]. *)
Lemma loop_body_value_pynum (update : pynum -> M pynum) (s : loop_state pynum)
      (t v : R) :
  tE1 s = pyfloat t -> update (pyfloat t) = ret (pyfloat v) -> t <> 0 ->
  loop_body update s
  = ret {| tE := Some (pyfloat v); error := pyfloat ((t - v) / t);
           tE1 := pyfloat v |}.
Proof.
  intros Ht Hu Hz. unfold loop_body. cbn [divide subtract pynum_Number].
  rewrite Ht, Hu, bind_ret. simpl.
  now rewrite float_div_ok, !bind_ret by exact Hz.
Qed.

Lemma loop_body_value_numpy (update : float64 -> M float64)
      (s : loop_state float64) (t v : R) :
  tE1 s = fin t -> update (fin t) = ret (fin v) -> t <> 0 ->
  loop_body update s
  = ret {| tE := Some (fin v); error := fin ((t - v) / t); tE1 := fin v |}.
Proof.
  intros Ht Hu Hz. unfold loop_body. cbn [divide subtract float64_Number].
  rewrite Ht, Hu, !bind_ret.
  change (fsub t v) with (fin (t + - v)). rewrite fdiv_fin by exact Hz.
  reflexivity.
Qed.

Lemma tE_wind_value (S : R) (i : VesselInput) (t : R) :
  0 < S -> 0 < diameter i * m_to_inch + t ->
  tE_wind (Some S) i t = ret (wind_update S i (diameter i * m_to_inch + t)).
Proof.
  intros HS Ht. unfold tE_wind, wind_update. cbv zeta. simpl deref.
  rewrite bind_ret.
  apply float_div_ok. apply Rgt_not_eq.
  apply Rmult_lt_0_compat; [exact HS | apply pow_lt; exact Ht].
Qed.

(** The wind update decreases as the wall gets thicker. *)
Lemma wind_update_decr (S : R) (i : VesselInput) (A B : R) :
  0 < S -> 0 < A <= B -> wind_update S i B <= wind_update S i A.
Proof.
  intros HS [HA HAB]. unfold wind_update.
  set (L2 := (tangent_tangent_length i * m_to_inch) ^ 2).
  assert (HL2 : 0 <= L2) by apply pow2_ge_0.
  assert (HdA : 0 < S * A ^ 2)
    by (apply Rmult_lt_0_compat; [lra | apply pow_lt; lra]).
  assert (HdB : 0 < S * B ^ 2)
    by (apply Rmult_lt_0_compat; [lra | apply pow_lt; lra]).
  assert (Hkey : (B + 18) * A ^ 2 <= (A + 18) * B ^ 2).
  { assert (H1 : 0 <= A * B * (B - A))
      by (apply Rmult_le_pos; [apply Rmult_le_pos |]; lra).
    assert (H2 : 0 <= (B - A) * (B + A)) by (apply Rmult_le_pos; lra).
    replace ((A + 18) * B ^ 2)
      with ((B + 18) * A ^ 2 + (A * B * (B - A) + 18 * ((B - A) * (B + A))))
      by ring.
    clear - H1 H2. lra. }
  apply div_le_hi; [exact HdB |].
  replace (0.22 * (A + 18) * L2 / (S * A ^ 2) * (S * B ^ 2))
    with (0.22 * L2 * ((A + 18) * B ^ 2) / A ^ 2)
    by (field; split; apply Rgt_not_eq; lra).
  apply div_ge_lo; [apply pow_lt; lra |].
  replace (0.22 * (B + 18) * L2 * A ^ 2) with (0.22 * L2 * ((B + 18) * A ^ 2))
    by ring.
  apply Rmult_le_compat_l; [| exact Hkey].
  apply Rmult_le_pos; lra.
Qed.

End VesselLoopBody.

(** ** A column on which the wind iteration oscillates for ever *)

Section SlenderColumn.

Import Vessel.

Lemma slender_column_step (s : loop_state R) :
  oscillates s ->
  exists s',
    loop_body (tE_wind (Some 15000) slender_column) s = ret s' /\
    oscillates s'.
Proof.
  intros [_ Hs].
  set (t := tE1 s) in *.
  assert (Ht : 0 < t) by (destruct Hs; lra).
  assert (Hsum : 0 < diameter slender_column * m_to_inch + t)
    by (unfold m_to_inch; simpl; lra).
  eexists. split.
  { apply loop_body_value; [apply tE_wind_value; [lra | exact Hsum] |].
    fold t. lra. }
  unfold oscillates, wind_update, m_to_inch, slender_column in *.
  cbn [diameter tangent_tangent_length tE1 error] in *. fold t.
  set (num := 0.22 * (0.01 * 39.3701 + t + 18) * (100 * 39.3701) ^ 2).
  set (den := 15000 * (0.01 * 39.3701 + t) ^ 2).
  assert (Hden : 0 < den).
  { unfold den. apply Rmult_lt_0_compat; [lra | apply pow_lt; exact Hsum]. }
  destruct Hs as [[_ Hsmall] | Hbig].
  - assert (Hv : 9000 <= num / den).
    { apply div_ge_lo; [exact Hden |]. unfold num, den. nra. }
    split; [| right; exact Hv].
    set (v := num / den) in *. clearbody v. clear Hden. clear num den.
    assert (He : (t - v) / t <= -1).
    { apply div_le_hi; [exact Ht |]. lra. }
    set (e := (t - v) / t) in *. clearbody e.
    rewrite Rabs_left by lra. lra.
  - assert (Hv : num / den <= 0.25).
    { apply div_le_hi; [exact Hden |]. unfold num, den. nra. }
    assert (Hv0 : 0 < num / den).
    { apply div_pos; [| exact Hden]. unfold num. nra. }
    split; [| left; lra].
    set (v := num / den) in *. clearbody v. clear Hden. clear num den.
    assert (He : 0.5 <= (t - v) / t).
    { apply div_ge_lo; [exact Ht |]. lra. }
    set (e := (t - v) / t) in *. clearbody e.
    rewrite Rabs_right by lra. lra.
Qed.

Lemma slender_column_loop_forever (fuel : nat) :
  iterate fuel (tE_wind (Some 15000) slender_column) = timeout.
Proof.
  unfold iterate.
  apply while_forever with (inv := oscillates).
  - intros s [H _]. now apply loop_test_true.
  - exact slender_column_step.
  - split; simpl; [rewrite Rabs_R1 |]; lra.
Qed.

Lemma slender_column_runs_forever :
  runs_forever (fun fuel => vertical_vessels_weight fuel slender_column).
Proof.
  intros fuel.
  unfold vertical_vessels_weight, total_thickness. cbv zeta.
  assert (HS : allowable_stress (design_temp (highest_temp slender_column))
               = ret (Some 15000)).
  { unfold allowable_stress, design_temp. simpl.
    destruct (Rle_dec _ 750); [reflexivity | lra]. }
  rewrite HS, bind_ret. unfold wall_thickness.
  destruct (Rge_dec (lowest_pressure slender_column) 101) as [_ | H];
    [| simpl in H; lra].
  unfold high_pressure_thickness.
  now rewrite slender_column_loop_forever.
Qed.

End SlenderColumn.

(** ** The power 0.4 through fifth powers *)

Lemma pow_lt_strict (x y : R) (n : nat) :
  0 <= x < y -> x ^ S n < y ^ S n.
Proof.
  intros [Hx Hxy]. induction n as [| n IH].
  - simpl. lra.
  - change (x * x ^ S n < y * y ^ S n).
    assert (0 <= x ^ S n) by (apply pow_le; exact Hx).
    apply Rle_lt_trans with (x * y ^ S n).
    + apply Rmult_le_compat_l; lra.
    + apply Rmult_lt_compat_r; lra.
Qed.

Lemma pow5_le_inv (u v : R) : 0 <= u -> 0 <= v -> u ^ 5 <= v ^ 5 -> u <= v.
Proof.
  intros Hu Hv H. destruct (Rle_lt_dec u v) as [| Hlt]; [assumption |].
  pose proof (pow_lt_strict v u 4 (conj Hv Hlt)). lra.
Qed.

Lemma Rpower_04_pow5 (x : R) : 0 < x -> Rpower x 0.4 ^ 5 = x ^ 2.
Proof.
  intros Hx.
  rewrite <- (Rpower_pow 5) by apply Rpower_pos.
  rewrite Rpower_mult.
  replace (0.4 * INR 5) with (INR 2) by (simpl; lra).
  now apply Rpower_pow.
Qed.

Section VacuumIteration.

Import Vessel.

Variables (dp E : R) (i : VesselInput).
Hypothesis Hdp : 0 < dp.
Hypothesis HE : 0 < E.
Hypothesis HL : 0 < tangent_tangent_length i * m_to_inch.

Local Notation "'G'" := (vacuum_update dp E i).

(** On positive data both right-hand sides stay within the floats and have
    the same value. *)
Lemma tE_vacuum_value (t : R) :
  0 < diameter i * m_to_inch + t ->
  tE_vacuum (Some dp) E i (pyfloat t)
  = ret (pyfloat (G (diameter i * m_to_inch + t))).
Proof.
  intros Ht. unfold tE_vacuum, vacuum_update. simpl deref. rewrite bind_ret.
  assert (Hden : 0 < E * (diameter i * m_to_inch + t))
    by (apply Rmult_lt_0_compat; assumption).
  simpl py_div.
  rewrite float_div_ok, !bind_ret by (apply Rgt_not_eq; exact Hden).
  rewrite py_pow_pos, bind_ret; [reflexivity |].
  apply div_pos; [apply Rmult_lt_0_compat; assumption | exact Hden].
Qed.


Lemma G_pos (A : R) : 0 < A -> 0 < G A.
Proof.
  intros HA. unfold vacuum_update.
  apply Rmult_lt_0_compat; [lra | apply Rpower_pos].
Qed.

Lemma G_pow5 (A : R) :
  0 < A ->
  G A ^ 5
  = 1.3 ^ 5 * A ^ 3 * (dp * (tangent_tangent_length i * m_to_inch) / E) ^ 2.
Proof.
  intros HA. unfold vacuum_update.
  rewrite !Rpow_mult_distr, Rpower_04_pow5.
  - field. lra.
  - apply div_pos; apply Rmult_lt_0_compat; assumption.
Qed.

(** [G] is increasing, and grows no faster than its argument. *)
Lemma G_incr (A B : R) : 0 < A <= B -> G A <= G B.
Proof.
  intros [HA HAB].
  apply pow5_le_inv; try (left; apply G_pos; lra).
  rewrite !G_pow5 by lra.
  apply Rmult_le_compat_r; [apply pow2_ge_0 |].
  apply Rmult_le_compat_l; [apply pow_le; lra |].
  apply pow_incr. lra.
Qed.

Lemma G_sublinear (A B c : R) :
  0 < A -> 0 < B -> 1 <= c -> B <= c * A -> G B <= c * G A.
Proof.
  intros HA HB Hc HBA.
  pose proof (G_pos A HA) as HGA. pose proof (G_pos B HB) as HGB.
  apply pow5_le_inv; [lra | apply Rmult_le_pos; lra |].
  rewrite Rpow_mult_distr, !G_pow5 by assumption.
  set (K := (dp * (tangent_tangent_length i * m_to_inch) / E) ^ 2).
  assert (HK : 0 <= K) by apply pow2_ge_0.
  assert (H3 : B ^ 3 <= c ^ 5 * A ^ 3).
  { apply Rle_trans with ((c * A) ^ 3); [apply pow_incr; lra |].
    rewrite Rpow_mult_distr.
    apply Rmult_le_compat_r; [apply pow_le; lra |].
    apply Rle_pow; [exact Hc | lia]. }
  replace (c ^ 5 * (1.3 ^ 5 * A ^ 3 * K)) with (1.3 ^ 5 * (c ^ 5 * A ^ 3) * K)
    by ring.
  apply Rmult_le_compat_r; [exact HK |].
  apply Rmult_le_compat_l; [apply pow_le; lra | exact H3].
Qed.

End VacuumIteration.

(** ** A vessel under vacuum above 900 F *)

Section HotVacuumVessel.

Import Vessel.

Local Notation "'D_in'" := (diameter hot_vacuum_vessel * m_to_inch).
Local Notation "'G'" :=
  (vacuum_update 10.0 (26.0 * 10 ^ 6) hot_vacuum_vessel).

Lemma hot_vacuum_vessel_length :
  0 < tangent_tangent_length hot_vacuum_vessel * m_to_inch.
Proof. unfold m_to_inch; simpl; lra. Qed.

(** First pass: from the guess 0.25 to a thickness between 0.26 and 0.28. *)
Lemma hot_vacuum_vessel_first : 0.26 <= G (D_in + 0.25) <= 0.28.
Proof.
  assert (HA : 0 < D_in + 0.25) by (unfold m_to_inch; simpl; lra).
  pose proof (G_pos 10.0 (26.0 * 10 ^ 6) hot_vacuum_vessel (D_in + 0.25) HA)
    as Hpos.
  pose proof (G_pow5 10.0 (26.0 * 10 ^ 6) hot_vacuum_vessel
                     ltac:(lra) ltac:(lra) hot_vacuum_vessel_length
                     (D_in + 0.25) HA) as H5.
  split; apply pow5_le_inv; try lra; rewrite H5;
    unfold m_to_inch, hot_vacuum_vessel;
    cbn [diameter tangent_tangent_length]; lra.
Qed.

(** Second pass: the thickness moves up by less than a thousandth. *)
Lemma hot_vacuum_vessel_second :
  let t1 := G (D_in + 0.25) in
  let t2 := G (D_in + t1) in
  t1 <= t2 <= 1.001 * t1.
Proof.
  intros t1 t2. pose proof hot_vacuum_vessel_first as [Hlo Hhi]. fold t1 in Hlo, Hhi.
  assert (HD : D_in = 3 * 39.3701) by reflexivity.
  split.
  - apply G_incr;
      [lra | lra | apply hot_vacuum_vessel_length | rewrite HD; lra].
  - apply G_sublinear;
      [ lra | lra | apply hot_vacuum_vessel_length | rewrite HD; lra
      | rewrite HD; lra | lra | rewrite HD; lra ].
Qed.

(** The loop ends after two passes, on Python floats. *)
Lemma hot_vacuum_vessel_iterate :
  exists t e : R,
    iterate 2 (tE_vacuum (Some 10.0) (26.0 * 10 ^ 6) hot_vacuum_vessel)
    = ret {| tE := Some (pyfloat t); error := pyfloat e; tE1 := pyfloat t |} /\
    0.26 <= t <= 0.281 /\ Rabs e <= 0.001.
Proof.
  pose proof hot_vacuum_vessel_first as [Hlo Hhi].
  pose proof hot_vacuum_vessel_second as Hsnd. cbv zeta in Hsnd.
  set (t1 := G (D_in + 0.25)) in *.
  set (t2 := G (D_in + t1)) in *.
  assert (HD : D_in = 3 * 39.3701) by reflexivity.
  assert (He : -0.001 <= (t1 - t2) / t1 <= 0).
  { split; [apply div_ge_lo | apply div_le_hi]; lra. }
  exists t2, ((t1 - t2) / t1).
  split; [| split; [lra | apply Rabs_le; lra]].
  unfold iterate.
  rewrite while_step by exact loop_test_initial_pynum.
  rewrite (loop_body_value_pynum _ _ 0.25 t1); cycle 1.
  { reflexivity. }
  { apply tE_vacuum_value;
      first [lra | apply hot_vacuum_vessel_length | rewrite HD; lra]. }
  { lra. }
  rewrite bind_ret.
  rewrite while_step; cycle 1.
  { apply loop_test_true_pynum with ((0.25 - t1) / 0.25); [reflexivity |].
    rewrite Rabs_left; lra. }
  rewrite (loop_body_value_pynum _ _ t1 t2); cycle 1.
  { reflexivity. }
  { apply tE_vacuum_value;
      first [lra | apply hot_vacuum_vessel_length | rewrite HD; lra]. }
  { lra. }
  rewrite bind_ret.
  rewrite while_done; [reflexivity |].
  apply loop_test_false_pynum with ((t1 - t2) / t1); [reflexivity |].
  apply Rabs_le. lra.
Qed.

Lemma hot_vacuum_vessel_design_temp :
  design_temp (highest_temp hot_vacuum_vessel) > 900.
Proof. unfold design_temp; simpl; lra. Qed.

Lemma hot_vacuum_vessel_pressure :
  design_pressure_is_numpy (lowest_pressure hot_vacuum_vessel) = false.
Proof.
  unfold design_pressure_is_numpy. simpl.
  destruct (Rle_dec 30 34.5); [reflexivity | lra].
Qed.

Lemma hot_vacuum_vessel_low_pressure :
  exists tE : R,
    0.26 <= tE <= 0.281 /\
    low_pressure_thickness 2 (Some 10.0) (26.0 * 10 ^ 6) hot_vacuum_vessel
    = ret (fin (tE + 0.125)).
Proof.
  destruct hot_vacuum_vessel_iterate as (t & e & Hs & Hb & _).
  exists t. split; [exact Hb |].
  unfold low_pressure_thickness. rewrite hot_vacuum_vessel_pressure.
  unfold low_pressure_thickness_python.
  rewrite Hs, bind_ret. simpl deref. rewrite bind_ret.
  assert (HD : D_in = 3 * 39.3701) by reflexivity.
  rewrite float_div_ok, bind_ret by (rewrite HD; lra).
  destruct (Rge_dec (t / D_in) 0.05) as [Hc | _].
  { exfalso. apply Rge_le in Hc. revert Hc. apply Rlt_not_le.
    apply Rle_lt_trans with (0.281 / D_in); [| rewrite HD; lra].
    apply Rmult_le_compat_r; [rewrite HD; lra | lra]. }
  rewrite bind_ret. unfold tEC.
  change (powerRZ 10 (-5)) with (/ 10 ^ 5).
  destruct (Rgt_dec _ 0) as [Hc | _]; [| reflexivity].
  exfalso. revert Hc. unfold m_to_inch. simpl. lra.
Qed.

Lemma hot_vacuum_vessel_thickness :
  exists t : R,
    0.38 <= t <= 0.41 /\
    total_thickness 2 hot_vacuum_vessel
    = ([temperature_warning], Returned (fin t)).
Proof.
  destruct hot_vacuum_vessel_low_pressure as (tE & Hb & Hlow).
  exists (tE + 0.125). split; [lra |].
  unfold total_thickness. cbv zeta.
  rewrite (allowable_stress_hot _ hot_vacuum_vessel_design_temp).
  rewrite E_modulus_hot by (pose proof hot_vacuum_vessel_design_temp; lra).
  assert (Hdp : design_pressure (lowest_pressure hot_vacuum_vessel) = Some 10.0).
  { unfold design_pressure. simpl.
    destruct (Rle_dec 30 34.5); [reflexivity | lra]. }
  rewrite Hdp. unfold wall_thickness.
  destruct (Rge_dec (lowest_pressure hot_vacuum_vessel) 101) as [H | _];
    [simpl in H; lra |].
  destruct (Rle_dec (lowest_pressure hot_vacuum_vessel) 101) as [_ | H];
    [| simpl in H; lra].
  rewrite Hlow, bind_ret. unfold bind; simpl.
  rewrite minimum_thickness_fin.
  destruct (Rlt_dec (tE + 0.125) 0.25); [lra | reflexivity].
Qed.

End HotVacuumVessel.

(** ** The reference vessel, at exactly 101 kPa *)

Section ReferenceVessel.

Import Vessel.

Local Notation "'D_in'" := (diameter reference_vessel * m_to_inch).
Local Notation "'f'" := (wind_update 15000 reference_vessel).

Lemma reference_vessel_diameter : D_in = 1 * 39.3701.
Proof. reflexivity. Qed.

Ltac wind_lo :=
  unfold wind_update, m_to_inch, reference_vessel;
  cbn [diameter tangent_tangent_length]; apply div_ge_lo; lra.

Ltac wind_hi :=
  unfold wind_update, m_to_inch, reference_vessel;
  cbn [diameter tangent_tangent_length]; apply div_le_hi; lra.

(** First pass: from the guess 0.25 down to about 0.0209. *)
Lemma reference_vessel_first : 0.0208 <= f (D_in + 0.25) <= 0.0209.
Proof. split; [wind_lo | wind_hi]. Qed.

(** From there on the iterates stay between 0.02102 and 0.02103. *)
Lemma reference_vessel_next (t : R) :
  0.0208 <= t <= 0.0209 -> 0.02102 <= f (D_in + t) <= 0.02103.
Proof.
  intros [Hlo Hhi]. rewrite reference_vessel_diameter. split.
  - apply Rle_trans with (f (1 * 39.3701 + 0.0209));
      [wind_lo | apply wind_update_decr; lra].
  - apply Rle_trans with (f (1 * 39.3701 + 0.0208));
      [apply wind_update_decr; lra | wind_hi].
Qed.

Lemma reference_vessel_fixed (t : R) :
  0.02102 <= t <= 0.02103 -> 0.02102 <= f (D_in + t) <= 0.02103.
Proof.
  intros [Hlo Hhi]. rewrite reference_vessel_diameter. split.
  - apply Rle_trans with (f (1 * 39.3701 + 0.02103));
      [wind_lo | apply wind_update_decr; lra].
  - apply Rle_trans with (f (1 * 39.3701 + 0.02102));
      [apply wind_update_decr; lra | wind_hi].
Qed.

(** Three passes: the relative changes are about 0.92, -0.0076 and 5e-6. *)
Lemma reference_vessel_iterate :
  exists s : loop_state R,
    iterate 3 (tE_wind (Some 15000) reference_vessel) = ret s /\
    0.02102 <= tE1 s <= 0.02103.
Proof.
  pose proof reference_vessel_first as H1.
  pose proof (reference_vessel_next _ H1) as H2.
  pose proof (reference_vessel_fixed _ H2) as H3.
  set (t1 := f (D_in + 0.25)) in *.
  set (t2 := f (D_in + t1)) in *.
  set (t3 := f (D_in + t2)) in *.
  pose proof reference_vessel_diameter as HD.
  unfold iterate.
  rewrite while_step by exact loop_test_initial.
  rewrite (loop_body_value _ _ t1); cycle 1.
  { apply tE_wind_value; [lra | simpl tE1; rewrite HD; lra]. }
  { simpl. lra. }
  rewrite bind_ret.
  rewrite while_step; cycle 1.
  { apply loop_test_true. simpl. rewrite Rabs_right; lra. }
  rewrite (loop_body_value _ _ t2); cycle 1.
  { apply tE_wind_value; [lra | simpl tE1; rewrite HD; lra]. }
  { simpl. lra. }
  rewrite bind_ret.
  rewrite while_step; cycle 1.
  { apply loop_test_true. cbn [error tE1].
    assert (He : (t1 - t2) / t1 <= -0.005) by (apply div_le_hi; lra).
    rewrite Rabs_left; lra. }
  rewrite (loop_body_value _ _ t3); cycle 1.
  { apply tE_wind_value; [lra | simpl tE1; rewrite HD; lra]. }
  { simpl. lra. }
  rewrite bind_ret.
  rewrite while_done.
  - eexists. split; [reflexivity |]. simpl. lra.
  - apply loop_test_false. cbn [error tE1].
    assert (He : -0.001 <= (t2 - t3) / t2 <= 0.001).
    { split; [apply div_ge_lo | apply div_le_hi]; lra. }
    apply Rabs_le. lra.
Qed.

Lemma exp_4_bounds : 16 <= exp 4 <= 81.
Proof.
  pose proof (exp_ineq1_le 1) as Hlo. pose proof exp_le_3 as Hhi.
  assert (H4 : exp 4 = (exp 1 * exp 1) * (exp 1 * exp 1)).
  { rewrite <- !exp_plus. f_equal. lra. }
  rewrite H4. clear H4.
  set (e := exp 1) in *. clearbody e.
  assert (H2 : 4 <= e * e <= 9) by nra.
  set (e2 := e * e) in *. clearbody e2. nra.
Qed.

Lemma exp_03_bound : exp 0.3 <= 1.43.
Proof.
  pose proof (exp_ineq1_le (- 0.3)) as Hlo.
  pose proof (exp_pos 0.3) as Hpos.
  assert (H1 : exp 0.3 * exp (- 0.3) = 1).
  { rewrite <- exp_plus. replace (0.3 + - 0.3) with 0 by lra. apply exp_0. }
  set (a := exp 0.3) in *. set (b := exp (- 0.3)) in *.
  clearbody a b. nra.
Qed.

Lemma exp_le (x y : R) : x <= y -> exp x <= exp y.
Proof.
  intros [H | ->]; [left; now apply exp_increasing | right; reflexivity].
Qed.

(** The design pressure at 101 kPa comes from the log-quadratic correlation
    and is about 21.7 psig. *)
Lemma design_pressure_101 :
  exists dp : R,
    design_pressure 101 = Some dp /\ 0 < dp <= 116 /\
    dp = exp (0.60608 + 0.91615 * ln (101 * 0.145038)
              + 0.0015655 * ln (101 * 0.145038) ^ 2).
Proof.
  eexists. split; [| split; [| reflexivity]].
  - unfold design_pressure, kPa_to_psig.
    destruct (Rle_dec 101 34.5); [lra |].
    destruct (Rle_dec 101 6895); [reflexivity | lra].
  - split; [apply exp_pos |].
    set (l := ln (101 * 0.145038)).
    assert (Hl : 0 < l < 4).
    { unfold l. split.
      - rewrite <- ln_1. apply ln_increasing; lra.
      - rewrite <- (ln_exp 4). apply ln_increasing; [lra |].
        pose proof exp_4_bounds. lra. }
    clearbody l.
    apply Rle_trans with (exp (4 + 0.3)).
    + apply exp_le. nra.
    + rewrite exp_plus.
      pose proof exp_4_bounds as [_ H4]. pose proof exp_03_bound as H03.
      pose proof (exp_pos 4). pose proof (exp_pos 0.3).
      set (a := exp 4) in *. set (b := exp 0.3) in *. clearbody a b. nra.
Qed.

(** At 101 kPa the design pressure is a [numpy.float64]. *)
Lemma reference_vessel_pressure :
  design_pressure_is_numpy (lowest_pressure reference_vessel) = true.
Proof.
  unfold design_pressure_is_numpy. simpl.
  destruct (Rle_dec 101 34.5); [lra |].
  destruct (Rle_dec 101 6895); [reflexivity | lra].
Qed.

(** The high-pressure procedure on the reference vessel: about 0.039 in,
    below the minimum thickness. *)
Lemma reference_vessel_high_pressure :
  exists dp tE tp : R,
    design_pressure 101 = Some dp /\
    0.02102 <= tE <= 0.02103 /\
    tp = dp * D_in / (2 * 15000 - 1.2 * dp) /\
    0 < tp <= 0.16 /\
    high_pressure_thickness 3 (Some dp) (Some 15000) reference_vessel
    = ret (fin ((tp + tE + tp) / 2)).
Proof.
  destruct design_pressure_101 as (dp & Hdp & [Hpos Hle] & _).
  destruct reference_vessel_iterate as (s & Hs & Hb).
  destruct (iterate_returned _ _ _ _ Hs) as [_ HtE].
  exists dp, (tE1 s). eexists.
  split; [exact Hdp |]. split; [exact Hb |]. split; [reflexivity |].
  pose proof reference_vessel_diameter as HD.
  assert (Hden : 0 < 2 * 15000 - 1.2 * dp) by lra.
  split.
  - split.
    + apply div_pos; [rewrite HD; nra | exact Hden].
    + apply div_le_hi; [exact Hden | rewrite HD; nra].
  - unfold high_pressure_thickness.
    rewrite Hs, bind_ret. simpl deref. rewrite !bind_ret.
    rewrite reference_vessel_pressure. unfold true_div.
    rewrite fdiv_fin, bind_ret by lra.
    rewrite HtE. simpl deref. rewrite bind_ret.
    cbn [fadd]. now rewrite fdiv_fin by lra.
Qed.



End ReferenceVessel.

(** ** A vessel of zero length: the second pass computes 0 / 0 *)

Lemma E_modulus_pos (dt : R) : 0 < Vessel.E_modulus dt.
Proof.
  unfold Vessel.E_modulus.
  repeat match goal with |- context [Rlt_dec ?a ?b] => destruct (Rlt_dec a b) end;
    lra.
Qed.

Lemma fdiv_zero_zero (a b : R) : a = 0 -> b = 0 -> fdiv a b = nan.
Proof.
  intros -> ->. simpl. destruct (Req_dec_T 0 0); [| contradiction].
  unfold inf_of_sign.
  destruct (Rlt_dec 0 0); [lra |]. destruct (Rlt_dec 0 0); [lra | reflexivity].
Qed.

Section ZeroLengthLoop.

Import Vessel.

Variable i : VesselInput.
Hypothesis HD : 0 < diameter i.
Hypothesis HL : tangent_tangent_length i = 0.

Lemma D_in_pos : 0 < diameter i * m_to_inch.
Proof. unfold m_to_inch. lra. Qed.

(** On Python floats, a first pass that gives a thickness of zero makes the
    second pass divide by zero. *)
Lemma iterate_stalls (update : R -> M R) (fuel : nat) :
  update 0.25 = ret 0 -> (exists v : R, update 0 = ret v) ->
  iterate (S (S fuel)) update = raise ZeroDivisionError.
Proof.
  intros H1 [v H2]. unfold iterate.
  rewrite while_step by exact loop_test_initial.
  rewrite (loop_body_value _ _ 0); [| exact H1 | simpl; lra].
  rewrite bind_ret.
  rewrite while_step; cycle 1.
  { apply loop_test_true. simpl. rewrite Rabs_right; lra. }
  unfold loop_body. cbn [tE1 divide subtract float_Number].
  rewrite H2, bind_ret.
  now rewrite float_div_zero.
Qed.

Lemma iterate_stalls_pynum (update : pynum -> M pynum) (fuel : nat) :
  update (pyfloat 0.25) = ret (pyfloat 0) ->
  (exists v : R, update (pyfloat 0) = ret (pyfloat v)) ->
  iterate (S (S fuel)) update = raise ZeroDivisionError.
Proof.
  intros H1 [v H2]. unfold iterate.
  rewrite while_step by exact loop_test_initial_pynum.
  rewrite (loop_body_value_pynum _ _ 0.25 0);
    [| reflexivity | exact H1 | lra].
  rewrite bind_ret.
  rewrite while_step; cycle 1.
  { apply loop_test_true_pynum with ((0.25 - 0) / 0.25); [reflexivity |].
    rewrite Rabs_right; lra. }
  unfold loop_body. cbn [tE1 divide subtract pynum_Number].
  rewrite H2, bind_ret. simpl.
  now rewrite float_div_zero.
Qed.

(** On [numpy.float64] the second pass computes [0 / 0 = nan]; the test
    [abs(nan) > 0.001] is false and the loop ends. *)
Lemma iterate_ends_on_nan (update : float64 -> M float64) (fuel : nat) :
  update (fin 0.25) = ret (fin 0) -> update (fin 0) = ret (fin 0) ->
  iterate (S (S fuel)) update
  = ret {| tE := Some (fin 0); error := nan; tE1 := fin 0 |}.
Proof.
  intros H1 H2. unfold iterate.
  rewrite while_step by exact loop_test_initial_numpy.
  rewrite (loop_body_value_numpy _ _ 0.25 0);
    [| reflexivity | exact H1 | lra].
  rewrite bind_ret.
  rewrite while_step; cycle 1.
  { apply loop_test_true_numpy with ((0.25 - 0) / 0.25); [reflexivity |].
    rewrite Rabs_right; lra. }
  unfold loop_body. cbn [tE1 divide subtract float64_Number].
  rewrite H2, !bind_ret.
  change (fsub 0 0) with (fin (0 + - 0)).
  rewrite fdiv_zero_zero by lra.
  now rewrite while_done by reflexivity.
Qed.

Lemma tE_wind_zero_length (S t : R) :
  0 < S -> 0 <= t -> tE_wind (Some S) i t = ret 0.
Proof.
  intros HS Ht. pose proof D_in_pos.
  rewrite tE_wind_value by lra. f_equal. f_equal.
  unfold wind_update. rewrite HL. unfold Rdiv. ring.
Qed.

Lemma tE_vacuum_zero_length (dp E t : R) :
  0 < E -> 0 <= t -> tE_vacuum (Some dp) E i (pyfloat t) = ret (pyfloat 0).
Proof.
  intros HE Ht. pose proof D_in_pos as HDin.
  unfold tE_vacuum. simpl deref. rewrite bind_ret.
  assert (Hden : 0 < E * (diameter i * m_to_inch + t))
    by (apply Rmult_lt_0_compat; lra).
  simpl py_div. rewrite float_div_ok, !bind_ret by lra.
  replace (dp * (tangent_tangent_length i * m_to_inch)
           / (E * (diameter i * m_to_inch + t))) with 0
    by (rewrite HL; unfold Rdiv; ring).
  assert (Hp : py_pow (pyfloat 0) 0.4 = ret (pyfloat 0)).
  { unfold py_pow. destruct (Req_dec_T 0 0); [| contradiction].
    destruct (Rlt_dec 0.4 0); [lra |].
    destruct (Req_dec_T 0.4 0); [lra | reflexivity]. }
  rewrite Hp, bind_ret. simpl. f_equal. f_equal. f_equal. ring.
Qed.

Lemma tE_vacuum_numpy_zero_length (dp E t : R) :
  0 < E -> 0 <= t -> tE_vacuum_numpy (Some dp) E i (fin t) = ret (fin 0).
Proof.
  intros HE Ht. pose proof D_in_pos as HDin.
  unfold tE_vacuum_numpy. simpl deref. rewrite bind_ret.
  assert (Hden : 0 < E * (diameter i * m_to_inch + t))
    by (apply Rmult_lt_0_compat; lra).
  cbn [fadd fmul]. rewrite fdiv_fin by lra.
  replace (dp * (tangent_tangent_length i * m_to_inch)
           / (E * (diameter i * m_to_inch + t))) with 0
    by (rewrite HL; unfold Rdiv; ring).
  assert (Hp : fpow (fin 0) 0.4 = fin 0).
  { unfold fpow. destruct (Req_dec_T 0.4 0); [lra |].
    destruct (Req_dec_T 0 0); [| contradiction].
    destruct (Rlt_dec 0.4 0); [lra | reflexivity]. }
  rewrite Hp. cbn [fmul]. f_equal. f_equal. ring.
Qed.

(** The vacuum loop of a vessel of zero length between 34.5 and 101 kPa. *)
Lemma zero_length_numpy_iterate (dp E : R) (fuel : nat) :
  0 < E ->
  iterate (S (S fuel)) (tE_vacuum_numpy (Some dp) E i)
  = ret {| tE := Some (fin 0); error := nan; tE1 := fin 0 |}.
Proof.
  intros HE.
  apply iterate_ends_on_nan; apply tE_vacuum_numpy_zero_length; lra.
Qed.

End ZeroLengthLoop.

(** ** The loops, the boundaries, and the example runs *)

Section VesselClaims.

Import Vessel.

(** What the test [abs(error) > 0.001] being false says of a
    [numpy.float64]. *)
Lemma loop_test_ended_numpy (s : loop_state float64) :
  loop_test s = false ->
  error s = nan \/ exists e : R, error s = fin e /\ Rabs e <= 0.001.
Proof.
  unfold loop_test; simpl. destruct (error s) as [e | | |]; simpl;
    try discriminate; [| now left].
  destruct (Rlt_dec 0.001 (Rabs e)); [discriminate |].
  intros _. right. exists e. split; [reflexivity | lra].
Qed.

Lemma loop_test_ended_pynum (s : loop_state pynum) :
  loop_test s = false -> py_abs (error s) <= 0.001.
Proof.
  unfold loop_test; simpl. unfold Rgtb.
  destruct (Rgt_dec (py_abs (error s)) 0.001); [discriminate | lra].
Qed.

(** More fuel leaves a run of a loop that has ended as it is. *)
Lemma iterate_fuel_le {V : Type} `{Number V} (fuel fuel' : nat)
      (update : V -> M V) (out : list string) (s : loop_state V) :
  iterate fuel update = (out, Returned s) -> (fuel <= fuel')%nat ->
  iterate fuel' update = (out, Returned s).
Proof.
  intros Hr Hle. unfold iterate in *.
  now apply while_fuel_le with fuel.
Qed.

(** C2, as the code has it: neither loop has an iteration bound or a
    non-convergence error.  A loop that returns has executed its body at
    least once, has just found its test [abs(error) > 0.001] false, and the
    same run is obtained with any larger amount of fuel.  On Python floats
    (the wind loop) and on Python floats and complex numbers (the vacuum
    loop with the design pressure 10.0) the test is false when
    [abs(error) <= 0.001]; on [numpy.float64] (the vacuum loop with a
    design pressure from [np.exp]) it is also false when [error] is [nan],
    which is how the loop ends on the vessel of 1 m with zero length at
    50 kPa.  A loop whose iterates never meet the test goes on for ever, as
    the wind iteration does on the column of 1 cm by 100 m. *)
Theorem fixed_point_loops_have_no_bound :
  (forall (fuel : nat) (update : R -> M R) (out : list string)
          (s : loop_state R),
      iterate fuel update = (out, Returned s) ->
      Rabs (error s) <= 0.001 /\ tE s = Some (tE1 s) /\
      forall fuel' : nat,
        (fuel <= fuel')%nat -> iterate fuel' update = (out, Returned s)) /\
  (forall (fuel : nat) (update : pynum -> M pynum) (out : list string)
          (s : loop_state pynum),
      iterate fuel update = (out, Returned s) ->
      py_abs (error s) <= 0.001 /\ tE s = Some (tE1 s) /\
      forall fuel' : nat,
        (fuel <= fuel')%nat -> iterate fuel' update = (out, Returned s)) /\
  (forall (fuel : nat) (update : float64 -> M float64) (out : list string)
          (s : loop_state float64),
      iterate fuel update = (out, Returned s) ->
      (error s = nan \/ exists e : R, error s = fin e /\ Rabs e <= 0.001) /\
      tE s = Some (tE1 s) /\
      forall fuel' : nat,
        (fuel <= fuel')%nat -> iterate fuel' update = (out, Returned s)) /\
  (forall (fuel : nat) (dp : R),
      iterate (S (S fuel)) (tE_vacuum_numpy (Some dp) (30.2 * 10 ^ 6)
                                            flat_vessel)
      = ret {| tE := Some (fin 0); error := nan; tE1 := fin 0 |}) /\
  (forall fuel : nat,
      iterate fuel (tE_wind (Some 15000) slender_column) = timeout) /\
  runs_forever (fun fuel => vertical_vessels_weight fuel slender_column).
Proof.
  split; [| split; [| split; [| split; [| split]]]].
  - intros fuel update out s H.
    destruct (iterate_returned _ _ _ _ H) as [He Ht].
    split; [exact He |]. split; [exact Ht |].
    intros fuel' Hle. now apply iterate_fuel_le with fuel.
  - intros fuel update out s H.
    destruct (iterate_ended _ _ _ _ loop_test_initial_pynum H) as [He Ht].
    split; [now apply loop_test_ended_pynum |]. split; [exact Ht |].
    intros fuel' Hle. now apply iterate_fuel_le with fuel.
  - intros fuel update out s H.
    destruct (iterate_ended _ _ _ _ loop_test_initial_numpy H) as [He Ht].
    split; [now apply loop_test_ended_numpy |]. split; [exact Ht |].
    intros fuel' Hle. now apply iterate_fuel_le with fuel.
  - intros fuel dp. apply zero_length_numpy_iterate.
    + simpl. lra.
    + reflexivity.
    + lra.
  - exact slender_column_loop_forever.
  - exact slender_column_runs_forever.
Qed.

(** C9: at exactly 6895 kPa the design pressure is the log-quadratic
    correlation, and at exactly 101 kPa the wall thickness is that of the
    high-pressure branch: the wind iteration, the pressure thickness [tp],
    and [(tp + tE + tp) / 2 = (2 * tp + tE) / 2].  At 101 kPa the design
    pressure is a [numpy.float64], so [tp] is a quotient of its arithmetic;
    the last part gives the thickness in that arithmetic, which also covers
    a divisor of 0. *)
Theorem boundary_pressures_by_test_order :
  design_pressure 6895
  = Some (exp (0.60608 + 0.91615 * ln (6895 * 0.145038)
               + 0.0015655 * ln (6895 * 0.145038) ^ 2)) /\
  forall (fuel : nat) (i : VesselInput) (dp : option R) (E : R)
         (S : option R),
    lowest_pressure i = 101 ->
    wall_thickness fuel dp E S i
    = (t <- high_pressure_thickness fuel dp S i ;; ret (Some t)) /\
    (forall (out : list string) (t : R),
      high_pressure_thickness fuel dp S i = (out, Returned (fin t)) ->
      exists (design_pressure allowable_stress tp tE' : R)
             (s : loop_state R),
        dp = Some design_pressure /\ S = Some allowable_stress /\
        iterate fuel (tE_wind S i) = (out, Returned s) /\
        tE s = Some tE' /\
        tp = design_pressure * (diameter i * 39.3701)
             / (2 * allowable_stress - 1.2 * design_pressure) /\
        t = (2 * tp + tE') / 2) /\
    (forall (out : list string) (t : float64),
      high_pressure_thickness fuel dp S i = (out, Returned t) ->
      exists (design_pressure allowable_stress tE' : R) (s : loop_state R),
        dp = Some design_pressure /\ S = Some allowable_stress /\
        iterate fuel (tE_wind S i) = (out, Returned s) /\
        tE s = Some tE' /\
        let tp := (design_pressure * (diameter i * 39.3701)
                   / (2 * allowable_stress - 1.2 * design_pressure))%float64
        in
        t = ((tp + tE' + tp) / 2)%float64).
Proof.
  split.
  - unfold design_pressure, kPa_to_psig.
    destruct (Rle_dec 6895 34.5); [lra |].
    destruct (Rle_dec 6895 6895); [reflexivity | lra].
  - intros fuel i dp E S Hp. split.
    + unfold wall_thickness. rewrite Hp.
      destruct (Rge_dec 101 101); [reflexivity | lra].
    + assert (Hall : forall (out : list string) (t : float64),
                 high_pressure_thickness fuel dp S i = (out, Returned t) ->
                 exists (dp' S' : R) (s : loop_state R),
                   dp = Some dp' /\ S = Some S' /\
                   iterate fuel (tE_wind S i) = (out, Returned s) /\
                   tE s = Some (tE1 s) /\
                   t = ((fdiv (dp' * (diameter i * m_to_inch))
                              (2 * S' - 1.2 * dp')
                         + tE1 s
                         + fdiv (dp' * (diameter i * m_to_inch))
                                (2 * S' - 1.2 * dp')) / 2)%float64).
      { intros out t H. unfold high_pressure_thickness in H.
        apply bind_returned in H as (out1 & s & out2 & Hs & H & ->).
        destruct (iterate_returned _ _ _ _ Hs) as [_ HtE].
        destruct dp as [dp |]; [| discriminate].
        destruct S as [S |]; [| discriminate].
        simpl deref in H. rewrite !bind_ret in H.
        rewrite Hp in H.
        replace (design_pressure_is_numpy 101) with true in H; cycle 1.
        { unfold design_pressure_is_numpy.
          destruct (Rle_dec 101 34.5); [lra |].
          destruct (Rle_dec 101 6895); [reflexivity | lra]. }
        unfold true_div in H.
        rewrite bind_ret, HtE in H. simpl deref in H. rewrite bind_ret in H.
        injection H as <- <-. rewrite app_nil_r.
        exists dp, S, s. repeat (split; [reflexivity |]).
        split; [exact Hs |]. split; [exact HtE | reflexivity]. }
      split.
      * intros out t H.
        destruct (Hall _ _ H) as (dp' & S' & s & -> & -> & Hs & HtE & Ht).
        exists dp', S'. eexists. exists (tE1 s), s.
        repeat (split; [reflexivity |]). split; [exact Hs |].
        split; [exact HtE |]. split; [reflexivity |].
        symmetry in Ht.
        apply fdiv_finite in Ht as (a & Ha & ->); [| lra].
        apply fadd_finite in Ha as (b & c & Hb & Hc & ->).
        apply fadd_finite in Hb as (d & e & Hd & He & ->).
        injection He as <-. rewrite Hd in Hc. injection Hc as <-.
        simpl in Hd.
        destruct (Req_dec_T _ 0) as [E0 | NE] in Hd.
        { now apply inf_of_sign_not_finite in Hd. }
        injection Hd as <-. unfold m_to_inch. field.
        intros Hz. apply NE. lra.
      * intros out t H.
        destruct (Hall _ _ H) as (dp' & S' & s & -> & -> & Hs & HtE & Ht).
        exists dp', S', (tE1 s), s.
        repeat (split; [reflexivity |]). split; [exact Hs |].
        split; [exact HtE |]. cbv zeta. rewrite Ht. unfold m_to_inch.
        reflexivity.
Qed.

(** The vessel under vacuum at 1000 K: the warning, then a weight. *)
Lemma hot_vacuum_vessel_run :
  exists t : R,
    0.38 <= t <= 0.41 /\
    vertical_vessels_weight 2 hot_vacuum_vessel
    = ([temperature_warning],
       Returned (fin (finite_weight hot_vacuum_vessel t))).
Proof.
  destruct hot_vacuum_vessel_thickness as (t & Hb & Ht).
  exists t. split; [exact Hb |].
  unfold vertical_vessels_weight. rewrite Ht.
  now rewrite <- weight_of_thickness_fin.
Qed.

End VesselClaims.

(** A design temperature above 900 F does not always end in an error: the
    vessel under vacuum has a design temperature of 1390.33 F and the call
    returns a weight, for a wall of about 0.39 in. *)
Lemma hot_vacuum_vessel_returns_weight :
  Vessel.design_temp (Vessel.highest_temp Vessel.hot_vacuum_vessel) > 900 /\
  exists w t : R,
    0.38 <= t <= 0.41 /\
    Vessel.weight_of_thickness Vessel.hot_vacuum_vessel t = fin w /\
    Vessel.vertical_vessels_weight 2 Vessel.hot_vacuum_vessel
    = ([Vessel.temperature_warning], Returned (fin w)).
Proof.
  split; [exact hot_vacuum_vessel_design_temp |].
  destruct hot_vacuum_vessel_run as (t & Hb & Hrun).
  exists (Vessel.finite_weight Vessel.hot_vacuum_vessel t), t.
  split; [exact Hb |].
  split; [apply weight_of_thickness_fin | exact Hrun].
Qed.

Lemma hot_vessel_warns_and_proceeds_witness :
  let i := Vessel.hot_vacuum_vessel in
  Vessel.design_temp (Vessel.highest_temp i) > 900 /\
  Vessel.lowest_pressure i < 101 /\
  Vessel.vertical_vessels_weight 2 i
  = (print Vessel.temperature_warning ;;;
     t <- Vessel.low_pressure_thickness
            2 (Vessel.design_pressure (Vessel.lowest_pressure i))
            (26.0 * 10 ^ 6) i ;;
     ret (Vessel.weight_of_thickness i (Vessel.minimum_thickness t))).
Proof.
  cbv zeta.
  assert (Hp : Vessel.lowest_pressure Vessel.hot_vacuum_vessel < 101)
    by (simpl; lra).
  split; [exact hot_vacuum_vessel_design_temp |]. split; [exact Hp |].
  exact (proj2 (proj2 (hot_vessel_warns_and_proceeds
                         2%nat Vessel.hot_vacuum_vessel
                         hot_vacuum_vessel_design_temp)) Hp).
Defined.

(** No bound on the iterations: the column of 1 cm by 100 m is an input on
    which the call never ends, so no number of iterations is enough for
    every input. *)
Lemma slender_column_never_converges :
  runs_forever
    (fun fuel => Vessel.vertical_vessels_weight fuel Vessel.slender_column) /\
  ~ (exists bound : nat,
        forall i : Vessel.VesselInput,
          snd (Vessel.vertical_vessels_weight bound i) <> OutOfFuel).
Proof.
  split; [exact slender_column_runs_forever |].
  intros (bound & H). apply (H Vessel.slender_column).
  now rewrite slender_column_runs_forever.
Qed.

(** The vacuum iteration of the hot vessel stops after two passes, and still
    does with five allowed. *)
Lemma fixed_point_loops_have_no_bound_witness :
  exists s : Vessel.loop_state pynum,
    py_abs (Vessel.error s) <= 0.001 /\
    Vessel.iterate 5 (Vessel.tE_vacuum (Some 10.0) (26.0 * 10 ^ 6)
                                       Vessel.hot_vacuum_vessel)
    = ret s.
Proof.
  destruct hot_vacuum_vessel_iterate as (t & e & Hs & _).
  eexists.
  destruct (proj1 (proj2 fixed_point_loops_have_no_bound) _ _ _ _ Hs)
    as (He & _ & Hmore).
  split; [exact He | apply Hmore; lia].
Defined.

(** On the vessel under vacuum the thickness is about 0.39 in and the weight
    is the formula in kilograms. *)
Lemma weight_in_kilograms_witness :
  exists t : R,
    0.38 <= t <= 0.41 /\
    Vessel.vertical_vessels_weight 2 Vessel.hot_vacuum_vessel
    = ([Vessel.temperature_warning],
       Returned (fin (PI * t * (7850 * 0.000036127298147753)
                      * (3 * 39.3701 + t)
                      * (1 * 39.3701 + 0.8 * (3 * 39.3701))
                      / 2.20462))).
Proof.
  destruct hot_vacuum_vessel_thickness as (t & Hb & Ht).
  exists t. split; [exact Hb |].
  exact (proj1 (weight_in_kilograms 2%nat Vessel.hot_vacuum_vessel _) t Ht).
Defined.

(** The reference vessel sits exactly at 101 kPa and goes through the
    high-pressure branch. *)
Lemma boundary_pressures_by_test_order_witness :
  exists dp tp tE : R,
    Vessel.design_pressure 101 = Some dp /\
    0.02102 <= tE <= 0.02103 /\
    tp = dp * (1 * 39.3701) / (2 * 15000 - 1.2 * dp) /\
    Vessel.wall_thickness 3 (Some dp) (30.2 * 10 ^ 6) (Some 15000)
                          Vessel.reference_vessel
    = ret (Some (fin ((2 * tp + tE) / 2))).
Proof.
  destruct reference_vessel_high_pressure
    as (dp & tE & tp & Hdp & HtE & Htp & _ & Hhigh).
  destruct (proj2 boundary_pressures_by_test_order
                  3%nat Vessel.reference_vessel (Some dp) (30.2 * 10 ^ 6)
                  (Some 15000) eq_refl) as [Hwall _].
  exists dp, tp, tE.
  split; [exact Hdp |]. split; [exact HtE |]. split; [exact Htp |].
  rewrite Hwall, Hhigh, bind_ret. do 4 f_equal. lra.
Defined.

(** * Further properties of the calculators *)

(** ** Rounding *)

Lemma builtin_round_near (x : R) : Rabs (IZR (builtin_round x) - x) <= 1 / 2.
Proof.
  unfold builtin_round. cbv zeta.
  pose proof (Zfloor_bound x) as [Hlo Hhi].
  destruct (Rlt_dec (x - IZR (Zfloor x)) (1 / 2)) as [H1 | H1].
  - apply Rabs_le. lra.
  - destruct (Rgt_dec (x - IZR (Zfloor x)) (1 / 2)) as [H2 | H2].
    + rewrite plus_IZR. apply Rabs_le. lra.
    + destruct (Z.even (Zfloor x)); [| rewrite plus_IZR]; apply Rabs_le; lra.
Qed.

Lemma builtin_round_low (x : R) : x <= 1 / 2 -> (builtin_round x <= 0)%Z.
Proof.
  intros Hx. unfold builtin_round. cbv zeta.
  pose proof (Zfloor_bound x) as [Hlo Hhi].
  assert (Hf : (Zfloor x <= 0)%Z).
  { apply Z.lt_succ_r. apply lt_IZR. rewrite succ_IZR. lra. }
  destruct (Z.eq_dec (Zfloor x) 0) as [E | NE].
  - rewrite E in *. simpl IZR in *.
    destruct (Rlt_dec (x - 0) (1 / 2)); [lia |].
    destruct (Rgt_dec (x - 0) (1 / 2)); [lra | simpl; lia].
  - repeat match goal with |- context [if ?c then _ else _] => destruct c end;
      lia.
Qed.

Lemma builtin_round_high (x : R) : 1 / 2 < x -> (1 <= builtin_round x)%Z.
Proof.
  intros Hx. unfold builtin_round. cbv zeta.
  pose proof (Zfloor_bound x) as [Hlo Hhi].
  assert (Hf : (0 <= Zfloor x)%Z).
  { apply Z.lt_succ_r. apply lt_IZR. rewrite succ_IZR. lra. }
  destruct (Z.eq_dec (Zfloor x) 0) as [E | NE].
  - rewrite E in *. simpl IZR in *.
    destruct (Rlt_dec (x - 0) (1 / 2)); [lra |].
    destruct (Rgt_dec (x - 0) (1 / 2)); [lia | lra].
  - repeat match goal with |- context [if ?c then _ else _] => destruct c end;
      lia.
Qed.

(** ** Baffles *)

Section BaffleSpacing.

Import HeatExchanger.

Variables (shell_diameter baffle_cut_percentage : R).

Let result := calculate_baffle_spacing shell_diameter baffle_cut_percentage.

(** The baffle count and spacing of a shell wider than 0.45 m, for a cut
    between 0 and 100 percent. *)
Lemma baffle_spacing_shape :
  0.45 < shell_diameter -> 0 <= baffle_cut_percentage <= 100 ->
  exists (n : Z) (s : R),
    result = ret (n, s) /\
    (1 <= n)%Z /\ Rabs (IZR n - shell_diameter / 0.9) <= 1 / 2 /\
    s = shell_diameter / (IZR n + baffle_cut_percentage / 100).
Proof.
  intros HD Hcut. unfold result, calculate_baffle_spacing. cbv zeta.
  set (n := builtin_round (shell_diameter / 0.9)).
  assert (Hn : (1 <= n)%Z) by (apply builtin_round_high; lra).
  pose proof (builtin_round_near (shell_diameter / 0.9)) as Hnear.
  fold n in Hnear.
  rewrite Z.max_r by lia.
  replace (0 <? n)%Z with true by (symmetry; apply Z.ltb_lt; lia).
  assert (Hn1 : 1 <= IZR n) by (apply IZR_le in Hn; exact Hn).
  rewrite float_div_ok, bind_ret by lra.
  exists n. eexists. split; [reflexivity |].
  split; [exact Hn |]. split; [exact Hnear | reflexivity].
Qed.

(** A count within a half of [shell_diameter / 0.9] keeps the spacing near
    0.9 m. *)
Lemma spacing_near_kern (n : Z) :
  (1 <= n)%Z -> Rabs (IZR n - shell_diameter / 0.9) <= 1 / 2 ->
  0 <= baffle_cut_percentage <= 100 ->
  0.225 <= shell_diameter / (IZR n + baffle_cut_percentage / 100) <= 1.35.
Proof.
  intros Hn Hnear Hcut. apply IZR_le in Hn.
  unfold Rabs in Hnear. destruct (Rcase_abs _) in Hnear.
  all: split; [apply div_ge_lo | apply div_le_hi]; lra.
Qed.

(** X1: a shell of at most 0.45 m, zero and negative diameters included,
    gets no baffle and a spacing of 0, whatever the cut; at exactly 0.45 m
    the quotient 0.5 is rounded to the even neighbour 0. *)
Theorem narrow_shell_has_no_baffles :
  shell_diameter <= 0.45 -> result = ret (0%Z, 0).
Proof.
  intros HD. unfold result, calculate_baffle_spacing. cbv zeta.
  assert (Hn : (builtin_round (shell_diameter / 0.9) <= 0)%Z)
    by (apply builtin_round_low; lra).
  rewrite Z.max_l by lia. reflexivity.
Qed.

(** X2: for a shell wider than 0.45 m and a cut between 0 and 100 percent the
    call returns at least one baffle, the count being [shell_diameter / 0.9]
    rounded to the nearest integer, and the spacing
    [shell_diameter / (count + cut / 100)] lies between 0.225 m and
    1.35 m. *)
Theorem baffle_spacing_between_bounds :
  0.45 < shell_diameter -> 0 <= baffle_cut_percentage <= 100 ->
  exists (n : Z) (s : R),
    result = ret (n, s) /\
    (1 <= n)%Z /\ Rabs (IZR n - shell_diameter / 0.9) <= 1 / 2 /\
    s = shell_diameter / (IZR n + baffle_cut_percentage / 100) /\
    0.225 <= s <= 1.35.
Proof.
  intros HD Hcut.
  destruct (baffle_spacing_shape HD Hcut) as (n & s & Hres & Hn & Hnear & Hs).
  exists n, s. repeat (split; [assumption |]).
  rewrite Hs. now apply spacing_near_kern.
Qed.

End BaffleSpacing.

Lemma narrow_shell_has_no_baffles_witness :
  HeatExchanger.calculate_baffle_spacing 0 25 = ret (0%Z, 0) /\
  HeatExchanger.calculate_baffle_spacing 0.45 25 = ret (0%Z, 0).
Proof.
  split; apply narrow_shell_has_no_baffles; lra.
Defined.

(** A shell of 1.8 m with a 25 percent cut: two baffles, 0.8 m apart. *)
Lemma baffle_spacing_between_bounds_witness :
  exists (n : Z) (s : R),
    HeatExchanger.calculate_baffle_spacing 1.8 25 = ret (n, s) /\
    (1 <= n)%Z /\ Rabs (IZR n - 1.8 / 0.9) <= 1 / 2 /\
    s = 1.8 / (IZR n + 25 / 100) /\ 0.225 <= s <= 1.35.
Proof.
  apply baffle_spacing_between_bounds; lra.
Defined.

(** ** Tube count *)

Section TubeCountUse.

Import HeatExchanger.

Variables (heat_transfer_area tube_outer_diameter length : R).
Variables (n min_tubes : Z).

Let result :=
  estimate_tube_number heat_transfer_area tube_outer_diameter length n min_tubes.

(** X3: the call raises [ZeroDivisionError] exactly when the tube diameter or
    the tube length is zero; otherwise it returns a count. *)
Theorem estimate_tube_number_zero_surface :
  (tube_outer_diameter = 0 \/ length = 0 <-> result = raise ZeroDivisionError)
  /\
  (tube_outer_diameter <> 0 /\ length <> 0 <-> exists k : Z, result = ret k).
Proof.
  pose proof PI_bounds as [Hpi _].
  assert (Hzero : tube_outer_diameter = 0 \/ length = 0 ->
                  result = raise ZeroDivisionError).
  { intros H. unfold result, estimate_tube_number. cbv zeta.
    replace (PI * tube_outer_diameter * length) with 0
      by (destruct H as [-> | ->]; ring).
    now rewrite float_div_zero. }
  assert (Hok : tube_outer_diameter <> 0 /\ length <> 0 ->
                exists k : Z, result = ret k).
  { intros [Ho Hl]. eexists. apply estimate_tube_number_unfold.
    apply Rmult_integral_contrapositive_currified; [| exact Hl].
    apply Rmult_integral_contrapositive_currified; [lra | exact Ho]. }
  destruct (Req_dec_T tube_outer_diameter 0) as [Ho | Ho];
    [| destruct (Req_dec_T length 0) as [Hl | Hl]].
  - rewrite (Hzero (or_introl Ho)). split; split; auto.
    + tauto.
    + intros [k Hk]. discriminate.
  - rewrite (Hzero (or_intror Hl)). split; split; auto.
    + tauto.
    + intros [k Hk]. discriminate.
  - destruct (Hok (conj Ho Hl)) as [k Hk]. rewrite Hk.
    split; split; auto.
    + tauto.
    + discriminate.
    + eauto.
Qed.

(** X4: for a positive area on tubes of positive diameter and length, a
    result other than the sentinel 0 is a count that does not exceed the
    maximum [n], is either 1 or at least [min_tubes], and whose tubes
    together offer at least the required area. *)
Theorem tube_count_covers_area (k : Z) :
  0 < heat_transfer_area -> 0 < tube_outer_diameter -> 0 < length ->
  result = ret k -> k <> 0%Z ->
  (k <= n)%Z /\ (k = 1%Z \/ (min_tubes <= k)%Z) /\
  heat_transfer_area <= IZR k * (PI * tube_outer_diameter * length).
Proof.
  intros Ha Ho Hl Hres Hk. pose proof PI_bounds as [Hpi _].
  assert (Hs : 0 < PI * tube_outer_diameter * length)
    by (apply Rmult_lt_0_compat; [apply Rmult_lt_0_compat |]; lra).
  unfold result in Hres.
  rewrite estimate_tube_number_unfold in Hres by lra.
  injection Hres as Hres. cbv zeta in Hres.
  set (raw := raw_tube_count heat_transfer_area tube_outer_diameter length)
    in *.
  assert (Hq : heat_transfer_area / (PI * tube_outer_diameter * length)
               <= IZR raw).
  { unfold raw, raw_tube_count, math_ceil. apply Zceil_bound. }
  assert (Hraw : heat_transfer_area
                 <= IZR raw * (PI * tube_outer_diameter * length)).
  { apply Rmult_le_compat_r with (r := PI * tube_outer_diameter * length)
      in Hq; [| lra].
    unfold Rdiv in Hq. rewrite Rmult_assoc, Rinv_l, Rmult_1_r in Hq by lra.
    exact Hq. }
  assert (Hraw1 : (1 <= raw)%Z).
  { apply Z.lt_pred_le. apply lt_IZR. simpl.
    apply Rlt_le_trans with (2 := Hq). now apply div_pos. }
  destruct ((1 <? raw) && (raw <? min_tubes))%Z eqn:Hraise.
  - apply andb_true_iff in Hraise as [H1 H2].
    apply Z.ltb_lt in H1, H2.
    destruct (n <? min_tubes)%Z eqn:Hn; [congruence |].
    apply Z.ltb_ge in Hn. subst k.
    split; [exact Hn |]. split; [right; lia |].
    apply Rle_trans with (1 := Hraw).
    apply Rmult_le_compat_r; [lra | apply IZR_le; lia].
  - destruct (n <? raw)%Z eqn:Hn; [congruence |].
    apply Z.ltb_ge in Hn. subst k.
    split; [exact Hn |]. split; [| exact Hraw].
    apply andb_false_iff in Hraise as [H | H]; apply Z.ltb_ge in H; lia.
Qed.

End TubeCountUse.

(** Five square metres on tubes of 1 m by 1 m, at most 25 tubes: 20 tubes,
    which offer 20 pi square metres. *)
Lemma tube_count_covers_area_witness :
  HeatExchanger.estimate_tube_number 5 1 1 25 20 = ret 20%Z /\
  (20 <= 25)%Z /\ 5 <= 20 * (PI * 1 * 1).
Proof.
  assert (H : HeatExchanger.estimate_tube_number 5 1 1 25 20 = ret 20%Z).
  { rewrite estimate_tube_number_unfold by exact tube_surface_example.
    rewrite raw_tube_count_example. reflexivity. }
  split; [exact H |].
  destruct (tube_count_covers_area 5 1 1 25 20 20) as (H1 & _ & H3);
    try lra; try lia; [exact H |].
  split; [exact H1 | exact H3].
Defined.

(** ** Shell diameter *)

Section ShellDiameterOrder.

Import HeatExchanger.

Variables (tube_outer_diameter min_shell_diameter : R).

(** The result for the two pitch types, in closed form. *)
Lemma shell_diameter_triangular (num_tubes : Z) :
  (0 <= num_tubes)%Z ->
  calculate_shell_diameter num_tubes tube_outer_diameter "t" min_shell_diameter
  = ret (Rmax (sqrt (IZR num_tubes * (tube_outer_diameter * 1.1) ^ 2 / PI) * 1.3)
              min_shell_diameter).
Proof.
  intros Hn. unfold calculate_shell_diameter. simpl String.eqb. cbv iota.
  rewrite bind_ret. cbv zeta.
  now rewrite math_sqrt_ok, bind_ret by (apply bundle_radicand_nonneg; exact Hn).
Qed.

Lemma shell_diameter_square (num_tubes : Z) :
  (0 <= num_tubes)%Z ->
  calculate_shell_diameter num_tubes tube_outer_diameter "s" min_shell_diameter
  = ret (Rmax (sqrt (IZR num_tubes * (tube_outer_diameter * 1.25) ^ 2 / PI) * 1.3)
              min_shell_diameter).
Proof.
  intros Hn. unfold calculate_shell_diameter. simpl String.eqb. cbv iota.
  rewrite bind_ret. cbv zeta.
  now rewrite math_sqrt_ok, bind_ret by (apply bundle_radicand_nonneg; exact Hn).
Qed.

Lemma Rmax_le_l (a b c : R) : a <= b -> Rmax a c <= Rmax b c.
Proof. intros H. apply Rmax_lub; [eapply Rle_trans; [exact H | apply Rmax_l] | apply Rmax_r]. Qed.

Lemma bundle_le (n1 n2 : Z) (p1 p2 : R) :
  (0 <= n1 <= n2)%Z -> 0 <= p1 <= p2 ->
  sqrt (IZR n1 * p1 ^ 2 / PI) * 1.3 <= sqrt (IZR n2 * p2 ^ 2 / PI) * 1.3.
Proof.
  intros [Hn1 Hn] [Hp1 Hp]. pose proof PI_bounds as [Hpi _].
  apply Rmult_le_compat_r; [lra |]. apply sqrt_le_1_alt.
  apply Rmult_le_compat_r; [left; apply Rinv_0_lt_compat; lra |].
  apply IZR_le in Hn1, Hn.
  apply Rmult_le_compat; try assumption.
  - apply pow2_ge_0.
  - apply pow_incr. lra.
Qed.

(** X5: with the same tubes and pitch type, more tubes never give a smaller
    shell. *)
Theorem shell_diameter_grows_with_tube_count
        (n1 n2 : Z) (pitch_type : string) (d1 d2 : R) :
  (0 <= n1 <= n2)%Z -> 0 <= tube_outer_diameter ->
  calculate_shell_diameter n1 tube_outer_diameter pitch_type min_shell_diameter
  = ret d1 ->
  calculate_shell_diameter n2 tube_outer_diameter pitch_type min_shell_diameter
  = ret d2 ->
  d1 <= d2.
Proof.
  intros Hn Hod H1 H2.
  destruct (String.eqb pitch_type "t") eqn:Et;
    [apply String.eqb_eq in Et; subst pitch_type |
     destruct (String.eqb pitch_type "s") eqn:Es;
     [apply String.eqb_eq in Es; subst pitch_type |]].
  - rewrite shell_diameter_triangular in H1, H2 by lia.
    injection H1 as <-. injection H2 as <-.
    apply Rmax_le_l, bundle_le; [exact Hn | lra].
  - rewrite shell_diameter_square in H1, H2 by lia.
    injection H1 as <-. injection H2 as <-.
    apply Rmax_le_l, bundle_le; [exact Hn | lra].
  - unfold calculate_shell_diameter in H1. rewrite Et, Es in H1. discriminate.
Qed.

(** X6: for the same tubes, the square pitch never gives a smaller shell
    than the triangular pitch. *)
Theorem square_pitch_needs_wider_shell (num_tubes : Z) (d_t d_s : R) :
  (0 <= num_tubes)%Z -> 0 <= tube_outer_diameter ->
  calculate_shell_diameter num_tubes tube_outer_diameter "t" min_shell_diameter
  = ret d_t ->
  calculate_shell_diameter num_tubes tube_outer_diameter "s" min_shell_diameter
  = ret d_s ->
  d_t <= d_s.
Proof.
  intros Hn Hod Ht Hs.
  rewrite shell_diameter_triangular in Ht by exact Hn.
  rewrite shell_diameter_square in Hs by exact Hn.
  injection Ht as <-. injection Hs as <-.
  apply Rmax_le_l, bundle_le; [lia | lra].
Qed.

(** X7: a negative tube count on tubes whose diameter is not zero makes the
    radicand negative: with a known pitch type the call raises the
    [ValueError] of [math.sqrt]. *)
Theorem negative_tube_count_is_a_domain_error
        (num_tubes : Z) (pitch_type : string) :
  (num_tubes < 0)%Z -> tube_outer_diameter <> 0 ->
  pitch_type = "t"%string \/ pitch_type = "s"%string ->
  calculate_shell_diameter num_tubes tube_outer_diameter pitch_type
                           min_shell_diameter
  = raise (ValueError "math domain error").
Proof.
  intros Hn Hod Hp. pose proof PI_bounds as [Hpi _].
  assert (Hneg : forall pf : R, 0 < pf ->
            IZR num_tubes * (tube_outer_diameter * pf) ^ 2 / PI < 0).
  { intros pf Hpf. apply IZR_lt in Hn.
    assert (0 < (tube_outer_diameter * pf) ^ 2).
    { rewrite <- Rsqr_pow2. apply Rsqr_pos_lt.
      apply Rmult_integral_contrapositive_currified; lra. }
    assert (IZR num_tubes * (tube_outer_diameter * pf) ^ 2 < 0) by nra.
    apply Ropp_lt_cancel. rewrite Ropp_0, <- Rdiv_opp_l.
    apply div_pos; lra. }
  unfold calculate_shell_diameter, math_sqrt.
  destruct Hp as [-> | ->]; simpl String.eqb; cbv iota; rewrite bind_ret;
    cbv zeta.
  - destruct (Rlt_dec _ 0) as [_ | H]; [reflexivity |].
    exfalso. apply H, Hneg. lra.
  - destruct (Rlt_dec _ 0) as [_ | H]; [reflexivity |].
    exfalso. apply H, Hneg. lra.
Qed.

End ShellDiameterOrder.

(** Fifty and a hundred tubes of 20 mm on a triangular pitch. *)
Lemma shell_diameter_grows_with_tube_count_witness :
  exists d1 d2 : R,
    HeatExchanger.calculate_shell_diameter 50 0.02 "t" 0.15 = ret d1 /\
    HeatExchanger.calculate_shell_diameter 100 0.02 "t" 0.15 = ret d2 /\
    d1 <= d2.
Proof.
  do 2 eexists. split; [apply shell_diameter_triangular; lia |].
  split; [apply shell_diameter_triangular; lia |].
  apply (shell_diameter_grows_with_tube_count 0.02 0.15 50 100 "t");
    [lia | lra | apply shell_diameter_triangular; lia
    | apply shell_diameter_triangular; lia].
Defined.

Lemma square_pitch_needs_wider_shell_witness :
  exists d_t d_s : R,
    HeatExchanger.calculate_shell_diameter 100 0.02 "t" 0.15 = ret d_t /\
    HeatExchanger.calculate_shell_diameter 100 0.02 "s" 0.15 = ret d_s /\
    d_t <= d_s.
Proof.
  do 2 eexists. split; [apply shell_diameter_triangular; lia |].
  split; [apply shell_diameter_square; lia |].
  apply (square_pitch_needs_wider_shell 0.02 0.15 100);
    [lia | lra | apply shell_diameter_triangular; lia
    | apply shell_diameter_square; lia].
Defined.

Lemma negative_tube_count_is_a_domain_error_witness :
  HeatExchanger.calculate_shell_diameter (-1) 0.02 "t" 0.15
  = raise (ValueError "math domain error").
Proof.
  apply negative_tube_count_is_a_domain_error; [lia | lra | now left].
Defined.

(** ** Exchanger weight *)

Section ExchangerWeightBounds.

Import HeatExchanger.

Variable i : ExchangerWeightInput.

Lemma baffle_weight_nonneg : physical i -> 0 <= baffle_weight i.
Proof.
  intros (HL & _ & _ & _ & Hb & Hs & _). pose proof PI_bounds as [Hpi _].
  unfold baffle_weight. destruct (baffles_needed i) eqn:E; [| lra].
  apply baffles_needed_iff in E as [Hs0 HsL]. cbv zeta.
  assert (Hc : 0 <= IZR (math_floor (tube_length i / baffle_spacing i))).
  { apply IZR_le. apply Zfloor_lub. simpl. left. apply div_pos; lra. }
  assert (Ha : 0 <= shell_inner_diameter i * shell_inner_diameter i * PI / 4).
  { pose proof (Rle_0_sqr (shell_inner_diameter i)) as Hsq.
    unfold Rsqr in Hsq. nra. }
  apply Rmult_le_pos; [apply Rmult_le_pos; [apply Rmult_le_pos |] |];
    assumption.
Qed.

Lemma thin_wall_nonneg (t D L rho : R) :
  0 <= 2 * t <= D -> 0 <= L -> 0 <= rho -> 0 <= PI * t * (D - t) * L * rho.
Proof.
  intros Ht HL Hrho. pose proof PI_bounds as [Hpi _].
  apply Rmult_le_pos; [| exact Hrho].
  apply Rmult_le_pos; [| exact HL].
  apply Rmult_le_pos; [apply Rmult_le_pos |]; lra.
Qed.

(** X8: the tube weight and the shell weight without baffles are thin-wall
    formulas, [pi * thickness * (diameter - thickness) * length * density]
    (times the tube count for the tubes); for physical dimensions the three
    returned weights are not negative and the total is at least the shell
    weight plus the tube weight. *)
Theorem exchanger_weights_are_physical (total_weight shell_weight tube_weight : R) :
  calculate_shelltubeexchanger_weight i
  = (total_weight, shell_weight, tube_weight) ->
  tube_weight
  = IZR (num_tubes i)
    * (PI * tube_thickness i * (tube_outer_diameter i - tube_thickness i)
       * tube_length i * tube_steel_density i) /\
  shell_weight - baffle_weight i
  = PI * shell_thickness i * (shell_diameter i - shell_thickness i)
    * tube_length i * shell_steel_density i /\
  (physical i ->
   0 <= tube_weight /\ 0 <= shell_weight /\
   shell_weight + tube_weight <= total_weight).
Proof.
  unfold calculate_shelltubeexchanger_weight. cbv zeta.
  intros [= <- <- <-].
  assert (Htube : tube_volume i * tube_steel_density i
                  = IZR (num_tubes i)
                    * (PI * tube_thickness i
                       * (tube_outer_diameter i - tube_thickness i)
                       * tube_length i * tube_steel_density i)).
  { unfold tube_volume. cbv zeta. field. }
  assert (Hshell : shell_volume i * shell_steel_density i
                   = PI * shell_thickness i
                     * (shell_diameter i - shell_thickness i)
                     * tube_length i * shell_steel_density i).
  { unfold shell_volume, shell_inner_diameter. field. }
  split; [exact Htube |]. split; [rewrite <- Hshell; ring |].
  intros Hphys. pose proof (baffle_weight_nonneg Hphys) as Hb.
  destruct Hphys as (HL & Hst & Htt & Hn & _ & Hrs & Hrt).
  pose proof PI_bounds as [Hpi _]. apply IZR_le in Hn.
  assert (H1 : 0 <= tube_volume i * tube_steel_density i).
  { rewrite Htube.
    apply Rmult_le_pos; [exact Hn | now apply thin_wall_nonneg]. }
  assert (H2 : 0 <= shell_volume i * shell_steel_density i).
  { rewrite Hshell. now apply thin_wall_nonneg. }
  lra.
Qed.

(** X9: the spacing that [calculate_baffle_spacing] returns for a shell wider
    than 0.45 m and a cut between 0 and 100 percent, used as the baffle
    spacing of an exchanger whose tubes are longer than 1.35 m, always
    passes the baffle test of the weight calculation: at least one baffle is
    weighed, in the shell weight and again in the total. *)
Theorem kern_spacing_puts_baffles_in_the_weight
        (kern_diameter baffle_cut_percentage : R) (n : Z) (s : R) :
  0.45 < kern_diameter -> 0 <= baffle_cut_percentage <= 100 ->
  calculate_baffle_spacing kern_diameter baffle_cut_percentage = ret (n, s) ->
  baffle_spacing i = s -> 1.35 < tube_length i ->
  let count := Zfloor (tube_length i / s) in
  let r := calculate_shelltubeexchanger_weight i in
  (1 <= count)%Z /\
  snd (fst r)
  = shell_volume i * shell_steel_density i + IZR count * baffle_disk_weight i /\
  fst (fst r) = snd (fst r) + snd r + IZR count * baffle_disk_weight i.
Proof.
  intros HD Hcut Hkern Hs HL count r.
  destruct (baffle_spacing_shape kern_diameter baffle_cut_percentage HD Hcut)
    as (n' & s' & Hres & Hn & Hnear & Hshape).
  destruct (spacing_near_kern kern_diameter baffle_cut_percentage n'
                              Hn Hnear Hcut) as [Hlo Hhi].
  rewrite <- Hshape in Hlo, Hhi.
  rewrite Hkern in Hres. injection Hres as <- <-.
  assert (Hb : baffles_needed i = true)
    by (apply baffles_needed_iff; rewrite Hs; lra).
  split.
  - apply Zfloor_lub. simpl. apply div_ge_lo; lra.
  - unfold r, calculate_shelltubeexchanger_weight. cbv zeta. simpl fst; simpl snd.
    unfold baffle_weight. rewrite Hb. cbv zeta.
    unfold math_floor, baffle_disk_weight, count. rewrite Hs.
    split; field.
Qed.

End ExchangerWeightBounds.

Lemma exchanger_example_physical :
  HeatExchanger.physical (HeatExchanger.with_defaults 1 6 0.02 100 2).
Proof. unfold HeatExchanger.physical; simpl. repeat split; try lra; lia. Qed.

(** The 1 m shell with a hundred 20 mm tubes of 6 m and the default walls. *)
Lemma exchanger_weights_are_physical_witness :
  let i := HeatExchanger.with_defaults 1 6 0.02 100 2 in
  let r := HeatExchanger.calculate_shelltubeexchanger_weight i in
  snd r = 100 * (PI * 0.00211 * (0.02 - 0.00211) * 6 * 7850) /\
  0 <= snd r /\ 0 <= snd (fst r) /\ snd (fst r) + snd r <= fst (fst r).
Proof.
  cbv zeta.
  set (i := HeatExchanger.with_defaults 1 6 0.02 100 2).
  destruct (exchanger_weights_are_physical
              i _ _ _ eq_refl) as (Ht & _ & Hp).
  split; [exact Ht | exact (Hp exchanger_example_physical)].
Defined.

(** A shell of 1.8 m with a 25 percent cut gives a spacing of 0.8 m; on tubes
    of 6 m that is 7 baffles. *)
Lemma kern_spacing_puts_baffles_in_the_weight_witness :
  exists (n : Z) (s : R),
    HeatExchanger.calculate_baffle_spacing 1.8 25 = ret (n, s) /\
    let i := HeatExchanger.with_defaults 1.8 6 0.02 100 s in
    let r := HeatExchanger.calculate_shelltubeexchanger_weight i in
    (1 <= Zfloor (6 / s))%Z /\
    fst (fst r)
    = snd (fst r) + snd r
      + IZR (Zfloor (6 / s)) * HeatExchanger.baffle_disk_weight i.
Proof.
  destruct (baffle_spacing_shape 1.8 25) as (n & s & Hres & _);
    [lra | lra |].
  exists n, s. split; [exact Hres |]. cbv zeta.
  destruct (kern_spacing_puts_baffles_in_the_weight
              (HeatExchanger.with_defaults 1.8 6 0.02 100 s) 1.8 25 n s)
    as (H1 & _ & H3); try lra; try exact Hres; try reflexivity.
  - simpl. lra.
  - split; [exact H1 | exact H3].
Defined.

(** ** Separator: results, degenerate inputs, droplet size *)

Section SeparatorFluid.

Import Separator.

Variable i : SeparatorInput.

Lemma D_stern_pos : fluid_valid i -> 0 < D_stern i.
Proof.
  intros (_ & _ & _ & Hd). unfold D_stern.
  apply Rmult_lt_0_compat; [exact Hd | apply Rpower_pos].
Qed.

Lemma drag_sum_pos :
  fluid_valid i -> 0 < 18 / D_stern i ^ 2 + 0.591 / Rpower (D_stern i) 0.5.
Proof.
  intros H. pose proof (D_stern_pos H) as HD.
  pose proof (Rpower_pos (D_stern i) 0.5).
  apply Rplus_lt_0_compat; apply div_pos; try lra. now apply pow_lt.
Qed.

Lemma u_t_pos : fluid_valid i -> 0 < u_t i.
Proof. intros _. unfold u_t. apply Rmult_lt_0_compat; apply Rpower_pos. Qed.

(** On valid fluids the terminal velocity is [u_t], whatever the flows. *)
Lemma terminal_velocity_value :
  fluid_valid i -> terminal_velocity i = ret (u_t i).
Proof.
  intros Hf. pose proof (D_stern_pos Hf) as HD.
  pose proof (drag_sum_pos Hf) as Hsum.
  destruct Hf as (Hv & Hl & Hmu & Hd).
  unfold terminal_velocity.
  assert (Hmu2 : 0 < viscosity_gas i ^ 2) by (apply pow_lt; exact Hmu).
  assert (Hg : 0 < g) by (unfold g; lra).
  assert (Hnum : 0 < rho_vapor i * (rho_liquid i - rho_vapor i) * g).
  { apply Rmult_lt_0_compat; [apply Rmult_lt_0_compat |]; lra. }
  assert (Hden : 0 < viscosity_gas i * (rho_liquid i - rho_vapor i) * g).
  { apply Rmult_lt_0_compat; [apply Rmult_lt_0_compat |]; lra. }
  rewrite float_div_ok, bind_ret by (apply Rgt_not_eq; assumption).
  rewrite float_pow_pos, bind_ret by (now apply div_pos). cbv zeta.
  fold (D_stern i).
  rewrite float_div_ok, bind_ret by (apply Rgt_not_eq; now apply pow_lt).
  rewrite float_pow_pos, bind_ret by exact HD.
  rewrite float_div_ok, bind_ret by (apply Rgt_not_eq; apply Rpower_pos).
  rewrite float_pow_pos, bind_ret by exact Hsum.
  rewrite float_div_ok, bind_ret by (apply Rgt_not_eq; assumption).
  rewrite float_pow_pos, bind_ret; [reflexivity |].
  apply div_pos; [now apply pow_lt | exact Hden].
Qed.

(** X10: on a valid input the four results are positive, and the volume
    returned is that of a cylinder of the returned diameter and of length
    [h_d_ratio] times that diameter. *)
Theorem separator_results_are_positive :
  valid i ->
  exists D_vessel D_volume hold_up_time gas_velocity : R,
    gas_liquid_separator_sizing i
    = ret (D_vessel, D_volume, hold_up_time, gas_velocity) /\
    0 < D_vessel /\ 0 < D_volume /\ 0 < hold_up_time /\ 0 < gas_velocity /\
    D_volume = PI * (D_vessel / 2) ^ 2 * (h_d_ratio i * D_vessel).
Proof.
  intros Hvalid.
  assert (Hf : fluid_valid i) by (unfold valid, fluid_valid in *; tauto).
  destruct (sizing_returns i Hvalid (u_t i) (terminal_velocity_value Hf)
                           (u_t_pos Hf)) as (HD & _ & Hret).
  destruct Hvalid as (_ & _ & _ & Hliq & _ & Hhd & _).
  pose proof PI_bounds as [Hpi _].
  set (D := sqrt (4 * gas_flowrate i / (PI * u_t i))) in *.
  do 4 eexists. split; [exact Hret |].
  assert (HD2 : 0 < D ^ 2) by (now apply pow_lt).
  assert (HL : 0 < h_d_ratio i * D) by (now apply Rmult_lt_0_compat).
  assert (HV : 0 < PI / 4 * D ^ 2 * (h_d_ratio i * D)).
  { apply Rmult_lt_0_compat; [apply Rmult_lt_0_compat |]; lra. }
  split; [exact HD |]. split; [exact HV |]. split; [| split].
  - apply div_pos; [apply div_pos |]; lra.
  - now apply u_t_pos.
  - field.
Qed.

(** X11: a gas without viscosity, a vapour without density, or a liquid as
    light as the vapour: the call raises [ZeroDivisionError]. *)
Theorem separator_degenerate_fluid :
  viscosity_gas i = 0 \/ rho_vapor i = 0 \/ rho_liquid i = rho_vapor i ->
  gas_liquid_separator_sizing i = raise ZeroDivisionError.
Proof.
  intros H. unfold gas_liquid_separator_sizing.
  assert (Ht : terminal_velocity i = raise ZeroDivisionError);
    [| now rewrite Ht].
  unfold terminal_velocity.
  destruct (Req_dec_T (viscosity_gas i) 0) as [Hmu | Hmu].
  - rewrite Hmu. replace (0 ^ 2) with 0 by ring.
    now rewrite float_div_zero.
  - rewrite float_div_ok, bind_ret by (now apply pow_nonzero).
    replace (rho_vapor i * (rho_liquid i - rho_vapor i) * g) with 0
      by (destruct H as [H | [H | H]]; [contradiction | |]; rewrite H; ring).
    unfold Rdiv at 1. rewrite Rmult_0_l.
    assert (Hp : float_pow 0 (1 / 3) = ret 0).
    { unfold float_pow. destruct (Req_dec_T 0 0); [| contradiction].
      destruct (Rlt_dec (1 / 3) 0); [lra |].
      destruct (Req_dec_T (1 / 3) 0); [lra | reflexivity]. }
    rewrite Hp, bind_ret. cbv zeta.
    replace ((D_sphere i * 0) ^ 2) with 0 by ring.
    now rewrite float_div_zero.
Qed.

(** X12: with valid fluids, a gas flow of zero gives a vessel of diameter
    zero and the gas velocity divides by zero; with a positive gas flow, a
    liquid flow of zero makes the hold-up time divide by zero. Either way the
    call raises [ZeroDivisionError]. *)
Theorem separator_zero_flow :
  fluid_valid i ->
  gas_flowrate i = 0 \/ (0 < gas_flowrate i /\ liquid_flowrate i = 0) ->
  gas_liquid_separator_sizing i = raise ZeroDivisionError.
Proof.
  intros Hf H. pose proof (u_t_pos Hf) as Hu. pose proof PI_bounds as [Hpi _].
  assert (Hden : 0 < PI * u_t i) by (apply Rmult_lt_0_compat; lra).
  unfold gas_liquid_separator_sizing.
  rewrite (terminal_velocity_value Hf), bind_ret.
  rewrite float_div_ok, bind_ret by lra.
  destruct H as [Hq | [Hq Hliq]].
  - rewrite Hq. replace (4 * 0 / (PI * u_t i)) with 0 by (field; lra).
    assert (Hp : float_pow 0 (1 / 2) = ret 0).
    { unfold float_pow. destruct (Req_dec_T 0 0); [| contradiction].
      destruct (Rlt_dec (1 / 2) 0); [lra |].
      destruct (Req_dec_T (1 / 2) 0); [lra | reflexivity]. }
    rewrite Hp, bind_ret.
    replace (PI * 0 ^ 2) with 0 by ring.
    now rewrite float_div_zero.
  - assert (Hq4 : 0 < 4 * gas_flowrate i / (PI * u_t i))
      by (apply div_pos; lra).
    rewrite float_pow_pos, bind_ret by exact Hq4.
    assert (HD : 0 < Rpower (4 * gas_flowrate i / (PI * u_t i)) (1 / 2))
      by apply Rpower_pos.
    set (D := Rpower _ (1 / 2)) in *.
    assert (HpiD : 0 < PI * D ^ 2).
    { apply Rmult_lt_0_compat; [lra | now apply pow_lt]. }
    rewrite float_div_ok, bind_ret by lra. cbv zeta.
    rewrite Hliq. replace (4 * 0) with 0 by ring.
    now rewrite float_div_zero.
Qed.

End SeparatorFluid.

Lemma separator_results_are_positive_witness :
  let i := Separator.with_defaults 1.2 1000 0.5 0.01 0.000018 in
  exists D_vessel D_volume hold_up_time gas_velocity : R,
    Separator.gas_liquid_separator_sizing i
    = ret (D_vessel, D_volume, hold_up_time, gas_velocity) /\
    0 < D_vessel /\ 0 < D_volume /\ 0 < hold_up_time /\ 0 < gas_velocity /\
    D_volume = PI * (D_vessel / 2) ^ 2 * (3 * D_vessel).
Proof.
  exact (separator_results_are_positive _ separator_example_valid).
Defined.

(** Equal densities, and a vanishing liquid flow. *)
Lemma separator_degenerate_fluid_witness :
  Separator.gas_liquid_separator_sizing
    (Separator.with_defaults 1000 1000 0.5 0.01 0.000018)
  = raise ZeroDivisionError.
Proof.
  apply separator_degenerate_fluid. right; right. reflexivity.
Defined.

Lemma separator_zero_flow_witness :
  Separator.gas_liquid_separator_sizing
    (Separator.with_defaults 1.2 1000 0.5 0 0.000018)
  = raise ZeroDivisionError.
Proof.
  apply separator_zero_flow.
  - unfold Separator.fluid_valid; simpl; lra.
  - right. simpl. split; [lra | reflexivity].
Defined.

Lemma Rpower_minus_1 (x : R) : 0 < x -> Rpower x (-1) = / x.
Proof.
  intros Hx. unfold Rpower.
  replace (-1 * ln x) with (- ln x) by lra.
  now rewrite exp_Ropp, exp_ln.
Qed.

Lemma div_antitone (a x y : R) : 0 <= a -> 0 < x <= y -> a / y <= a / x.
Proof.
  intros Ha [Hx Hxy]. unfold Rdiv. apply Rmult_le_compat_l; [exact Ha |].
  apply Rinv_le_contravar; assumption.
Qed.

Section DropletSize.

Import Separator.

Variables (i : SeparatorInput) (d1 d2 : R).
Hypothesis Hvalid : valid i.
Hypothesis Hd : 0 < d1 <= d2.

Lemma with_D_sphere_valid (d : R) : 0 < d -> valid (with_D_sphere i d).
Proof. intros H. unfold valid in *. simpl. tauto. Qed.

Lemma with_D_sphere_fluid_valid (d : R) :
  0 < d -> fluid_valid (with_D_sphere i d).
Proof. intros H. unfold valid, fluid_valid in *. simpl. tauto. Qed.

(** Larger droplets fall faster. *)
Lemma u_t_grows_with_droplet :
  u_t (with_D_sphere i d1) <= u_t (with_D_sphere i d2).
Proof.
  assert (H1 : fluid_valid (with_D_sphere i d1))
    by (apply with_D_sphere_fluid_valid; lra).
  assert (H2 : fluid_valid (with_D_sphere i d2))
    by (apply with_D_sphere_fluid_valid; lra).
  pose proof (D_stern_pos _ H1) as HD1. pose proof (D_stern_pos _ H2) as HD2.
  pose proof (drag_sum_pos _ H1) as HS1. pose proof (drag_sum_pos _ H2) as HS2.
  assert (HD : D_stern (with_D_sphere i d1) <= D_stern (with_D_sphere i d2)).
  { unfold D_stern. simpl.
    apply Rmult_le_compat_r; [left; apply Rpower_pos | lra]. }
  unfold u_t. cbn [rho_vapor rho_liquid viscosity_gas with_D_sphere].
  apply Rmult_le_compat_r; [left; apply Rpower_pos |].
  rewrite !Rpower_minus_1 by assumption.
  apply Rinv_le_contravar; [exact HS2 |].
  apply Rplus_le_compat.
  - apply div_antitone; [lra |]. split; [now apply pow_lt |].
    apply pow_incr. lra.
  - apply div_antitone; [lra |]. split; [apply Rpower_pos |].
    apply Rle_Rpower_l; lra.
Qed.

(** X13: what the docstring says of [D_sphere]: with everything else equal,
    a smaller critical droplet diameter gives a lower terminal velocity and
    a vessel that is at least as wide and at least as large. *)
Theorem smaller_droplets_need_larger_vessel :
  exists D1 V1 h1 u1 D2 V2 h2 u2 : R,
    gas_liquid_separator_sizing (with_D_sphere i d1) = ret (D1, V1, h1, u1) /\
    gas_liquid_separator_sizing (with_D_sphere i d2) = ret (D2, V2, h2, u2) /\
    u1 <= u2 /\ D2 <= D1 /\ V2 <= V1.
Proof.
  assert (Hd1 : 0 < d1) by lra. assert (Hd2 : 0 < d2) by lra.
  pose proof (with_D_sphere_fluid_valid d1 Hd1) as Hf1.
  pose proof (with_D_sphere_fluid_valid d2 Hd2) as Hf2.
  destruct (sizing_returns _ (with_D_sphere_valid d1 Hd1) _
                           (terminal_velocity_value _ Hf1) (u_t_pos _ Hf1))
    as (HD1 & _ & Hret1).
  destruct (sizing_returns _ (with_D_sphere_valid d2 Hd2) _
                           (terminal_velocity_value _ Hf2) (u_t_pos _ Hf2))
    as (HD2 & _ & Hret2).
  pose proof u_t_grows_with_droplet as Hu.
  pose proof (u_t_pos _ Hf1) as Hu1. pose proof (u_t_pos _ Hf2) as Hu2.
  destruct Hvalid as (_ & _ & Hq & _ & _ & Hhd & _).
  pose proof PI_bounds as [Hpi _].
  cbn [gas_flowrate h_d_ratio liquid_flowrate with_D_sphere] in *.
  set (u1 := u_t (with_D_sphere i d1)) in *.
  set (u2 := u_t (with_D_sphere i d2)) in *.
  set (D1 := sqrt (4 * gas_flowrate i / (PI * u1))) in *.
  set (D2 := sqrt (4 * gas_flowrate i / (PI * u2))) in *.
  assert (HD : D2 <= D1).
  { apply sqrt_le_1_alt. apply div_antitone; [lra |].
    split; [apply Rmult_lt_0_compat; lra |].
    apply Rmult_le_compat_l; lra. }
  do 8 eexists. split; [exact Hret1 |]. split; [exact Hret2 |].
  split; [exact Hu |]. split; [exact HD |].
  apply Rmult_le_compat.
  - apply Rmult_le_pos; [lra | apply pow2_ge_0].
  - apply Rmult_le_pos; lra.
  - apply Rmult_le_compat_l; [lra |]. apply pow_incr. lra.
  - apply Rmult_le_compat_l; lra.
Qed.

End DropletSize.

(** Droplets of 0.05 mm against the default 0.1 mm, for air and water. *)
Lemma smaller_droplets_need_larger_vessel_witness :
  let i := Separator.with_defaults 1.2 1000 0.5 0.01 0.000018 in
  exists D1 V1 h1 u1 D2 V2 h2 u2 : R,
    Separator.gas_liquid_separator_sizing (Separator.with_D_sphere i 0.00005)
    = ret (D1, V1, h1, u1) /\
    Separator.gas_liquid_separator_sizing (Separator.with_D_sphere i 0.0001)
    = ret (D2, V2, h2, u2) /\
    u1 <= u2 /\ D2 <= D1 /\ V2 <= V1.
Proof.
  apply smaller_droplets_need_larger_vessel;
    [exact separator_example_valid | lra].
Defined.

(** ** Vessel: design pressure and material tables *)

Lemma exp_8_lower : 1000.04 < exp 8.
Proof.
  pose proof (exp_ineq1_le (1 / 4)) as H0.
  assert (Hsq : forall x c : R, 0 < c -> c <= exp x -> c * c <= exp (x + x)).
  { intros x c Hc H. rewrite exp_plus. apply Rmult_le_compat; lra. }
  apply Hsq in H0; [| lra].
  apply Hsq in H0; [| lra].
  apply Hsq in H0; [| lra].
  apply Hsq in H0; [| lra].
  apply Hsq in H0; [| lra].
  replace (1 / 4 + 1 / 4 + (1 / 4 + 1 / 4) + (1 / 4 + 1 / 4 + (1 / 4 + 1 / 4))
           + (1 / 4 + 1 / 4 + (1 / 4 + 1 / 4)
              + (1 / 4 + 1 / 4 + (1 / 4 + 1 / 4)))
           + (1 / 4 + 1 / 4 + (1 / 4 + 1 / 4)
              + (1 / 4 + 1 / 4 + (1 / 4 + 1 / 4))
              + (1 / 4 + 1 / 4 + (1 / 4 + 1 / 4)
                 + (1 / 4 + 1 / 4 + (1 / 4 + 1 / 4))))) with 8 in H0 by lra.
  lra.
Qed.

Section DesignTables.

Import Vessel.

(** X14: whatever the operating pressure, a design pressure is assigned and
    it exceeds the operating pressure expressed in psig. *)
Theorem design_pressure_exceeds_operating_pressure (p : R) :
  exists dp : R, design_pressure p = Some dp /\ p * 0.145038 < dp.
Proof.
  unfold design_pressure, kPa_to_psig.
  destruct (Rle_dec p 34.5); [eexists; split; [reflexivity | lra] |].
  destruct (Rle_dec p 6895) as [Hp |].
  - eexists. split; [reflexivity |].
    set (x := p * 0.145038).
    assert (Hx : 1 < x <= 1000.04) by (unfold x; lra).
    rewrite <- (exp_ln x) at 1 by lra.
    apply exp_increasing.
    assert (Hl : 0 < ln x < 8).
    { split.
      - rewrite <- ln_1. apply ln_increasing; lra.
      - rewrite <- (ln_exp 8). apply ln_increasing; [lra |].
        pose proof exp_8_lower. lra. }
    set (l := ln x) in *. clearbody l. clear - Hl. nra.
  - destruct (Rge_dec p 6895); [eexists; split; [reflexivity | lra] | lra].
Qed.

(** X15: the tabulated modulus of elasticity and allowable stress never
    increase with the design temperature; the modulus stays between 26.0e6
    and 30.2e6, the stress between 13100 and 15000. *)
Theorem hotter_steel_is_never_stronger (dt1 dt2 : R) :
  dt1 <= dt2 ->
  E_modulus dt2 <= E_modulus dt1 /\
  26.0 * 10 ^ 6 <= E_modulus dt2 /\ E_modulus dt1 <= 30.2 * 10 ^ 6 /\
  (dt2 <= 900 ->
   exists S1 S2 : R,
     allowable_stress dt1 = ret (Some S1) /\
     allowable_stress dt2 = ret (Some S2) /\
     13100 <= S2 <= S1 /\ S1 <= 15000).
Proof.
  intros H. unfold E_modulus, allowable_stress.
  repeat split.
  - repeat match goal with |- context [Rlt_dec ?a ?b] => destruct (Rlt_dec a b) end;
      lra.
  - repeat match goal with |- context [Rlt_dec ?a ?b] => destruct (Rlt_dec a b) end;
      lra.
  - repeat match goal with |- context [Rlt_dec ?a ?b] => destruct (Rlt_dec a b) end;
      lra.
  - intros H900.
    repeat match goal with |- context [Rle_dec ?a ?b] => destruct (Rle_dec a b) end;
      try lra; do 2 eexists; (split; [reflexivity |]); (split; [reflexivity |]);
      lra.
Qed.

End DesignTables.

Lemma hotter_steel_is_never_stronger_witness :
  Vessel.E_modulus 700 <= Vessel.E_modulus 300 /\
  exists S1 S2 : R,
    Vessel.allowable_stress 300 = ret (Some S1) /\
    Vessel.allowable_stress 870 = ret (Some S2) /\
    13100 <= S2 <= S1 /\ S1 <= 15000.
Proof.
  split.
  - apply (hotter_steel_is_never_stronger 300 700). lra.
  - apply (hotter_steel_is_never_stronger 300 870); lra.
Defined.

(** ** Vessel: weight bounds and material *)

Section VesselWeightBounds.

Import Vessel.

Variables (fuel : nat) (i : VesselInput).

(** A returned weight is the weight of a wall of at least 0.25 in. *)
Lemma vertical_vessels_weight_returned (out : list string) (w : R) :
  vertical_vessels_weight fuel i = (out, Returned (fin w)) ->
  exists t : R, 0.25 <= t /\ w = finite_weight i t.
Proof.
  unfold vertical_vessels_weight, total_thickness. cbv zeta. intros H.
  apply bind_returned in H as (? & t & ? & Ht & Hr & _).
  injection Hr as _ Hr.
  apply weight_of_thickness_finite in Hr as (t' & -> & ->).
  exists t'. split; [| reflexivity].
  apply bind_returned in Ht as (? & S & ? & _ & Ht & _).
  apply bind_returned in Ht as (? & t0 & ? & _ & Ht & _).
  apply bind_returned in Ht as (? & t1 & ? & _ & Ht & _).
  injection Ht as _ Ht. now apply minimum_thickness_ge in Ht.
Qed.

Lemma finite_weight_incr (t1 t2 : R) :
  0 <= diameter i -> 0 <= tangent_tangent_length i ->
  0 <= material_density i -> 0 <= t1 <= t2 ->
  finite_weight i t1 <= finite_weight i t2.
Proof.
  intros HD HL Hrho [Ht1 Ht]. pose proof PI_bounds as [Hpi _].
  unfold finite_weight, kg_to_lb, kg_m3_to_lb_in3, m_to_inch.
  apply Rmult_le_compat_r; [lra |].
  apply Rmult_le_compat_r; [lra |].
  assert (Hrho' : 0 <= material_density i * 0.000036127298147753) by lra.
  apply Rmult_le_compat; try lra.
  - apply Rmult_le_pos; [apply Rmult_le_pos |]; lra.
  - apply Rmult_le_compat_r; [exact Hrho' |].
    apply Rmult_le_compat_l; lra.
Qed.

(** X16: for a vessel of positive diameter, length and density, a returned
    weight is positive and never less than the weight of the same shell with
    the minimum wall of 0.25 in.  (By X22 every weight returned for such a
    vessel is a finite number.) *)
Theorem vessel_weight_at_least_minimum_wall (out : list string) (w : R) :
  0 < diameter i -> 0 < tangent_tangent_length i -> 0 < material_density i ->
  vertical_vessels_weight fuel i = (out, Returned (fin w)) ->
  0 < w /\
  PI * 0.25 * (material_density i * 0.000036127298147753)
  * (diameter i * 39.3701 + 0.25)
  * (tangent_tangent_length i * 39.3701 + 0.8 * (diameter i * 39.3701))
  / 2.20462 <= w.
Proof.
  intros HD HL Hrho H.
  destruct (vertical_vessels_weight_returned _ _ H) as (t & Ht & ->).
  assert (Hmin : 0 < finite_weight i 0.25).
  { pose proof PI_bounds as [Hpi _].
    unfold finite_weight, kg_to_lb, kg_m3_to_lb_in3, m_to_inch.
    apply div_pos; [| lra].
    apply Rmult_lt_0_compat;
      [apply Rmult_lt_0_compat; [apply Rmult_lt_0_compat |] |]; lra. }
  pose proof (finite_weight_incr 0.25 t) as Hincr.
  assert (Hle : finite_weight i 0.25 <= finite_weight i t)
    by (apply Hincr; lra).
  split; [lra |]. exact Hle.
Qed.

(** X17: the wall thickness does not depend on the material density, so a
    vessel in a material [k] times as dense ends the same way, with [k]
    times the weight when a weight is returned. *)
Theorem vessel_weight_proportional_to_density (k : R) :
  let j := with_material_density i (k * material_density i) in
  total_thickness fuel j = total_thickness fuel i /\
  forall (out : list string) (w : R),
    vertical_vessels_weight fuel i = (out, Returned (fin w)) ->
    vertical_vessels_weight fuel j = (out, Returned (fin (k * w))).
Proof.
  intros j.
  assert (Ht : total_thickness fuel j = total_thickness fuel i)
    by reflexivity.
  split; [exact Ht |].
  intros out w H. unfold vertical_vessels_weight in *. rewrite Ht.
  apply bind_returned in H as (out1 & t & out2 & Hth & Hr & ->).
  injection Hr as <- Hr. rewrite Hth.
  apply weight_of_thickness_finite in Hr as (t' & -> & ->).
  unfold bind. cbn [fst snd ret]. rewrite (weight_of_thickness_fin j).
  do 3 f_equal. unfold finite_weight. simpl. field.
  unfold kg_to_lb. lra.
Qed.

End VesselWeightBounds.

(** The vessel under vacuum weighs more than its 0.25 in shell would. *)
Lemma vessel_weight_at_least_minimum_wall_witness :
  exists w : R,
    Vessel.vertical_vessels_weight 2 Vessel.hot_vacuum_vessel
    = ([Vessel.temperature_warning], Returned (fin w)) /\
    0 < w /\
    PI * 0.25 * (7850 * 0.000036127298147753) * (3 * 39.3701 + 0.25)
    * (1 * 39.3701 + 0.8 * (3 * 39.3701)) / 2.20462 <= w.
Proof.
  destruct hot_vacuum_vessel_run as (t & _ & Hrun).
  eexists. split; [exact Hrun |].
  apply (vessel_weight_at_least_minimum_wall
           2%nat Vessel.hot_vacuum_vessel [Vessel.temperature_warning]);
    try (simpl; lra).
  exact Hrun.
Defined.

(** The same vessel in a material twice as dense. *)
Lemma vessel_weight_proportional_to_density_witness :
  exists w : R,
    Vessel.vertical_vessels_weight 2 Vessel.hot_vacuum_vessel
    = ([Vessel.temperature_warning], Returned (fin w)) /\
    Vessel.vertical_vessels_weight
      2 (Vessel.with_material_density Vessel.hot_vacuum_vessel (2 * 7850))
    = ([Vessel.temperature_warning], Returned (fin (2 * w))).
Proof.
  destruct hot_vacuum_vessel_run as (t & _ & Hrun).
  eexists. split; [exact Hrun |].
  exact (proj2 (vessel_weight_proportional_to_density
                  2%nat Vessel.hot_vacuum_vessel 2) _ _ Hrun).
Defined.

(** ** Vessel: exceptions *)

Section RaisesOnly.

Variable P : exn -> Prop.

Lemma raises_only_bind {A B : Type} (m : M A) (k : A -> M B) :
  raises_only P m ->
  (forall (out : list string) (a : A),
      m = (out, Returned a) -> raises_only P (k a)) ->
  raises_only P (bind m k).
Proof.
  intros Hm Hk e. unfold bind.
  destruct m as [out [a | e' | |]] eqn:E; simpl; try discriminate.
  - apply (Hk out a eq_refl).
  - intros [= ->]. now apply (Hm e).
Qed.

Lemma raises_only_while {A : Type} (cond : A -> bool) (body : A -> M A)
      (fuel : nat) :
  (forall s, raises_only P (body s)) ->
  forall s, raises_only P (while fuel cond body s).
Proof.
  intros Hb. induction fuel as [| fuel IH]; intros s;
    destruct (cond s) eqn:C.
  - simpl. rewrite C. discriminate.
  - rewrite while_done by exact C. discriminate.
  - rewrite while_step by exact C. apply raises_only_bind; auto.
  - rewrite while_done by exact C. discriminate.
Qed.

Lemma raises_only_ret {A : Type} (a : A) : raises_only P (ret a).
Proof. discriminate. Qed.

Lemma raises_only_print (line : string) : raises_only P (print line).
Proof. discriminate. Qed.

Lemma raises_only_iterate {V : Type} `{Number V} (update : V -> M V)
      (fuel : nat) :
  (forall x y : V, raises_only P (divide x y)) ->
  (forall t, raises_only P (update t)) ->
  raises_only P (Vessel.iterate fuel update).
Proof.
  intros Hd Hu. apply raises_only_while. intros s. unfold Vessel.loop_body.
  apply raises_only_bind; [apply Hu | intros ? t _].
  apply raises_only_bind; [apply Hd | intros ? e _].
  apply raises_only_ret.
Qed.

Hypothesis Hzero : P ZeroDivisionError.

Lemma raises_only_float_div (x y : R) : raises_only P (float_div x y).
Proof.
  unfold float_div. destruct (Req_dec_T y 0); [| discriminate].
  now intros e' [= <-].
Qed.

Lemma raises_only_float_pow (x y : R) : raises_only P (float_pow x y).
Proof.
  unfold float_pow.
  repeat match goal with |- context [if ?c then _ else _] => destruct c end;
    try discriminate.
  now intros e' [= <-].
Qed.

Lemma raises_only_true_div (numpy : bool) (x y : R) :
  raises_only P (true_div numpy x y).
Proof.
  destruct numpy; simpl; [discriminate |].
  apply raises_only_bind; [apply raises_only_float_div | discriminate].
Qed.

Lemma raises_only_complex_div (a b c d : R) :
  raises_only P (complex_div a b c d).
Proof.
  unfold complex_div.
  destruct (Req_dec_T c 0), (Req_dec_T d 0); try discriminate.
  now intros e' [= <-].
Qed.

Lemma raises_only_py_div (x y : pynum) : raises_only P (py_div x y).
Proof.
  destruct x, y; simpl; try apply raises_only_complex_div.
  apply raises_only_bind; [apply raises_only_float_div | discriminate].
Qed.

Lemma raises_only_complex_pow (a b y : R) :
  raises_only P (complex_pow a b y).
Proof.
  unfold complex_pow.
  repeat match goal with |- context [if ?c then _ else _] => destruct c end;
    try discriminate.
  now intros e' [= <-].
Qed.

Lemma raises_only_py_pow (x : pynum) (y : R) : raises_only P (py_pow x y).
Proof.
  destruct x; simpl; [| apply raises_only_complex_pow].
  repeat match goal with |- context [if ?c then _ else _] => destruct c end;
    try discriminate; try apply raises_only_complex_pow.
  now intros e' [= <-].
Qed.

End RaisesOnly.

Lemma raises_only_weaken {A : Type} (P Q : exn -> Prop) (m : M A) :
  (forall e, P e -> Q e) -> raises_only P m -> raises_only Q m.
Proof. intros H Hm e He. apply H, Hm, He. Qed.

Section VesselExceptions.

Import Vessel.

Variable i : VesselInput.

Lemma allowable_stress_no_raise (P : exn -> Prop) (dt : R) :
  raises_only P (allowable_stress dt).
Proof.
  unfold allowable_stress.
  repeat match goal with |- context [Rle_dec ?a ?b] => destruct (Rle_dec a b) end;
    discriminate.
Qed.

Lemma allowable_stress_none (dt : R) (out : list string) :
  allowable_stress dt = (out, Returned None) -> dt > 900.
Proof.
  unfold allowable_stress.
  repeat match goal with |- context [Rle_dec ?a ?b] => destruct (Rle_dec a b) end;
    try discriminate.
  intros _. lra.
Qed.

Lemma deref_stress_raises_only (S : option R) (out : list string) :
  allowable_stress (design_temp (highest_temp i)) = (out, Returned S) ->
  lowest_pressure i >= 101 ->
  raises_only (vessel_exception i) (deref "allowable_stress" S).
Proof.
  intros HS Hp. destruct S as [S |]; [discriminate |].
  intros e [= <-]. right. right. split; [reflexivity |].
  split; [now apply allowable_stress_none with out | exact Hp].
Qed.

(** The branch [lowest_pressure >= 101]: divisions of Python floats, and
    the reads of the allowable stress. *)
Lemma high_pressure_raises_only (fuel : nat) (dp : R) (S : option R)
      (out : list string) :
  allowable_stress (design_temp (highest_temp i)) = (out, Returned S) ->
  lowest_pressure i >= 101 ->
  raises_only (vessel_exception i)
              (high_pressure_thickness fuel (Some dp) S i).
Proof.
  intros HS Hp.
  assert (Hz : vessel_exception i ZeroDivisionError)
    by (left; split; [reflexivity | now right]).
  unfold high_pressure_thickness.
  apply raises_only_bind.
  { apply raises_only_iterate.
    - intros x y. now apply raises_only_float_div.
    - intros t. unfold tE_wind. cbv zeta.
      apply raises_only_bind;
        [now apply deref_stress_raises_only with out | intros].
      now apply raises_only_float_div. }
  intros o2 s Hs. destruct (iterate_returned _ _ _ _ Hs) as [_ HtE].
  apply raises_only_bind; [apply raises_only_ret | intros ? dp' _].
  apply raises_only_bind;
    [now apply deref_stress_raises_only with out | intros ? S' _].
  apply raises_only_bind; [now apply raises_only_true_div | intros].
  rewrite HtE. apply raises_only_bind; [apply raises_only_ret | intros].
  apply raises_only_ret.
Qed.

(** The vacuum branch on Python numbers: divisions, the power of 0, and the
    comparison of a complex [check]. *)
Lemma low_pressure_python_raises_only (fuel : nat) (dp E : R) :
  raises_only (fun e => e = ZeroDivisionError \/ e = TypeError)
              (low_pressure_thickness_python fuel (Some dp) E i).
Proof.
  set (P := fun e => e = ZeroDivisionError \/ e = TypeError).
  assert (Hz : P ZeroDivisionError) by now left.
  unfold low_pressure_thickness_python.
  apply raises_only_bind.
  { apply raises_only_iterate.
    - intros x y. now apply raises_only_py_div.
    - intros t. unfold tE_vacuum.
      apply raises_only_bind; [apply raises_only_ret | intros ? dp' _].
      apply raises_only_bind; [now apply raises_only_py_div | intros].
      apply raises_only_bind; [now apply raises_only_py_pow | intros].
      apply raises_only_ret. }
  intros o2 s Hs.
  destruct (iterate_ended _ _ _ _ loop_test_initial_pynum Hs) as [_ HtE].
  rewrite HtE. apply raises_only_bind; [apply raises_only_ret | intros ? tE' _].
  destruct tE' as [x | re im].
  - apply raises_only_bind; [now apply raises_only_float_div | intros].
    apply raises_only_bind.
    { destruct (Rge_dec _ 0.05);
        [apply raises_only_print | apply raises_only_ret]. }
    intros. destruct (Rgt_dec _ 0); apply raises_only_ret.
  - apply raises_only_bind; [now apply raises_only_py_div | intros].
    intros e [= <-]. now right.
Qed.

(** The vacuum branch on [numpy.float64]: no exception at all. *)
Lemma low_pressure_numpy_raises_only (fuel : nat) (dp E : R) :
  raises_only (fun _ => False)
              (low_pressure_thickness_numpy fuel (Some dp) E i).
Proof.
  unfold low_pressure_thickness_numpy.
  apply raises_only_bind.
  { apply raises_only_iterate.
    - intros x y. discriminate.
    - intros t. unfold tE_vacuum_numpy.
      apply raises_only_bind; [apply raises_only_ret | intros ? dp' _].
      apply raises_only_ret. }
  intros o2 s Hs.
  destruct (iterate_ended _ _ _ _ loop_test_initial_numpy Hs) as [_ HtE].
  rewrite HtE. apply raises_only_bind; [apply raises_only_ret | intros ? tE' _].
  cbv zeta. apply raises_only_bind.
  { destruct (fle _ _); [apply raises_only_print | apply raises_only_ret]. }
  intros. destruct (Rgt_dec _ 0); apply raises_only_ret.
Qed.

Lemma design_pressure_is_numpy_false (p : R) :
  p <= 101 -> design_pressure_is_numpy p = false -> p <= 34.5.
Proof.
  unfold design_pressure_is_numpy. intros Hp.
  destruct (Rle_dec p 34.5); [lra |].
  destruct (Rle_dec p 6895); [discriminate | lra].
Qed.


Lemma vertical_vessels_weight_raises_only (fuel : nat) :
  raises_only (vessel_exception i) (vertical_vessels_weight fuel i).
Proof.
  destruct (design_pressure_assigned (lowest_pressure i)) as (dp & Hdp & _).
  unfold vertical_vessels_weight, total_thickness. cbv zeta. rewrite Hdp.
  apply raises_only_bind; [| intros; apply raises_only_ret].
  apply raises_only_bind; [apply allowable_stress_no_raise | intros o1 S HS].
  apply raises_only_bind; cycle 1.
  { intros o2 [t |] Hw.
    - apply raises_only_bind;
        [apply raises_only_ret | intros; apply raises_only_ret].
    - exfalso. unfold wall_thickness in Hw.
      destruct (Rge_dec (lowest_pressure i) 101);
        [| destruct (Rle_dec (lowest_pressure i) 101); [| lra]];
        apply bind_returned in Hw as (? & ? & ? & _ & Hr & _);
        discriminate. }
  unfold wall_thickness.
  destruct (Rge_dec (lowest_pressure i) 101) as [Hp | Hp];
    [| destruct (Rle_dec (lowest_pressure i) 101) as [Hp' |]; [| lra]].
  - apply raises_only_bind; [| intros; apply raises_only_ret].
    now apply high_pressure_raises_only with o1.
  - apply raises_only_bind; [| intros; apply raises_only_ret].
    unfold low_pressure_thickness.
    destruct (design_pressure_is_numpy (lowest_pressure i)) eqn:Hn.
    + apply raises_only_weaken with (fun _ => False); [tauto |].
      apply low_pressure_numpy_raises_only.
    + apply design_pressure_is_numpy_false in Hn; [| exact Hp'].
      apply raises_only_weaken
        with (fun e => e = ZeroDivisionError \/ e = TypeError);
        [| apply low_pressure_python_raises_only].
      intros e [-> | ->]; [left | right; left]; split; auto.
Qed.

(** X19: whatever the input, the only exceptions the call can end in are
    [ZeroDivisionError], [TypeError] and the [UnboundLocalError] on
    [allowable_stress].  The last needs a design temperature above 900 F
    and [lowest_pressure >= 101]; [TypeError] needs
    [lowest_pressure <= 34.5], where the vacuum loop works on Python
    numbers that can become complex; and between 34.5 and 101 kPa, where it
    works on [numpy.float64], no exception is raised at all. *)
Theorem vessel_exceptions (fuel : nat) (out : list string) (e : exn) :
  vertical_vessels_weight fuel i = (out, Raised e) ->
  vessel_exception i e /\
  (lowest_pressure i <= 34.5 \/ lowest_pressure i >= 101) /\
  (lowest_pressure i >= 101 -> e <> TypeError) /\
  (design_temp (highest_temp i) <= 900 ->
   e = ZeroDivisionError \/ (e = TypeError /\ lowest_pressure i <= 34.5)).
Proof.
  intros H.
  assert (He : vessel_exception i e).
  { apply (vertical_vessels_weight_raises_only fuel). now rewrite H. }
  split; [exact He |].
  destruct He as [[-> Hp] | [[-> Hp] | (-> & Hhot & Hp)]].
  - split; [exact Hp |]. split; [discriminate |]. now left.
  - split; [now left |]. split; [lra |]. intros _. now right.
  - split; [now right |]. split; [discriminate |]. lra.
Qed.

End VesselExceptions.

(** A vessel at 200 kPa and 1000 K: the exception is the unassigned
    allowable stress. *)
Lemma vessel_exceptions_witness :
  let i := {| Vessel.lowest_pressure := 200; Vessel.highest_temp := 1000;
              Vessel.diameter := 1; Vessel.tangent_tangent_length := 5;
              Vessel.material_density := 7850 |} in
  Vessel.vertical_vessels_weight 1 i
  = ([Vessel.temperature_warning],
     Raised (UnboundLocalError "allowable_stress")) /\
  Vessel.vessel_exception i (UnboundLocalError "allowable_stress").
Proof.
  cbv zeta.
  set (i := {| Vessel.lowest_pressure := 200; Vessel.highest_temp := 1000;
               Vessel.diameter := 1; Vessel.tangent_tangent_length := 5;
               Vessel.material_density := 7850 |}).
  assert (H : Vessel.vertical_vessels_weight 1 i
              = ([Vessel.temperature_warning],
                 Raised (UnboundLocalError "allowable_stress"))).
  { apply hot_high_pressure_vessel_stops.
    - unfold Vessel.design_temp. simpl. lra.
    - simpl. lra. }
  split; [exact H |].
  exact (proj1 (vessel_exceptions i 1%nat _ _ H)).
Defined.

Section ZeroLengthVessel.

Import Vessel.

Variable i : VesselInput.
Hypothesis HD : 0 < diameter i.
Hypothesis HL : tangent_tangent_length i = 0.

(** Between 34.5 and 101 kPa the loop ends on [nan] with [tE = 0]; the
    thickness is the allowance of 0.125 in. *)
Lemma zero_length_low_pressure_numpy (fuel : nat) (dp E : R) :
  0 < E ->
  low_pressure_thickness_numpy (S (S fuel)) (Some dp) E i
  = ret (fin (0 + 0.125)).
Proof.
  intros HE. pose proof (D_in_pos i HD) as HDin.
  unfold low_pressure_thickness_numpy.
  rewrite (zero_length_numpy_iterate i HD HL) by exact HE.
  rewrite bind_ret. simpl deref. rewrite bind_ret. cbv zeta.
  cbn [fmul]. rewrite fdiv_fin by lra.
  assert (Hc : fle 0.05 (fin (0 / (diameter i * m_to_inch))) = false).
  { simpl. destruct (Rle_dec _ _) as [Hc |]; [| reflexivity].
    exfalso. revert Hc. unfold Rdiv. rewrite Rmult_0_l. lra. }
  rewrite Hc, bind_ret.
  destruct (Rgt_dec (tEC i) 0) as [Hc' |]; [| reflexivity].
  exfalso. revert Hc'. unfold tEC. rewrite HL. lra.
Qed.

(** X18: a vessel of positive diameter and zero tangent-to-tangent length, at
    a tabulated temperature.  The first pass of either loop gives a
    thickness of zero and the second computes 0 / 0.  On Python floats
    ([lowest_pressure <= 34.5] or [>= 101]) that is a [ZeroDivisionError];
    on [numpy.float64] (between 34.5 and 101 kPa) it is [nan], the loop
    ends, and the call returns the weight of the minimum wall of 0.25 in. *)
Theorem zero_length_vessel_divides_zero_by_zero (fuel : nat) :
  design_temp (highest_temp i) <= 900 ->
  (lowest_pressure i <= 34.5 \/ lowest_pressure i >= 101 ->
   vertical_vessels_weight (S (S fuel)) i = raise ZeroDivisionError) /\
  (34.5 < lowest_pressure i < 101 ->
   vertical_vessels_weight (S (S fuel)) i
   = ret (fin (PI * 0.25 * (material_density i * 0.000036127298147753)
               * (diameter i * 39.3701 + 0.25)
               * (0.8 * (diameter i * 39.3701)) / 2.20462))).
Proof.
  intros Hdt.
  destruct (allowable_stress_tabulated _ Hdt) as (S & HS & HSb).
  destruct (design_pressure_assigned (lowest_pressure i)) as (dp & Hdp & _).
  unfold vertical_vessels_weight, total_thickness. cbv zeta.
  rewrite HS, bind_ret, Hdp. unfold wall_thickness.
  split.
  - intros Hp.
    destruct (Rge_dec (lowest_pressure i) 101);
      [| destruct (Rle_dec (lowest_pressure i) 101); [| lra]].
    + unfold high_pressure_thickness.
      rewrite iterate_stalls; [reflexivity | |].
      * apply (tE_wind_zero_length i HD HL); lra.
      * exists 0. apply (tE_wind_zero_length i HD HL); lra.
    + unfold low_pressure_thickness.
      replace (design_pressure_is_numpy (lowest_pressure i)) with false;
        cycle 1.
      { unfold design_pressure_is_numpy.
        destruct (Rle_dec (lowest_pressure i) 34.5); [reflexivity | lra]. }
      unfold low_pressure_thickness_python.
      rewrite iterate_stalls_pynum; [reflexivity | |].
      * apply (tE_vacuum_zero_length i HD HL); [apply E_modulus_pos | lra].
      * exists 0.
        apply (tE_vacuum_zero_length i HD HL); [apply E_modulus_pos | lra].
  - intros Hp.
    destruct (Rge_dec (lowest_pressure i) 101); [lra |].
    destruct (Rle_dec (lowest_pressure i) 101); [| lra].
    unfold low_pressure_thickness.
    replace (design_pressure_is_numpy (lowest_pressure i)) with true;
      cycle 1.
    { unfold design_pressure_is_numpy.
      destruct (Rle_dec (lowest_pressure i) 34.5); [lra |].
      destruct (Rle_dec (lowest_pressure i) 6895); [reflexivity | lra]. }
    rewrite zero_length_low_pressure_numpy by apply E_modulus_pos.
    rewrite !bind_ret. simpl deref. rewrite bind_ret.
    rewrite minimum_thickness_fin.
    destruct (Rlt_dec (0 + 0.125) 0.25); [| lra].
    rewrite bind_ret, weight_of_thickness_fin. do 2 f_equal.
    unfold finite_weight, kg_m3_to_lb_in3, m_to_inch, kg_to_lb.
    rewrite HL. field. lra.
Qed.

End ZeroLengthVessel.

(** At 200 kPa the vessel of 1 m with zero length stops on the division; at
    50 kPa it returns the weight of its two heads with a wall of 0.25 in. *)
Lemma zero_length_vessel_divides_zero_by_zero_witness :
  Vessel.vertical_vessels_weight
    2 {| Vessel.lowest_pressure := 200; Vessel.highest_temp := 300;
         Vessel.diameter := 1; Vessel.tangent_tangent_length := 0;
         Vessel.material_density := 7850 |}
  = raise ZeroDivisionError /\
  Vessel.vertical_vessels_weight 2 Vessel.flat_vessel
  = ret (fin (PI * 0.25 * (7850 * 0.000036127298147753)
              * (1 * 39.3701 + 0.25) * (0.8 * (1 * 39.3701)) / 2.20462)).
Proof.
  split.
  - apply zero_length_vessel_divides_zero_by_zero.
    + simpl. lra.
    + reflexivity.
    + unfold Vessel.design_temp. simpl. lra.
    + simpl. lra.
  - apply (zero_length_vessel_divides_zero_by_zero Vessel.flat_vessel).
    + simpl. lra.
    + reflexivity.
    + unfold Vessel.design_temp. simpl. lra.
    + simpl. lra.
Defined.

(** ** Vessel: the low-pressure branch after its loop *)

Lemma fadd_allowance (x : float64) (c d : R) :
  fadd (fadd (fin c) x) (fin d) = fadd x (fin (d + c)).
Proof.
  destruct x as [a | | |]; simpl; try reflexivity. f_equal. lra.
Qed.

Section LowPressureAfterLoop.

Import Vessel.

Variables (fuel : nat) (design_pressure : option R) (E_modulus : R).
Variable i : VesselInput.

Lemma tEC_allowance :
  (if Rgt_dec (tEC i) 0 then 0.125 + tEC i else 0.125)
  = 0.125
    + Rmax 0 (tangent_tangent_length i * 39.3701
              * (0.18 * (diameter i * 39.3701) - 2.2) / 100000 - 0.19).
Proof.
  assert (E : tangent_tangent_length i * 39.3701
              * (0.18 * (diameter i * 39.3701) - 2.2) / 100000 - 0.19
              = tEC i).
  { unfold tEC, m_to_inch. change (powerRZ 10 (-5)) with (/ 10 ^ 5). field. }
  rewrite E. unfold Rmax.
  destruct (Rgt_dec (tEC i) 0), (Rle_dec 0 (tEC i)); lra.
Qed.

(** X20: when the low-pressure procedure returns, its value is the [tE] of
    the loop plus the 0.125 in allowance plus the correction
    [tEC = L_in * (0.18 * D_in - 2.2) * 1e-5 - 0.19] when that is positive;
    the warning on [tE / D_in >= 0.05] is the last line printed when it is
    printed and changes nothing in the value.  On Python numbers
    ([design_pressure = 10.0]) a return means that [tE] is a float and the
    diameter is not 0.  On [numpy.float64] the sum and the quotient are
    those of its arithmetic: with a diameter of 0 and a positive [tE] the
    quotient is [inf] and the warning is printed. *)
Theorem thickness_warning_is_advisory (out : list string) (t : float64) :
  low_pressure_thickness fuel design_pressure E_modulus i
  = (out, Returned t) ->
  let D_in := diameter i * 39.3701 in
  let allowance :=
    0.125 + Rmax 0 (tangent_tangent_length i * 39.3701
                    * (0.18 * D_in - 2.2) / 100000 - 0.19) in
  (design_pressure_is_numpy (lowest_pressure i) = false /\
   exists (out_loop : list string) (s : loop_state pynum) (tE' : R),
     iterate fuel (tE_vacuum design_pressure E_modulus i)
     = (out_loop, Returned s) /\
     tE s = Some (pyfloat tE') /\ D_in <> 0 /\
     t = fin (tE' + allowance) /\
     ((tE' / D_in >= 0.05 /\ out = out_loop ++ [thickness_warning]) \/
      (tE' / D_in < 0.05 /\ out = out_loop))) \/
  (design_pressure_is_numpy (lowest_pressure i) = true /\
   exists (out_loop : list string) (s : loop_state float64) (tE' : float64),
     iterate fuel (tE_vacuum_numpy design_pressure E_modulus i)
     = (out_loop, Returned s) /\
     tE s = Some tE' /\
     t = (tE' + allowance)%float64 /\
     ((fle 0.05 (tE' / D_in)%float64 = true /\
       out = out_loop ++ [thickness_warning]) \/
      (fle 0.05 (tE' / D_in)%float64 = false /\ out = out_loop)) /\
     (forall x : R,
         diameter i = 0 -> tE' = fin x -> 0 < x ->
         out = out_loop ++ [thickness_warning])).
Proof.
  intros H D_in allowance. unfold low_pressure_thickness in H.
  pose proof tEC_allowance as Hall. fold D_in in Hall. fold allowance in Hall.
  destruct (design_pressure_is_numpy (lowest_pressure i)); [right | left];
    (split; [reflexivity |]).
  - unfold low_pressure_thickness_numpy in H.
    apply bind_returned in H as (out_loop & s & out2 & Hs & H & ->).
    destruct (iterate_ended _ _ _ _ loop_test_initial_numpy Hs) as [_ HtE].
    rewrite HtE in H. simpl deref in H. rewrite bind_ret in H.
    cbv zeta in H. cbn [fmul] in H. fold m_to_inch in D_in.
    change (diameter i * m_to_inch) with D_in in H.
    exists out_loop, s, (tE1 s). split; [exact Hs |]. split; [exact HtE |].
    assert (Hval : (if Rgt_dec (tEC i) 0
                    then ret (fin (tEC i) + tE1 s + fin 0.125)%float64
                    else ret (tE1 s + fin 0.125)%float64)
                   = ret (tE1 s + fin allowance)%float64).
    { rewrite <- Hall.
      destruct (Rgt_dec (tEC i) 0);
        [apply f_equal, fadd_allowance | reflexivity]. }
    rewrite Hval in H. clear Hval.
    destruct (fle 0.05 (tE1 s / D_in)%float64) eqn:Hc.
    + rewrite bind_print in H. unfold ret in H. cbn [fst snd] in H.
      injection H as <- <-.
      split; [reflexivity |]. split; [left; now split | reflexivity].
    + rewrite bind_ret in H. unfold ret in H. injection H as <- <-.
      split; [reflexivity |].
      split; [right; split; [reflexivity | now rewrite app_nil_r] |].
      intros x HD0 Hx Hpos. exfalso.
      rewrite Hx in Hc. unfold D_in in Hc. rewrite HD0 in Hc.
      simpl in Hc. rewrite Rmult_0_l in Hc.
      destruct (Req_dec_T 0 0); [| contradiction].
      unfold inf_of_sign in Hc.
      destruct (Rlt_dec 0 x); [discriminate | contradiction].
  - unfold low_pressure_thickness_python in H.
    apply bind_returned in H as (out_loop & s & out2 & Hs & H & ->).
    destruct (iterate_ended _ _ _ _ loop_test_initial_pynum Hs) as [_ HtE].
    rewrite HtE in H. simpl deref in H. rewrite bind_ret in H.
    destruct (tE1 s) as [x | re im] eqn:Ex.
    2:{ apply bind_returned in H as (? & ? & ? & _ & H & _). discriminate. }
    fold m_to_inch in D_in.
    change (diameter i * m_to_inch) with D_in in H.
    unfold float_div in H.
    destruct (Req_dec_T D_in 0) as [| HD]; [discriminate |].
    rewrite bind_ret in H.
    exists out_loop, s, x. split; [exact Hs |]. split; [exact HtE |].
    split; [exact HD |].
    assert (Hval : (if Rgt_dec (tEC i) 0
                    then ret (fin (tEC i + x + 0.125))
                    else ret (fin (x + 0.125)))
                   = ret (fin (x + allowance))).
    { rewrite <- Hall.
      destruct (Rgt_dec (tEC i) 0); do 2 f_equal; lra. }
    rewrite Hval in H. clear Hval.
    destruct (Rge_dec (x / D_in) 0.05) as [Hc | Hc].
    + rewrite bind_print in H. unfold ret in H. cbn [fst snd] in H.
      injection H as <- <-.
      split; [reflexivity |]. left. now split.
    + rewrite bind_ret in H. unfold ret in H. injection H as <- <-.
      split; [reflexivity |].
      right. split; [lra | now rewrite app_nil_r].
Qed.

End LowPressureAfterLoop.

(** The vessel under vacuum: no warning, no correction. *)
Lemma thickness_warning_is_advisory_witness :
  exists (tE' : R) (s : Vessel.loop_state pynum),
    Vessel.low_pressure_thickness 2 (Some 10.0) (26.0 * 10 ^ 6)
                                  Vessel.hot_vacuum_vessel
    = ret (fin (tE' + 0.125)) /\
    Vessel.tE s = Some (pyfloat tE') /\
    tE' + 0.125
    = tE' + (0.125
             + Rmax 0 (1 * 39.3701 * (0.18 * (3 * 39.3701) - 2.2) / 100000
                       - 0.19)).
Proof.
  destruct hot_vacuum_vessel_low_pressure as (tE0 & _ & Hlow).
  assert (Hmax : Rmax 0 (1 * 39.3701 * (0.18 * (3 * 39.3701) - 2.2) / 100000
                         - 0.19) = 0)
    by (apply Rmax_left; lra).
  destruct (thickness_warning_is_advisory _ _ _ _ _ _ Hlow)
    as [(_ & out_loop & s & tE' & _ & HtE & _ & Ht & _) | (Hn & _)].
  - simpl in Ht. rewrite Hmax in Ht. injection Ht as Ht.
    assert (E : tE0 = tE') by lra. subst tE0.
    exists tE', s. split; [exact Hlow |]. split; [exact HtE |].
    rewrite Hmax. lra.
  - exfalso. rewrite hot_vacuum_vessel_pressure in Hn. discriminate.
Defined.

(** ** Vessel: a returned weight is a number *)



Section PositiveVessel.

Import Vessel.

Variable i : VesselInput.
Hypothesis HD : 0 < diameter i.
Hypothesis HL : 0 < tangent_tangent_length i.



End PositiveVessel.


(** ** Vessel: a thickness that has become complex *)

Lemma div_opposite_signs (n d : R) : n * d < 0 -> n / d < 0.
Proof.
  intros H. unfold Rdiv.
  destruct (Rlt_dec 0 d) as [Hd | Hd].
  - pose proof (Rinv_0_lt_compat d Hd) as Hi.
    assert (Hn : n < 0) by nra. nra.
  - assert (Hd' : d < 0).
    { destruct (Req_dec_T d 0) as [-> |]; [rewrite Rmult_0_r in H |]; lra. }
    pose proof (Rinv_lt_0_compat d Hd') as Hi.
    assert (Hn : 0 < n) by nra. nra.
Qed.

Lemma complex_div_returned (a b c d : R) (out : list string) (v : pynum) :
  complex_div a b c d = (out, Returned v) ->
  exists re im : R, v = pycomplex re im.
Proof.
  unfold complex_div.
  destruct (Req_dec_T c 0), (Req_dec_T d 0); try discriminate;
    intros [= _ <-]; eauto.
Qed.

Lemma complex_pow_returned (a b y : R) (out : list string) (v : pynum) :
  complex_pow a b y = (out, Returned v) ->
  exists re im : R, v = pycomplex re im.
Proof.
  unfold complex_pow.
  repeat match goal with |- context [if ?c then _ else _] => destruct c end;
    try discriminate; intros [= _ <-]; eauto.
Qed.

Section ComplexThickness.

Import Vessel.

Variables (dp E : R) (i : VesselInput).

(** From a complex [tE1] the right-hand side of [tE] is complex again. *)
Lemma tE_vacuum_stays_complex (re im : R) (out : list string) (v : pynum) :
  tE_vacuum (Some dp) E i (pycomplex re im) = (out, Returned v) ->
  exists re' im' : R, v = pycomplex re' im'.
Proof.
  unfold tE_vacuum. simpl deref. rewrite bind_ret. cbn [py_add py_mul py_div].
  intros H.
  apply bind_returned in H as (? & q & ? & Hq & H & _).
  apply complex_div_returned in Hq as (a & b & ->).
  apply bind_returned in H as (? & p & ? & Hp & H & _).
  cbn [py_pow] in Hp. apply complex_pow_returned in Hp as (c & d & ->).
  cbn [py_mul] in H. injection H as _ <-. eauto.
Qed.

Hypothesis Hdp : 0 < dp.
Hypothesis HE : 0 < E.

(** A negative quotient under the power 0.4 makes the first [tE] complex. *)
Lemma tE_vacuum_goes_complex (out : list string) (v : pynum) :
  tangent_tangent_length i * (diameter i * m_to_inch + 0.25) < 0 ->
  tE_vacuum (Some dp) E i (pyfloat 0.25) = (out, Returned v) ->
  exists re im : R, v = pycomplex re im.
Proof.
  intros Hneg. unfold tE_vacuum. simpl deref. rewrite bind_ret.
  cbn [py_add py_mul py_div].
  assert (Hsum : diameter i * m_to_inch + 0.25 <> 0).
  { intros Hz. rewrite Hz, Rmult_0_r in Hneg. lra. }
  assert (Hden : E * (diameter i * m_to_inch + 0.25) <> 0).
  { intros Hz. apply Rmult_integral in Hz as [Hz | Hz]; [lra | contradiction]. }
  rewrite float_div_ok, !bind_ret by exact Hden.
  set (q := dp * (tangent_tangent_length i * m_to_inch)
            / (E * (diameter i * m_to_inch + 0.25))).
  assert (Hq : q < 0).
  { unfold q. apply div_opposite_signs.
    replace (dp * (tangent_tangent_length i * m_to_inch)
             * (E * (diameter i * m_to_inch + 0.25)))
      with (dp * m_to_inch * E
            * (tangent_tangent_length i * (diameter i * m_to_inch + 0.25)))
      by ring.
    assert (Hc : 0 < dp * m_to_inch * E).
    { apply Rmult_lt_0_compat; [| exact HE]. unfold m_to_inch. lra. }
    set (c := dp * m_to_inch * E) in *. clearbody c.
    set (n := tangent_tangent_length i * (diameter i * m_to_inch + 0.25))
      in *. clearbody n. nra. }
  clearbody q. intros H.
  apply bind_returned in H as (? & p & ? & Hp & H & _).
  unfold py_pow in Hp.
  destruct (Req_dec_T q 0); [lra |].
  destruct (Req_dec_T (IZR (Zfloor 0.4)) 0.4) as [Hf | _].
  { exfalso. assert (Hz : Zfloor 0.4 = 0%Z) by (apply Zfloor_eq; simpl; lra).
    rewrite Hz in Hf. simpl in Hf. lra. }
  destruct (Rlt_dec 0 q); [lra |].
  apply complex_pow_returned in Hp as (c & d & ->).
  cbn [py_mul] in H. injection H as _ <-. eauto.
Qed.

(** Once the first pass has made it complex, the thickness stays complex
    in every later pass. *)
Lemma iterate_complex (fuel : nat) (out : list string)
      (s : loop_state pynum) :
  tangent_tangent_length i * (diameter i * m_to_inch + 0.25) < 0 ->
  iterate fuel (tE_vacuum (Some dp) E i) = (out, Returned s) ->
  exists re im : R, tE s = Some (pycomplex re im).
Proof.
  intros Hneg Hs.
  destruct (iterate_ended _ _ _ _ loop_test_initial_pynum Hs) as [_ HtE].
  rewrite HtE.
  assert (Hinv : s = initial_state \/ exists re im, tE1 s = pycomplex re im).
  { revert Hs. unfold iterate.
    apply while_invariant
      with (inv := fun s => s = initial_state
                            \/ exists re im, tE1 s = pycomplex re im).
    - intros s0 s' out0 Hs0 _ Hb. right. unfold loop_body in Hb.
      apply bind_returned in Hb as (? & v & ? & Hv & Hb & _).
      apply bind_returned in Hb as (? & e & ? & _ & Hb & _).
      injection Hb as _ <-. cbn [tE1].
      destruct Hs0 as [-> | (re & im & Hc)].
      + now apply tE_vacuum_goes_complex in Hv.
      + rewrite Hc in Hv. now apply tE_vacuum_stays_complex in Hv.
    - now left. }
  destruct Hinv as [-> | (re & im & ->)]; [discriminate | eauto].
Qed.

End ComplexThickness.

Section ComplexVessel.

Import Vessel.

Variable i : VesselInput.

(** X23: at [lowest_pressure <= 34.5] the vacuum loop works on Python
    numbers.  If the length and [D_in + 0.25] have opposite signs, the
    quotient raised to the power 0.4 in the first pass is negative and [tE]
    becomes a complex number; it stays complex, and the call never returns
    a weight: it ends in the [TypeError] of [check >= 0.05], in a
    [ZeroDivisionError], or not at all. *)
Theorem complex_thickness_is_never_returned (fuel : nat) :
  lowest_pressure i <= 34.5 ->
  tangent_tangent_length i * (diameter i * 39.3701 + 0.25) < 0 ->
  ~ (exists w : float64, snd (vertical_vessels_weight fuel i) = Returned w) /\
  raises_only (fun e => e = ZeroDivisionError \/ e = TypeError)
              (vertical_vessels_weight fuel i).
Proof.
  intros Hp Hneg. split.
  - intros (w & Hw).
    destruct (vertical_vessels_weight fuel i) as [out r] eqn:H.
    simpl in Hw. subst r. unfold vertical_vessels_weight in H.
    apply bind_returned in H as (? & t & ? & Ht & _).
    unfold total_thickness in Ht. cbv zeta in Ht.
    apply bind_returned in Ht as (? & S & ? & _ & Ht & _).
    apply bind_returned in Ht as (? & t0 & ? & Hw & _).
    unfold wall_thickness in Hw.
    destruct (Rge_dec (lowest_pressure i) 101); [lra |].
    destruct (Rle_dec (lowest_pressure i) 101); [| lra].
    apply bind_returned in Hw as (? & t1 & ? & Hlow & _).
    unfold low_pressure_thickness, design_pressure_is_numpy in Hlow.
    destruct (Rle_dec (lowest_pressure i) 34.5); [| lra].
    unfold design_pressure in Hlow.
    destruct (Rle_dec (lowest_pressure i) 34.5); [| lra].
    unfold low_pressure_thickness_python in Hlow.
    apply bind_returned in Hlow as (? & s & ? & Hs & Hlow & _).
    apply iterate_complex in Hs as (re & im & HtE);
      [| lra | apply E_modulus_pos | exact Hneg].
    rewrite HtE in Hlow. simpl deref in Hlow. rewrite bind_ret in Hlow.
    apply bind_returned in Hlow as (? & ? & ? & _ & Hlow & _).
    discriminate.
  - intros e He.
    destruct (vertical_vessels_weight_raises_only i fuel e He)
      as [[-> _] | [[-> _] | (_ & _ & Hp')]]; [now left | now right | lra].
Qed.

End ComplexVessel.

(** A vessel entered with a diameter of -1 m at 30 kPa returns nothing. *)
Lemma complex_thickness_is_never_returned_witness :
  let i := {| Vessel.lowest_pressure := 30; Vessel.highest_temp := 300;
              Vessel.diameter := -1; Vessel.tangent_tangent_length := 5;
              Vessel.material_density := 7850 |} in
  ~ (exists w : float64,
        snd (Vessel.vertical_vessels_weight 100 i) = Returned w).
Proof.
  cbv zeta.
  apply complex_thickness_is_never_returned; simpl; lra.
Defined.

(** ** From the tube count to the shell *)

Section TubesToShell.

Import HeatExchanger.

Variables (heat_transfer_area tube_outer_diameter length : R).
Variables (n min_tubes : Z) (min_shell_diameter : R).

(** X21: for an area that is not negative, on tubes of positive diameter
    and length, the count returned by [estimate_tube_number] is not
    negative, and [calculate_shell_diameter] accepts it with either pitch
    type and returns a diameter of at least [min_shell_diameter]. *)
Theorem tube_count_feeds_shell_diameter (pitch_type : string) :
  0 <= heat_transfer_area -> 0 < tube_outer_diameter -> 0 < length ->
  pitch_type = "t"%string \/ pitch_type = "s"%string ->
  exists (k : Z) (d : R),
    estimate_tube_number heat_transfer_area tube_outer_diameter length
                         n min_tubes = ret k /\
    (0 <= k)%Z /\
    calculate_shell_diameter k tube_outer_diameter pitch_type
                             min_shell_diameter = ret d /\
    min_shell_diameter <= d.
Proof.
  intros Ha Ho Hl Hp. pose proof PI_bounds as [Hpi _].
  assert (Hs : 0 < PI * tube_outer_diameter * length)
    by (apply Rmult_lt_0_compat; [apply Rmult_lt_0_compat |]; lra).
  rewrite estimate_tube_number_unfold by lra. cbv zeta.
  set (raw := raw_tube_count heat_transfer_area tube_outer_diameter length).
  assert (Hraw : (0 <= raw)%Z).
  { unfold raw, raw_tube_count, math_ceil.
    apply le_IZR. pose proof (Zceil_bound
      (heat_transfer_area / (PI * tube_outer_diameter * length))) as [_ Hc].
    apply Rle_trans with (2 := Hc).
    apply Rmult_le_pos; [exact Ha | left; now apply Rinv_0_lt_compat]. }
  set (k := if (n <? _)%Z then 0%Z else _).
  assert (Hk : (0 <= k)%Z).
  { unfold k. destruct (n <? _)%Z; [lia |].
    destruct ((1 <? raw) && (raw <? min_tubes))%Z eqn:E; [| lia].
    apply andb_true_iff in E as [_ E]. apply Z.ltb_lt in E. lia. }
  exists k. destruct Hp as [-> | ->]; eexists.
  - split; [reflexivity |]. split; [exact Hk |].
    split; [now apply shell_diameter_triangular | apply Rmax_r].
  - split; [reflexivity |]. split; [exact Hk |].
    split; [now apply shell_diameter_square | apply Rmax_r].
Qed.

End TubesToShell.

Lemma tube_count_feeds_shell_diameter_witness :
  exists (k : Z) (d : R),
    HeatExchanger.estimate_tube_number 5 1 1 25 20 = ret k /\
    (0 <= k)%Z /\
    HeatExchanger.calculate_shell_diameter k 1 "t" 0.15 = ret d /\
    0.15 <= d.
Proof.
  apply tube_count_feeds_shell_diameter; try lra; try lia. now left.
Defined.
